(** * oauth-service: the login and callback handlers, the cookie codec and
    the origin resolver, embedded from the JavaScript sources

    - [src/config/index.js]        -> [Module Config]
    - [src/utils/cookies.js]       -> [Module Cookies]
    - [src/utils/cors.js]          -> [Module Cors]
    - [src/handlers/oauth-login.js]    -> [Module OauthLogin]
    - [src/handlers/oauth-callback.js] -> [Module OauthCallback]

    JavaScript strings are sequences of 16-bit code units; they are
    modelled as [list N].  The built-ins the sources call
    ([split], [trim], [encodeURIComponent], [decodeURIComponent],
    [JSON.stringify], [URLSearchParams]) are written out in [Module JS]
    after ECMA-262 and the WHATWG URL standard.  [console.*] output is not
    modelled: no call to it in the sources can throw or change a result. *)

From Stdlib Require Import NArith String Ascii DecimalString Lia.
From stdpp Require Import base option list gmap.

Local Open Scope N_scope.

(** ** JavaScript values and built-ins *)
Module JS.

(** A string literal of the source, as code units. *)
Definition js (s : string) : list N :=
  List.map N_of_ascii (list_ascii_of_string s).
Arguments js : simpl never.

(** The double quote, kept apart from the literals. *)
Definition dq : list N := [34].

(** Abrupt completions: the exceptions the built-ins used here can raise,
    and a rejected [fetch]/[json()] promise. *)
Inductive js_error : Type :=
  | URIError
  | FetchFailure.

Inductive completion (A : Type) : Type :=
  | Normal (a : A)
  | Throw (e : js_error).
Arguments Normal {A} a.
Arguments Throw {A} e.

#[global] Instance completion_ret : MRet completion := fun A a => Normal a.
#[global] Instance completion_bind : MBind completion := fun A B f c =>
  match c with
  | Normal a => f a
  | Throw e => Throw e
  end.
#[global] Instance completion_fmap : FMap completion := fun A B f c =>
  match c with
  | Normal a => Normal (f a)
  | Throw e => Throw e
  end.

(** [error.message] as V8 (Node.js) words it. *)
Definition error_message (e : js_error) : list N :=
  match e with
  | URIError => js "URI malformed"
  | FetchFailure => js "fetch failed"
  end.

(** ToBoolean on a value that is a string or [undefined]/[null]. *)
Definition truthy (v : option (list N)) : bool :=
  match v with
  | Some (_ :: _) => true
  | _ => false
  end.

(** [a || b] on such values. *)
Definition or_else (a b : option (list N)) : option (list N) :=
  if truthy a then a else b.

(** Template-literal interpolation [${v}] of a string or [undefined]. *)
Definition interpolate (v : option (list N)) : list N :=
  match v with
  | Some s => s
  | None => js "undefined"
  end.

(** *** String.prototype.split with a one-code-unit separator *)
Fixpoint split (sep : N) (s : list N) : list (list N) :=
  match s with
  | [] => [[]]
  | c :: r =>
      if c =? sep then [] :: split sep r
      else match split sep r with
           | p :: ps => (c :: p) :: ps
           | [] => [[c]]
           end
  end.

(** *** String.prototype.trim: WhiteSpace and LineTerminator code units *)
Definition is_whitespace (c : N) : bool :=
  (c =? 0x9) || (c =? 0xA) || (c =? 0xB) || (c =? 0xC) || (c =? 0xD)
  || (c =? 0x20) || (c =? 0xA0) || (c =? 0x1680)
  || ((0x2000 <=? c) && (c <=? 0x200A))
  || (c =? 0x2028) || (c =? 0x2029) || (c =? 0x202F) || (c =? 0x205F)
  || (c =? 0x3000) || (c =? 0xFEFF).

Fixpoint trimStart (s : list N) : list N :=
  match s with
  | c :: r => if is_whitespace c then trimStart r else s
  | [] => []
  end.

Definition trimEnd (s : list N) : list N := rev (trimStart (rev s)).

Definition trim (s : list N) : list N := trimEnd (trimStart s).

(** *** String.prototype.includes *)
Fixpoint startsWith (p s : list N) : bool :=
  match p, s with
  | [], _ => true
  | a :: p', b :: s' => (a =? b) && startsWith p' s'
  | _ :: _, [] => false
  end.

Fixpoint includes (s p : list N) : bool :=
  startsWith p s ||
  match s with
  | [] => false
  | _ :: r => includes r p
  end.

(** *** Hexadecimal digits *)
Definition hex_upper (d : N) : N := if d <? 10 then 48 + d else 55 + d.
Definition hex_lower (d : N) : N := if d <? 10 then 48 + d else 87 + d.

Definition hex_value (c : N) : option N :=
  if (48 <=? c) && (c <=? 57) then Some (c - 48)
  else if (65 <=? c) && (c <=? 70) then Some (c - 55)
  else if (97 <=? c) && (c <=? 102) then Some (c - 87)
  else None.

(** ParseHexOctet *)
Definition hex_octet (h l : N) : option N :=
  match hex_value h, hex_value l with
  | Some a, Some b => Some (16 * a + b)
  | _, _ => None
  end.

(** *** UTF-16 and UTF-8 *)
Definition is_high_surrogate (c : N) : bool := (0xD800 <=? c) && (c <=? 0xDBFF).
Definition is_low_surrogate (c : N) : bool := (0xDC00 <=? c) && (c <=? 0xDFFF).

(** UTF16SurrogatePairToCodePoint *)
Definition pair_code_point (hi lo : N) : N :=
  0x10000 + (hi - 0xD800) * 0x400 + (lo - 0xDC00).

(** UTF16EncodeCodePoint *)
Definition utf16 (cp : N) : list N :=
  if cp <? 0x10000 then [cp]
  else [0xD800 + (cp - 0x10000) / 0x400; 0xDC00 + (cp - 0x10000) mod 0x400].

(** The UTF-8 octets of a code point. *)
Definition utf8 (cp : N) : list N :=
  if cp <? 0x80 then [cp]
  else if cp <? 0x800 then [0xC0 + cp / 0x40; 0x80 + cp mod 0x40]
  else if cp <? 0x10000 then
    [0xE0 + cp / 0x1000; 0x80 + (cp / 0x40) mod 0x40; 0x80 + cp mod 0x40]
  else
    [0xF0 + cp / 0x40000; 0x80 + (cp / 0x1000) mod 0x40;
     0x80 + (cp / 0x40) mod 0x40; 0x80 + cp mod 0x40].

(** String.prototype.isWellFormed, on code units below 2^16. *)
Fixpoint isWellFormed (s : list N) : bool :=
  match s with
  | [] => true
  | c :: r =>
      if is_high_surrogate c then
        match r with
        | d :: r' => is_low_surrogate d && isWellFormed r'
        | [] => false
        end
      else (c <? 0x10000) && negb (is_low_surrogate c) && isWellFormed r
  end.

(** *** encodeURIComponent (ECMA-262 Encode with the empty extra set) *)
Definition uri_unescaped (c : N) : bool :=
  ((65 <=? c) && (c <=? 90)) || ((97 <=? c) && (c <=? 122))
  || ((48 <=? c) && (c <=? 57)) || (c =? 95)
  || (c =? 45) || (c =? 46) || (c =? 33) || (c =? 126) || (c =? 42)
  || (c =? 39) || (c =? 40) || (c =? 41).

Definition percent_octet (b : N) : list N :=
  [37; hex_upper (b / 16); hex_upper (b mod 16)].

Definition percent_octets (bs : list N) : list N :=
  concat (List.map percent_octet bs).

Fixpoint encodeURIComponent (s : list N) : completion (list N) :=
  match s with
  | [] => Normal []
  | c :: r =>
      if uri_unescaped c then cons c <$> encodeURIComponent r
      else if is_high_surrogate c then
        match r with
        | d :: r' =>
            if is_low_surrogate d
            then app (percent_octets (utf8 (pair_code_point c d)))
                   <$> encodeURIComponent r'
            else Throw URIError
        | [] => Throw URIError
        end
      else if is_low_surrogate c then Throw URIError
      else app (percent_octets (utf8 c)) <$> encodeURIComponent r
  end.

(** *** decodeURIComponent (ECMA-262 Decode with the empty preserve set)

    The standard's loop reads a code unit, and after a percent sign an octet
    and the continuation octets its leading bits announce, each as a percent
    sign and two hexadecimal digits, and throws a URIError at the first
    thing missing or malformed.  Here the same is done in two structural
    passes: [uri_tokens] reads the escapes, [utf8_units] groups the octets
    into code points.  Every failure is the same URIError, so the order in
    which the two passes meet them changes nothing. *)
Inductive uri_token : Type :=
  | Lit (c : N)
  | Esc (b : N).

Fixpoint uri_tokens (s : list N) : completion (list uri_token) :=
  match s with
  | [] => Normal []
  | c :: r =>
      if c =? 37 then
        match r with
        | h :: l :: r' =>
            match hex_octet h l with
            | Some b => cons (Esc b) <$> uri_tokens r'
            | None => Throw URIError
            end
        | _ => Throw URIError
        end
      else cons (Lit c) <$> uri_tokens r
  end.

Definition is_continuation (b : N) : bool := (0x80 <=? b) && (b <=? 0xBF).

(** The code point of a well-formed 2-, 3- or 4-octet sequence: continuation
    octets in range, no overlong form, no surrogate, at most U+10FFFF. *)
Definition utf8_cp2 (b1 b2 : N) : completion N :=
  let cp := (b1 - 0xC0) * 0x40 + (b2 - 0x80) in
  if is_continuation b2 && (0x80 <=? cp) then Normal cp else Throw URIError.

Definition utf8_cp3 (b1 b2 b3 : N) : completion N :=
  let cp := (b1 - 0xE0) * 0x1000 + (b2 - 0x80) * 0x40 + (b3 - 0x80) in
  if is_continuation b2 && is_continuation b3 && (0x800 <=? cp)
     && negb ((0xD800 <=? cp) && (cp <=? 0xDFFF))
  then Normal cp else Throw URIError.

Definition utf8_cp4 (b1 b2 b3 b4 : N) : completion N :=
  let cp := (b1 - 0xF0) * 0x40000 + (b2 - 0x80) * 0x1000
            + (b3 - 0x80) * 0x40 + (b4 - 0x80) in
  if is_continuation b2 && is_continuation b3 && is_continuation b4
     && (0x10000 <=? cp) && (cp <=? 0x10FFFF)
  then Normal cp else Throw URIError.

Fixpoint utf8_units (ts : list uri_token) : completion (list N) :=
  match ts with
  | [] => Normal []
  | Lit c :: r => cons c <$> utf8_units r
  | Esc b :: r =>
      if b <? 0x80 then cons b <$> utf8_units r
      else if b <? 0xC0 then Throw URIError
      else if b <? 0xE0 then
        match r with
        | Esc b2 :: r' =>
            cp ← utf8_cp2 b b2; app (utf16 cp) <$> utf8_units r'
        | _ => Throw URIError
        end
      else if b <? 0xF0 then
        match r with
        | Esc b2 :: Esc b3 :: r' =>
            cp ← utf8_cp3 b b2 b3; app (utf16 cp) <$> utf8_units r'
        | _ => Throw URIError
        end
      else if b <? 0xF8 then
        match r with
        | Esc b2 :: Esc b3 :: Esc b4 :: r' =>
            cp ← utf8_cp4 b b2 b3 b4; app (utf16 cp) <$> utf8_units r'
        | _ => Throw URIError
        end
      else Throw URIError
  end.

Definition decodeURIComponent (s : list N) : completion (list N) :=
  ts ← uri_tokens s; utf8_units ts.

(** *** Strict equality of strings *)
Fixpoint strict_eq (a b : list N) : bool :=
  match a, b with
  | [], [] => true
  | x :: a', y :: b' => (x =? y) && strict_eq a' b'
  | _, _ => false
  end.

(** [a === b] on values that are strings or absent. *)
Definition same_value (a b : option (list N)) : bool :=
  match a, b with
  | Some x, Some y => strict_eq x y
  | None, None => true
  | _, _ => false
  end.

(** Array.prototype.includes on an array of strings. *)
Definition array_includes (l : list (list N)) (x : list N) : bool :=
  existsb (strict_eq x) l.

(** Array.prototype.join *)
Fixpoint join (sep : list N) (l : list (list N)) : list N :=
  match l with
  | [] => []
  | [x] => x
  | x :: r => x ++ sep ++ join sep r
  end.

(** Number::toString of a non-negative integer below 2^53: its decimal
    digits.  (From 10^21 on a number prints in exponent form; negative and
    fractional numbers are not integers of this kind.) *)
Definition number_to_string (n : N) : list N :=
  js (NilEmpty.string_of_uint (N.to_uint n)).

(** *** JSON.stringify on strings, arrays and objects of them *)
#[local] Set Warnings "-register-all".
Inductive json : Type :=
  | JString (s : list N)
  | JArray (l : list json)
  | JObject (l : list (list N * json)).

Definition unicode_escape (c : N) : list N :=
  js "\u" ++ [hex_lower (c / 4096); hex_lower ((c / 256) mod 16);
              hex_lower ((c / 16) mod 16); hex_lower (c mod 16)].

(** The body of QuoteJSONString. *)
Fixpoint quote_units (s : list N) : list N :=
  match s with
  | [] => []
  | c :: r =>
      if c =? 0x8 then js "\b" ++ quote_units r
      else if c =? 0x9 then js "\t" ++ quote_units r
      else if c =? 0xA then js "\n" ++ quote_units r
      else if c =? 0xC then js "\f" ++ quote_units r
      else if c =? 0xD then js "\r" ++ quote_units r
      else if c =? 0x22 then js "\" ++ dq ++ quote_units r
      else if c =? 0x5C then js "\\" ++ quote_units r
      else if c <? 0x20 then unicode_escape c ++ quote_units r
      else if is_high_surrogate c then
        match r with
        | d :: r' =>
            if is_low_surrogate d then c :: d :: quote_units r'
            else unicode_escape c ++ quote_units r
        | [] => unicode_escape c
        end
      else if is_low_surrogate c then unicode_escape c ++ quote_units r
      else c :: quote_units r
  end.

Definition quote_json_string (s : list N) : list N := dq ++ quote_units s ++ dq.

Fixpoint stringify (j : json) : list N :=
  match j with
  | JString s => quote_json_string s
  | JArray l => js "[" ++ join (js ",") (List.map stringify l) ++ js "]"
  | JObject l =>
      js "{"
      ++ join (js ",")
           (List.map (fun kv => quote_json_string (fst kv) ++ js ":" ++ stringify (snd kv)) l)
      ++ js "}"
  end.

(** A property whose value is [undefined] is left out by JSON.stringify. *)
Definition property (k : list N) (v : option (list N)) : list (list N * json) :=
  match v with
  | Some s => [(k, JString s)]
  | None => []
  end.

(** *** URLSearchParams serialisation (WHATWG URL, application/x-www-form-urlencoded) *)

(** Conversion to a USVString: a lone surrogate becomes U+FFFD. *)
Fixpoint code_points (s : list N) : list N :=
  match s with
  | [] => []
  | c :: r =>
      if is_high_surrogate c then
        match r with
        | d :: r' =>
            if is_low_surrogate d then pair_code_point c d :: code_points r'
            else 0xFFFD :: code_points r
        | [] => [0xFFFD]
        end
      else if is_low_surrogate c then 0xFFFD :: code_points r
      else c :: code_points r
  end.

Definition form_unescaped (b : N) : bool :=
  ((65 <=? b) && (b <=? 90)) || ((97 <=? b) && (b <=? 122))
  || ((48 <=? b) && (b <=? 57))
  || (b =? 42) || (b =? 45) || (b =? 46) || (b =? 95).

Definition form_octet (b : N) : list N :=
  if b =? 0x20 then [43]
  else if form_unescaped b then [b]
  else percent_octet b.

Definition form_encode (s : list N) : list N :=
  concat (List.map form_octet (concat (List.map utf8 (code_points s)))).

Definition urlencoded (params : list (list N * list N)) : list N :=
  join (js "&")
    (List.map (fun kv => form_encode (fst kv) ++ js "=" ++ form_encode (snd kv)) params).

(** *** Buffer.prototype.toString('hex') *)
Definition hex_of_byte (b : Byte.byte) : list N :=
  [hex_lower (Byte.to_N b / 16); hex_lower (Byte.to_N b mod 16)].

Definition toString_hex (buf : list Byte.byte) : list N :=
  concat (List.map hex_of_byte buf).

(** *** Ordinary objects created by an object literal

    A property read [obj[k]] finds an own property or, failing that, what
    [Object.prototype] defines under [k]; these are its property names. *)
Definition object_prototype_names : list (list N) :=
  [js "constructor"; js "__defineGetter__"; js "__defineSetter__";
   js "hasOwnProperty"; js "__lookupGetter__"; js "__lookupSetter__";
   js "isPrototypeOf"; js "propertyIsEnumerable"; js "toString";
   js "valueOf"; js "__proto__"; js "toLocaleString"].

(** [obj[k] = v] on an object used as a string-to-string map.  Under the key
    [__proto__] the assignment runs the setter of [Object.prototype], which
    ignores a value that is not an object: no property is created. *)
Definition object_set (obj : gmap (list N) (list N)) (k v : list N)
  : gmap (list N) (list N) :=
  if strict_eq k (js "__proto__") then obj else <[k := v]> obj.

End JS.

Import JS.

(** ** The Lambda event and response (API Gateway), as the handlers read
    and build them.  All header and query values are strings. *)
Record event_headers : Type := {
  h_cookie : option (list N);
  h_Cookie : option (list N);
  h_origin : option (list N);
  h_Origin : option (list N)
}.

Record query_parameters : Type := {
  q_code : option (list N);
  q_state : option (list N);
  q_error : option (list N);
  q_project : option (list N)
}.

Record event : Type := {
  path : option (list N);
  headers : option event_headers;
  queryStringParameters : option query_parameters;
  httpMethod : option (list N);
  requestContext_http_method : option (list N)
}.

Record response : Type := {
  statusCode : N;
  res_headers : list (list N * list N);
  cookies : option (list (list N));
  body : list N
}.

(** [{ ...a, k: v }]: [k] keeps its place when [a] has it, else goes last. *)
Fixpoint with_header (a : list (list N * list N)) (k v : list N)
  : list (list N * list N) :=
  match a with
  | [] => [(k, v)]
  | (k', v') :: r =>
      if strict_eq k' k then (k, v) :: r else (k', v') :: with_header r k v
  end.

(** A header whose value may be [undefined]; such an entry does not reach
    the serialised response. *)
Definition property_headers (k : list N) (v : option (list N))
  : list (list N * list N) :=
  match v with
  | Some s => [(k, s)]
  | None => []
  end.

Definition header (r : response) (k : list N) : option (list N) :=
  snd <$> List.find (fun kv => strict_eq (fst kv) k) (res_headers r).

(** ** src/config/index.js *)
Module Config.

(** [process.env], the variables the service reads. *)
Record environment : Type := {
  NODE_ENV : option (list N);
  GITHUB_CLIENT_ID : option (list N);
  GH_CLIENT_ID : option (list N);
  GITHUB_CLIENT_SECRET : option (list N);
  GH_CLIENT_SECRET : option (list N);
  OAUTH_API_URL : option (list N);
  ADDITIONAL_ORIGINS : option (list N)
}.

Record project : Type := {
  name : list N;
  frontendUrl : list N
}.

Record config : Type := {
  github_clientId : option (list N);
  github_clientSecret : option (list N);
  github_scope : list N;
  api_baseUrl : list N;
  api_callbackPath : list N;
  projects_create : project;
  projects_prompts : project;
  allowedOrigins : list (list N);
  security_stateLength : nat;
  security_cookieMaxAge : N;
  security_tokenValidation : bool
}.

Definition isProduction (env : environment) : bool :=
  match NODE_ENV env with
  | Some v => strict_eq v (js "production")
  | None => false
  end.

(** [a || d] where [d] is a string literal. *)
Definition or_literal (a : option (list N)) (d : list N) : list N :=
  match a with
  | Some (c :: r) => c :: r
  | _ => d
  end.

Definition getConfig (env : environment) : config :=
  let isProduction := isProduction env in
  let create :=
    {| name := js "create";
       frontendUrl := if isProduction then js "https://create.rbios.net"
                      else js "http://localhost:5173" |} in
  let prompts :=
    {| name := js "prompts";
       frontendUrl := if isProduction then js "https://prompts.rbios.net"
                      else js "http://localhost:5174" |} in
  let computed :=
    List.filter (fun o => truthy (Some o))
      (List.map frontendUrl [create; prompts]
       ++ match ADDITIONAL_ORIGINS env with
          | Some extra => split 44 extra
          | None => []
          end) in
  {| github_clientId := or_else (GITHUB_CLIENT_ID env) (GH_CLIENT_ID env);
     github_clientSecret := or_else (GITHUB_CLIENT_SECRET env) (GH_CLIENT_SECRET env);
     github_scope := js "repo,user";
     api_baseUrl :=
       or_literal (OAUTH_API_URL env)
         (if isProduction then js "https://api.rbios.net" else js "http://localhost:3000");
     api_callbackPath := js "/oauth/callback";
     projects_create := create;
     projects_prompts := prompts;
     allowedOrigins :=
       if isProduction then computed
       else computed ++ [js "http://localhost:3000"; js "http://localhost:3001";
                         js "http://localhost:5173"; js "http://localhost:5174"];
     security_stateLength := 16;
     security_cookieMaxAge := 600;
     security_tokenValidation := true |}.

(** What [config.projects[id]] evaluates to: an own entry of the table, a
    built-in inherited from [Object.prototype] (truthy, and without a
    [frontendUrl]), or [undefined]. *)
Inductive projects_entry : Type :=
  | Own (p : project)
  | Inherited
  | Undefined.

Definition projects_get (c : config) (id : list N) : projects_entry :=
  if strict_eq id (js "create") then Own (projects_create c)
  else if strict_eq id (js "prompts") then Own (projects_prompts c)
  else if array_includes object_prototype_names id then Inherited
  else Undefined.

(** The keys of [config.projects]. *)
Definition project_ids : list (list N) := [js "create"; js "prompts"].

Record validation : Type := {
  valid : bool;
  errors : list (list N)
}.

Definition validateConfig (env : environment) : validation :=
  let config := getConfig env in
  let errors :=
    (if truthy (github_clientId config) then [] else [js "Missing GitHub Client ID"])
    ++ (if truthy (github_clientSecret config) then []
        else [js "Missing GitHub Client Secret"])
    ++ (if (List.length (allowedOrigins config) =? 0)%nat
        then [js "No allowed origins configured"] else []) in
  {| valid := (List.length errors =? 0)%nat; errors := errors |}.

Definition getOAuthCallbackUrl (env : environment) (project : option (list N)) : list N :=
  let config := getConfig env in
  let baseUrl := api_baseUrl config in
  let callbackPath := api_callbackPath config in
  if truthy project
  then baseUrl ++ callbackPath ++ js "?project=" ++ interpolate project
  else baseUrl ++ callbackPath.

End Config.

(** ** src/utils/cookies.js *)
Module Cookies.

(** [maxAge], when given, is a number of seconds: a non-negative integer
    below 2^53, as the callers pass it (600); other numbers are not
    modelled. *)
Record cookie_options : Type := {
  httpOnly : bool;
  secure : bool;
  sameSite : option (list N);
  maxAge : option N;
  path : option (list N);
  domain : option (list N)
}.

(** [options = {}] *)
Definition no_options : cookie_options :=
  {| httpOnly := false; secure := false; sameSite := None; maxAge := None;
     path := None; domain := None |}.

Definition createCookieHeader (name value : list N) (options : cookie_options)
  : completion (list N) :=
  encoded ← encodeURIComponent value;
  let cookie := name ++ js "=" ++ encoded in
  let cookie := if httpOnly options then cookie ++ js "; HttpOnly" else cookie in
  let cookie := if secure options then cookie ++ js "; Secure" else cookie in
  let cookie := if truthy (sameSite options)
                then cookie ++ js "; SameSite=" ++ interpolate (sameSite options)
                else cookie in
  let cookie := match maxAge options with
                | Some (Npos n) => cookie ++ js "; Max-Age=" ++ number_to_string (Npos n)
                | _ => cookie
                end in
  let cookie := if truthy (path options)
                then cookie ++ js "; Path=" ++ interpolate (path options)
                else cookie in
  let cookie := if truthy (domain options)
                then cookie ++ js "; Domain=" ++ interpolate (domain options)
                else cookie in
  mret cookie.

(** [event.headers?.cookie || event.headers?.Cookie || ''] *)
Definition cookieHeader (ev : event) : list N :=
  match headers ev with
  | Some h => Config.or_literal (or_else (h_cookie h) (h_Cookie h)) []
  | None => []
  end.

(** One turn of the [forEach] callback. *)
Definition parseCookie (cookies : gmap (list N) (list N)) (cookie : list N)
  : completion (gmap (list N) (list N)) :=
  let parts := split 61 (trim cookie) in
  let name := parts !! 0%nat in
  let value := parts !! 1%nat in
  match name, value with
  | Some (c :: n), Some (d :: v) =>
      decoded ← decodeURIComponent (d :: v);
      mret (object_set cookies (c :: n) decoded)
  | _, _ => mret cookies
  end.

Fixpoint forEach (pieces : list (list N)) (cookies : gmap (list N) (list N))
  : completion (gmap (list N) (list N)) :=
  match pieces with
  | [] => mret cookies
  | cookie :: rest => cookies' ← parseCookie cookies cookie; forEach rest cookies'
  end.

(** [parseCookies] on the cookie header itself. *)
Definition parseCookieHeader (cookieHeader : list N)
  : completion (gmap (list N) (list N)) :=
  forEach (split 59 cookieHeader) ∅.

Definition parseCookies (ev : event) : completion (gmap (list N) (list N)) :=
  parseCookieHeader (cookieHeader ev).

(** [cookies.oauth_state || null]; [Object.prototype] has no [oauth_state],
    so the read finds an own property or nothing. *)
Definition extractStateFromCookies (ev : event) : completion (option (list N)) :=
  cookies ← parseCookies ev;
  mret (or_else (cookies !! js "oauth_state") None).

(** The argument is [process.env.NODE_ENV] by default.  [domain] is
    [undefined] in production and [null] otherwise: absent either way. *)
Definition getCookieOptions (environment : option (list N)) : cookie_options :=
  let isProduction := match environment with
                      | Some v => strict_eq v (js "production")
                      | None => false
                      end in
  {| httpOnly := true;
     secure := isProduction;
     sameSite := Some (js "Lax");
     maxAge := Some 600;
     path := Some (js "/");
     domain := None |}.

End Cookies.

(** ** src/utils/cors.js *)
Module Cors.

Definition getCorsHeaders (env : Config.environment) (ev : event)
  : list (list N * list N) :=
  let config := Config.getConfig env in
  let origin :=
    match headers ev with
    | Some h => Config.or_literal (or_else (h_origin h) (h_Origin h)) []
    | None => []
    end in
  let isAllowedOrigin := array_includes (Config.allowedOrigins config) origin in
  let corsOrigin :=
    if isAllowedOrigin then Some origin else Config.allowedOrigins config !! 0%nat in
  property_headers (js "Access-Control-Allow-Origin") corsOrigin
  ++ [(js "Access-Control-Allow-Headers", js "Content-Type, Authorization");
      (js "Access-Control-Allow-Methods", js "GET, POST, OPTIONS");
      (js "Access-Control-Allow-Credentials", js "true")].

Definition handlePreflight (headers : list (list N * list N)) : response :=
  {| statusCode := 200;
     res_headers := headers;
     cookies := None;
     body := stringify (JObject [(js "message", JString (js "OK"))]) |}.

Definition isValidOrigin (env : Config.environment) (origin : list N) : bool :=
  array_includes (Config.allowedOrigins (Config.getConfig env)) origin.

(** [undefined] when [config.projects[project]] is truthy and has no
    [frontendUrl]. *)
Definition getFrontendOrigin (env : Config.environment) (project : list N)
  : option (list N) :=
  let config := Config.getConfig env in
  match Config.projects_get config project with
  | Config.Undefined => Some (Config.frontendUrl (Config.projects_create config))
  | Config.Own projectConfig => Some (Config.frontendUrl projectConfig)
  | Config.Inherited => None
  end.

End Cors.

(** ** src/handlers/oauth-login.js *)
Module OauthLogin.

(** [v === lit] for a value that is a string or [undefined]. *)
Definition is_literal (v : option (list N)) (lit : list N) : bool :=
  match v with
  | Some s => strict_eq s lit
  | None => false
  end.

(** [const { project = 'create' } = event.queryStringParameters || {}] *)
Definition requested_project (ev : event) : list N :=
  match queryStringParameters ev with
  | Some q => default (js "create") (q_project q)
  | None => js "create"
  end.

(** The state token.  [randomBytes] stands for [crypto.randomBytes]: it
    returns the requested number of random bytes. *)
Definition stateWithProject (env : Config.environment)
    (randomBytes : nat -> list Byte.byte) (ev : event) : list N :=
  let config := Config.getConfig env in
  let project := requested_project ev in
  let state := toString_hex (randomBytes (Config.security_stateLength config)) in
  state ++ js ":" ++ project.

(** The body of the [try] block. *)
Definition issue (env : Config.environment) (randomBytes : nat -> list Byte.byte)
    (ev : event) (corsHeaders : list (list N * list N)) : completion response :=
  let config := Config.getConfig env in
  let stateWithProject := stateWithProject env randomBytes ev in
  let githubAuthUrl :=
    js "https://github.com/login/oauth/authorize" ++ js "?"
    ++ urlencoded
         [(js "client_id", interpolate (Config.github_clientId config));
          (js "redirect_uri", Config.getOAuthCallbackUrl env None);
          (js "scope", Config.github_scope config);
          (js "state", stateWithProject)] in
  let cookieOptions := Cookies.getCookieOptions (Config.NODE_ENV env) in
  stateCookie ← Cookies.createCookieHeader (js "oauth_state") stateWithProject cookieOptions;
  mret {| statusCode := 302;
          res_headers := with_header corsHeaders (js "Location") githubAuthUrl;
          cookies := Some [stateCookie];
          body := [] |}.

Definition handler (env : Config.environment) (randomBytes : nat -> list Byte.byte)
    (ev : event) : response :=
  let configValidation := Config.validateConfig env in
  if negb (Config.valid configValidation) then
    {| statusCode := 500;
       res_headers := [(js "Content-Type", js "application/json")];
       cookies := None;
       body := stringify
                 (JObject [(js "error", JString (js "Server configuration error"));
                           (js "details",
                            JArray (List.map JString (Config.errors configValidation)))]) |}
  else
    let corsHeaders := Cors.getCorsHeaders env ev in
    let httpMethod := or_else (httpMethod ev) (requestContext_http_method ev) in
    if is_literal httpMethod (js "OPTIONS") then Cors.handlePreflight corsHeaders
    else if negb (is_literal httpMethod (js "GET")) then
      {| statusCode := 405;
         res_headers := with_header corsHeaders (js "Content-Type") (js "application/json");
         cookies := None;
         body := stringify (JObject [(js "error", JString (js "Method not allowed"))]) |}
    else
      match issue env randomBytes ev corsHeaders with
      | Normal r => r
      | Throw error =>
          {| statusCode := 500;
             res_headers :=
               with_header corsHeaders (js "Content-Type") (js "application/json");
             cookies := None;
             body := stringify
                       (JObject [(js "error", JString (js "Internal server error"));
                                 (js "message", JString (error_message error))]) |}
      end.

End OauthLogin.

(** ** src/handlers/oauth-callback.js *)
Module OauthCallback.

(** The template of [generatePostMessageHTML], cut at its two holes and
    where the script's [postMessage] statement starts. *)
Definition success_page : list N :=
  js "
    <!DOCTYPE html>
    <html>
    <head>
      <title>OAuth Success</title>
      <style>
        body {
          font-family: -apple-system, BlinkMacSystemFont, 'Segoe UI', Roboto, sans-serif;
          display: flex;
          align-items: center;
          justify-content: center;
          height: 100vh;
          margin: 0;
          background: linear-gradient(135deg, #667eea 0%, #764ba2 100%);
        }
        .container {
          text-align: center;
          background: white;
          padding: 2rem;
          border-radius: 10px;
          box-shadow: 0 20px 60px rgba(0,0,0,0.1);
        }
        .success-icon {
          width: 60px;
          height: 60px;
          margin: 0 auto 1rem;
          fill: #10b981;
        }
        h1 {
          color: #1f2937;
          margin: 0 0 0.5rem;
        }
        p {
          color: #6b7280;
          margin: 0;
        }
      </style>
    </head>
    <body>
      <div class=" ++ dq ++ js "container" ++ dq ++ js ">
        <svg class=" ++ dq ++ js "success-icon" ++ dq ++ js " viewBox=" ++ dq ++ js "0 0 24 24" ++ dq ++ js ">
          <path d=" ++ dq ++ js "M9 11l3 3L22 4" ++ dq ++ js " stroke=" ++ dq ++ js "currentColor" ++ dq ++ js " stroke-width=" ++ dq ++ js "2" ++ dq ++ js " fill=" ++ dq ++ js "none" ++ dq ++ js " stroke-linecap=" ++ dq ++ js "round" ++ dq ++ js " stroke-linejoin=" ++ dq ++ js "round" ++ dq ++ js "/>
          <path d=" ++ dq ++ js "M21 12v7a2 2 0 01-2 2H5a2 2 0 01-2-2V5a2 2 0 012-2h11" ++ dq ++ js " stroke=" ++ dq ++ js "currentColor" ++ dq ++ js " stroke-width=" ++ dq ++ js "2" ++ dq ++ js " fill=" ++ dq ++ js "none" ++ dq ++ js " stroke-linecap=" ++ dq ++ js "round" ++ dq ++ js " stroke-linejoin=" ++ dq ++ js "round" ++ dq ++ js "/>
        </svg>
        <h1>Authentication Successful!</h1>
        <p>You can now close this window.</p>
      </div>
      <script>
        // Post the access token to the parent window
        if (window.opener) {
          ".

Definition postMessage_open : list N :=
  js "window.opener.postMessage({
            source: 'oauth',
            access_token: '".

Definition postMessage_target : list N :=
  js "'
          }, '".

Definition postMessage_close : list N :=
  js "');".

Definition success_rest : list N :=
  js "
        }
        
        // Auto-close after a short delay
        setTimeout(() => {
          window.close();
        }, 2000);
      </script>
    </body>
    </html>
  ".

Definition generatePostMessageHTML (accessToken frontendOrigin : option (list N))
  : list N :=
  success_page ++ postMessage_open ++ interpolate accessToken ++ postMessage_target
  ++ interpolate frontendOrigin ++ postMessage_close ++ success_rest.

(** The template of [generateErrorHTML], cut at its hole. *)
Definition error_page : list N :=
  js "
    <!DOCTYPE html>
    <html>
    <head>
      <title>OAuth Error</title>
      <style>
        body {
          font-family: -apple-system, BlinkMacSystemFont, 'Segoe UI', Roboto, sans-serif;
          display: flex;
          align-items: center;
          justify-content: center;
          height: 100vh;
          margin: 0;
          background: #f3f4f6;
        }
        .container {
          text-align: center;
          background: white;
          padding: 2rem;
          border-radius: 10px;
          box-shadow: 0 10px 40px rgba(0,0,0,0.1);
        }
        .error-icon {
          width: 60px;
          height: 60px;
          margin: 0 auto 1rem;
          fill: #ef4444;
        }
        h1 {
          color: #1f2937;
          margin: 0 0 0.5rem;
        }
        p {
          color: #6b7280;
          margin: 0 0 1rem;
        }
        button {
          background: #3b82f6;
          color: white;
          border: none;
          padding: 0.75rem 1.5rem;
          border-radius: 6px;
          font-size: 1rem;
          cursor: pointer;
        }
        button:hover {
          background: #2563eb;
        }
      </style>
    </head>
    <body>
      <div class=" ++ dq ++ js "container" ++ dq ++ js ">
        <svg class=" ++ dq ++ js "error-icon" ++ dq ++ js " viewBox=" ++ dq ++ js "0 0 24 24" ++ dq ++ js ">
          <circle cx=" ++ dq ++ js "12" ++ dq ++ js " cy=" ++ dq ++ js "12" ++ dq ++ js " r=" ++ dq ++ js "10" ++ dq ++ js " stroke=" ++ dq ++ js "currentColor" ++ dq ++ js " stroke-width=" ++ dq ++ js "2" ++ dq ++ js " fill=" ++ dq ++ js "none" ++ dq ++ js "/>
          <path d=" ++ dq ++ js "M12 8v4m0 4h.01" ++ dq ++ js " stroke=" ++ dq ++ js "currentColor" ++ dq ++ js " stroke-width=" ++ dq ++ js "2" ++ dq ++ js " stroke-linecap=" ++ dq ++ js "round" ++ dq ++ js " stroke-linejoin=" ++ dq ++ js "round" ++ dq ++ js "/>
        </svg>
        <h1>Authentication Failed</h1>
        <p>".

Definition error_rest : list N :=
  js "</p>
        <button onclick=" ++ dq ++ js "window.close()" ++ dq ++ js ">Close Window</button>
      </div>
    </body>
    </html>
  ".

Definition generateErrorHTML (error : list N) : list N :=
  error_page ++ error ++ error_rest.

(** The outbound token-exchange call, [fetch(url, {method, headers, body})]. *)
Record fetch_request : Type := {
  fetch_url : list N;
  fetch_method : list N;
  fetch_headers : list (list N * list N);
  fetch_body : list N
}.

(** What [await tokenResponse.json()] yields, in the fields the handler
    reads; each is a string or absent. *)
Record token_data : Type := {
  td_error : option (list N);
  td_error_description : option (list N);
  td_access_token : option (list N)
}.

Definition html_response (status : N) (corsHeaders : list (list N * list N))
    (message : list N) : response :=
  {| statusCode := status;
     res_headers := with_header corsHeaders (js "Content-Type") (js "text/html");
     cookies := None;
     body := generateErrorHTML message |}.

(** [const [, project = 'create'] = state.split(':')] *)
Definition project_of_state (state : list N) : list N :=
  default (js "create") (split 58 state !! 1%nat).

(** The argument of the [fetch] call. *)
Definition token_request (env : Config.environment) (code : option (list N))
  : fetch_request :=
  let config := Config.getConfig env in
  {| fetch_url := js "https://github.com/login/oauth/access_token";
     fetch_method := js "POST";
     fetch_headers := [(js "Content-Type", js "application/json");
                       (js "Accept", js "application/json")];
     fetch_body :=
       stringify
         (JObject
            (property (js "client_id") (Config.github_clientId config)
             ++ property (js "client_secret") (Config.github_clientSecret config)
             ++ property (js "code") code
             ++ [(js "redirect_uri",
                  JString (Config.api_baseUrl config ++ Config.api_callbackPath config))])) |}.

(** The body of the [try] block: the requests sent to the provider, in
    order, and how the block completes.  [fetch] stands for the provider:
    the awaited [fetch] followed by [json()], which may reject. *)
Definition exchange (env : Config.environment)
    (fetch : fetch_request -> completion token_data)
    (ev : event) (corsHeaders : list (list N * list N))
  : list fetch_request * completion response :=
  let code := queryStringParameters ev ≫= q_code in
  let state := queryStringParameters ev ≫= q_state in
  let error := queryStringParameters ev ≫= q_error in
  if truthy error then
    ([], Normal (html_response 400 corsHeaders (js "GitHub error: " ++ interpolate error)))
  else if negb (truthy code) || negb (truthy state) then
    ([], Normal (html_response 400 corsHeaders (js "Missing authorization code or state")))
  else
    match Cookies.extractStateFromCookies ev with
    | Throw e => ([], Throw e)
    | Normal storedState =>
        if negb (truthy storedState) || negb (same_value storedState state) then
          ([], Normal (html_response 400 corsHeaders
                         (js "Invalid state parameter - possible CSRF attack")))
        else
          let project := project_of_state (interpolate state) in
          let frontendOrigin := Cors.getFrontendOrigin env project in
          let request := token_request env code in
          match fetch request with
          | Throw e => ([request], Throw e)
          | Normal tokenData =>
              if truthy (td_error tokenData) then
                ([request],
                 Normal (html_response 400 corsHeaders
                           (js "Failed to obtain access token: "
                            ++ interpolate (or_else (td_error_description tokenData)
                                              (td_error tokenData)))))
              else if negb (truthy (td_access_token tokenData)) then
                ([request],
                 Normal (html_response 400 corsHeaders
                           (js "No access token received from GitHub")))
              else
                ([request],
                 Normal
                   {| statusCode := 200;
                      res_headers :=
                        with_header
                          (with_header corsHeaders (js "Content-Type") (js "text/html"))
                          (js "Cache-Control") (js "no-store, no-cache, must-revalidate");
                      cookies := None;
                      body := generatePostMessageHTML (td_access_token tokenData)
                                frontendOrigin |})
          end
    end.

(** The handler: the requests it sent and the response it returns. *)
Definition handler (env : Config.environment)
    (fetch : fetch_request -> completion token_data) (ev : event)
  : list fetch_request * response :=
  let configValidation := Config.validateConfig env in
  if negb (Config.valid configValidation) then
    ([], {| statusCode := 500;
            res_headers := [(js "Content-Type", js "text/html")];
            cookies := None;
            body := generateErrorHTML (js "Server configuration error") |})
  else
    let corsHeaders := Cors.getCorsHeaders env ev in
    match exchange env fetch ev corsHeaders with
    | (sent, Normal r) => (sent, r)
    | (sent, Throw error) =>
        (sent, html_response 500 corsHeaders (js "Internal server error"))
    end.

End OauthCallback.

(** ** Predicates and sample data used in the statements *)

(** A digit of [toString('hex')]. *)
Definition is_lower_hex (c : N) : bool :=
  ((48 <=? c) && (c <=? 57)) || ((97 <=? c) && (c <=? 102)).

(** Sample environments, requests and providers. *)
Definition development : Config.environment :=
  {| Config.NODE_ENV := None;
     Config.GITHUB_CLIENT_ID := Some (js "Iv1.client");
     Config.GH_CLIENT_ID := None;
     Config.GITHUB_CLIENT_SECRET := Some (js "s3cret");
     Config.GH_CLIENT_SECRET := None;
     Config.OAUTH_API_URL := None;
     Config.ADDITIONAL_ORIGINS := None |}.

Definition production : Config.environment :=
  {| Config.NODE_ENV := Some (js "production");
     Config.GITHUB_CLIENT_ID := Some (js "Iv1.client");
     Config.GH_CLIENT_ID := None;
     Config.GITHUB_CLIENT_SECRET := Some (js "s3cret");
     Config.GH_CLIENT_SECRET := None;
     Config.OAUTH_API_URL := Some (js "https://api.rbios.net");
     Config.ADDITIONAL_ORIGINS := None |}.

Definition unconfigured : Config.environment :=
  {| Config.NODE_ENV := None;
     Config.GITHUB_CLIENT_ID := None;
     Config.GH_CLIENT_ID := None;
     Config.GITHUB_CLIENT_SECRET := None;
     Config.GH_CLIENT_SECRET := None;
     Config.OAUTH_API_URL := None;
     Config.ADDITIONAL_ORIGINS := None |}.

Definition fixed_bytes (n : nat) : list Byte.byte := replicate n Byte.x5a.

Definition login_request (method project : option (list N)) : event :=
  {| path := Some (js "/oauth/login");
     headers := None;
     queryStringParameters :=
       Some {| q_code := None; q_state := None; q_error := None; q_project := project |};
     httpMethod := method;
     requestContext_http_method := None |}.

Definition callback_request (cookie code state error : option (list N)) : event :=
  {| path := Some (js "/oauth/callback");
     headers := Some {| h_cookie := cookie; h_Cookie := None;
                        h_origin := None; h_Origin := None |};
     queryStringParameters :=
       Some {| q_code := code; q_state := state; q_error := error; q_project := None |};
     httpMethod := Some (js "GET");
     requestContext_http_method := None |}.

Definition provider_returns (access_token : option (list N))
  : OauthCallback.fetch_request -> completion OauthCallback.token_data :=
  fun _ => Normal {| OauthCallback.td_error := None;
                     OauthCallback.td_error_description := None;
                     OauthCallback.td_access_token := access_token |}.

(** A JavaScript string: every element is a 16-bit code unit. *)
Definition is_string (s : list N) : bool := forallb (fun c => c <? 0x10000) s.

(** The code units [encodeURIComponent] produces. *)
Definition is_uri_char (c : N) : bool := uri_unescaped c || (c =? 37).

(** ** The cookie decoder as the specification words it (section 4.3):
    split on [;], trim, split each pair on the first [=], percent-decode the
    value, expose a name-to-value mapping.  A piece without [=], without a
    name or without a value gives no entry.  For comparison with
    [Cookies.parseCookieHeader]. *)
Module CookieCodecSpec.

Fixpoint split_first (sep : N) (s : list N) : option (list N * list N) :=
  match s with
  | [] => None
  | c :: r =>
      if c =? sep then Some ([], r)
      else match split_first sep r with
           | Some (a, b) => Some (c :: a, b)
           | None => None
           end
  end.

Definition decode_pair (mapping : gmap (list N) (list N)) (piece : list N)
  : completion (gmap (list N) (list N)) :=
  match split_first 61 (trim piece) with
  | Some (c :: name, d :: value) =>
      decoded ← decodeURIComponent (d :: value);
      mret (<[c :: name := decoded]> mapping)
  | _ => mret mapping
  end.

Fixpoint decode_pairs (pieces : list (list N)) (mapping : gmap (list N) (list N))
  : completion (gmap (list N) (list N)) :=
  match pieces with
  | [] => mret mapping
  | piece :: rest => mapping' ← decode_pair mapping piece; decode_pairs rest mapping'
  end.

Definition decode (cookieHeader : list N) : completion (gmap (list N) (list N)) :=
  decode_pairs (split 59 cookieHeader) ∅.

End CookieCodecSpec.

(** A piece of a cookie header that [parseCookies] reads without throwing:
    it has no value or its value is a valid percent-encoding. *)
Definition decodable (piece : list N) : Prop :=
  exists cookies, Cookies.parseCookie ∅ piece = Normal cookies.

(** The name [parseCookies] reads off a piece, if any. *)
Definition piece_name (piece : list N) : option (list N) :=
  split 61 (trim piece) !! 0%nat.

(** ** Tactics *)

(** Linear arithmetic with quotients and remainders by constants. *)
Ltac euclid_name a b :=
  let q := fresh "q" in
  let r := fresh "r" in
  pose proof (N.div_mod a b ltac:(discriminate));
  pose proof (N.mod_lt a b ltac:(discriminate));
  set (r := N.modulo a b) in *; set (q := N.div a b) in *;
  clearbody r q.

Ltac euclid :=
  repeat match goal with
         | |- context [N.modulo ?a ?b] => euclid_name a b
         | |- context [N.div ?a ?b] => euclid_name a b
         | H : context [N.modulo ?a ?b] |- _ => euclid_name a b
         | H : context [N.div ?a ?b] |- _ => euclid_name a b
         end;
  lia.

(** Boolean comparisons in [H] as propositions. *)
Ltac to_prop H :=
  repeat first
    [ rewrite orb_true_iff in H | rewrite andb_true_iff in H
    | rewrite orb_false_iff in H | rewrite andb_false_iff in H
    | rewrite negb_true_iff in H | rewrite negb_false_iff in H
    | rewrite N.leb_le in H | rewrite N.ltb_lt in H | rewrite N.eqb_eq in H
    | rewrite N.leb_gt in H | rewrite N.ltb_ge in H | rewrite N.eqb_neq in H ].

(** ** Further notions used in the statements *)

(** [event.headers?.origin || event.headers?.Origin || ''], as
    [getCorsHeaders] reads it. *)
Definition requestOrigin (ev : event) : list N :=
  match headers ev with
  | Some h => Config.or_literal (or_else (h_origin h) (h_Origin h)) []
  | None => []
  end.

(** The three headers [getCorsHeaders] always adds. *)
Definition cors_fixed_headers : list (list N * list N) :=
  [(js "Access-Control-Allow-Headers", js "Content-Type, Authorization");
   (js "Access-Control-Allow-Methods", js "GET, POST, OPTIONS");
   (js "Access-Control-Allow-Credentials", js "true")].

(** The origins pushed outside production. *)
Definition localhost_origins : list (list N) :=
  [js "http://localhost:3000"; js "http://localhost:3001";
   js "http://localhost:5173"; js "http://localhost:5174"].

(** The shapes a response of the callback handler has, with what led to
    each. *)
Inductive callback_outcome (env : Config.environment)
    (fetch : OauthCallback.fetch_request -> completion OauthCallback.token_data)
    (ev : event) : list OauthCallback.fetch_request * response -> Prop :=
  | Refused (status : N) (message : list N) :
      status = 400 \/ status = 500 ->
      callback_outcome env fetch ev
        ([], OauthCallback.html_response status (Cors.getCorsHeaders env ev) message)
  | Upstream (status : N) (message : list N) :
      status = 400 \/ status = 500 ->
      truthy (queryStringParameters ev ≫= q_error) = false ->
      truthy (queryStringParameters ev ≫= q_code) = true ->
      truthy (queryStringParameters ev ≫= q_state) = true ->
      Cookies.extractStateFromCookies ev = Normal (queryStringParameters ev ≫= q_state) ->
      callback_outcome env fetch ev
        ([OauthCallback.token_request env (queryStringParameters ev ≫= q_code)],
         OauthCallback.html_response status (Cors.getCorsHeaders env ev) message)
  | Delivered (tokenData : OauthCallback.token_data) :
      truthy (queryStringParameters ev ≫= q_error) = false ->
      truthy (queryStringParameters ev ≫= q_code) = true ->
      truthy (queryStringParameters ev ≫= q_state) = true ->
      Cookies.extractStateFromCookies ev = Normal (queryStringParameters ev ≫= q_state) ->
      fetch (OauthCallback.token_request env (queryStringParameters ev ≫= q_code))
      = Normal tokenData ->
      truthy (OauthCallback.td_error tokenData) = false ->
      truthy (OauthCallback.td_access_token tokenData) = true ->
      callback_outcome env fetch ev
        ([OauthCallback.token_request env (queryStringParameters ev ≫= q_code)],
         {| statusCode := 200;
            res_headers :=
              with_header
                (with_header (Cors.getCorsHeaders env ev) (js "Content-Type") (js "text/html"))
                (js "Cache-Control") (js "no-store, no-cache, must-revalidate");
            cookies := None;
            body := OauthCallback.generatePostMessageHTML
                      (OauthCallback.td_access_token tokenData)
                      (Cors.getFrontendOrigin env
                         (OauthCallback.project_of_state
                            (interpolate (queryStringParameters ev ≫= q_state)))) |}).

(** What every entry of the parsed cookies satisfies. *)
Definition cookie_entry_ok (k v : list N) : Prop :=
  k <> [] /\ v <> [] /\ k <> js "__proto__"
  /\ Forall (fun c => c <> 59 /\ c <> 61) k.

(** Two environments that agree on every variable but the client secret. *)
Definition differ_only_in_secret (a b : Config.environment) : Prop :=
  Config.NODE_ENV a = Config.NODE_ENV b
  /\ Config.GITHUB_CLIENT_ID a = Config.GITHUB_CLIENT_ID b
  /\ Config.GH_CLIENT_ID a = Config.GH_CLIENT_ID b
  /\ Config.OAUTH_API_URL a = Config.OAUTH_API_URL b
  /\ Config.ADDITIONAL_ORIGINS a = Config.ADDITIONAL_ORIGINS b.

(** The development environment after its client secret was replaced. *)
Definition development_rotated : Config.environment :=
  {| Config.NODE_ENV := Config.NODE_ENV development;
     Config.GITHUB_CLIENT_ID := Config.GITHUB_CLIENT_ID development;
     Config.GH_CLIENT_ID := Config.GH_CLIENT_ID development;
     Config.GITHUB_CLIENT_SECRET := None;
     Config.GH_CLIENT_SECRET := Some (js "0f0e0d0c0b0a");
     Config.OAUTH_API_URL := Config.OAUTH_API_URL development;
     Config.ADDITIONAL_ORIGINS := Config.ADDITIONAL_ORIGINS development |}.

(** ** Reading hexadecimal text back

    What "hexadecimal form of the bytes" means: read two digits at a time
    (ParseHexOctet), the text gives the bytes back. *)
Fixpoint hex_decode (s : list N) : option (list N) :=
  match s with
  | [] => Some []
  | h :: l :: r =>
      match hex_octet h l, hex_decode r with
      | Some b, Some bs => Some (b :: bs)
      | _, _ => None
      end
  | [_] => None
  end.

(** ** The statement of the success page's script, as JavaScript reads it

    ECMA-262 12.2 to 12.9: white space and line terminators separate tokens;
    a single-quoted string literal runs to the next single quote and stands
    for the code units between the quotes; a line feed or a carriage return
    inside it is a syntax error.  A backslash starts an escape sequence or a
    line continuation: these are not interpreted here, a literal holding one
    is not read. *)
Module Script.

Fixpoint strip_prefix (p s : list N) : option (list N) :=
  match p, s with
  | [], _ => Some s
  | a :: p', b :: s' => if a =? b then strip_prefix p' s' else None
  | _ :: _, [] => None
  end.

(** The text after the token [p], which must come next. *)
Definition token (p src : list N) : option (list N) :=
  strip_prefix p (trimStart src).

Fixpoint tokens (ps : list (list N)) (src : list N) : option (list N) :=
  match ps with
  | [] => Some src
  | p :: ps' => token p src ≫= tokens ps'
  end.

(** The characters of a literal after its opening quote: the string value
    and the text after the closing quote. *)
Fixpoint string_characters (src : list N) : option (list N * list N) :=
  match src with
  | [] => None
  | c :: r =>
      if c =? 39 then Some ([], r)
      else if (c =? 92) || (c =? 10) || (c =? 13) then None
      else match string_characters r with
           | Some (value, rest) => Some (c :: value, rest)
           | None => None
           end
  end.

Definition string_literal (src : list N) : option (list N * list N) :=
  match trimStart src with
  | c :: r => if c =? 39 then string_characters r else None
  | [] => None
  end.

(** A call [window.opener.postMessage({source: .., access_token: ..}, ..)]
    with three string literals. *)
Record post : Type := {
  message_source : list N;
  message_access_token : list N;
  targetOrigin : list N
}.

(** [window.opener.postMessage({ source: '..', access_token:] *)
Definition message_open (src : list N) : option (list N * list N) :=
  match tokens [js "window.opener.postMessage"; js "("; js "{"; js "source"; js ":"] src
        ≫= string_literal with
  | Some (source, r) =>
      match tokens [js ","; js "access_token"; js ":"] r with
      | Some r' => Some (source, r')
      | None => None
      end
  | None => None
  end.

(** The whole statement, and the text after it. *)
Definition postMessage_statement (src : list N) : option (post * list N) :=
  match message_open src with
  | Some (source, r) =>
      match string_literal r with
      | Some (access_token, r) =>
          match tokens [js "}"; js ","] r ≫= string_literal with
          | Some (target, r) =>
              match tokens [js ")"; js ";"] r with
              | Some rest =>
                  Some ({| message_source := source;
                           message_access_token := access_token;
                           targetOrigin := target |}, rest)
              | None => None
              end
          | None => None
          end
      | None => None
      end
  | None => None
  end.

(** The statement at the place where the template of
    [generatePostMessageHTML] has it, inside [if (window.opener) { .. }]. *)
Definition posted_by (html : list N) : option (post * list N) :=
  postMessage_statement (drop (List.length OauthCallback.success_page) html).

(** A code unit that stands for itself in a single-quoted literal inside a
    [script] element: no quote, backslash, line feed or carriage return, and
    no [<], with which an end tag would start. *)
Definition plain_in_script (c : N) : bool :=
  negb ((c =? 39) || (c =? 92) || (c =? 10) || (c =? 13) || (c =? 60)).

End Script.

(** The numbers [createCookieHeader] is modelled for: [maxAge], when given,
    is a non-negative integer below 2^53. *)
Definition is_safe_integer (n : N) : bool := n <? 2 ^ 53.

Definition maxAge_in_range (options : Cookies.cookie_options) : bool :=
  match Cookies.maxAge options with
  | Some n => is_safe_integer n
  | None => true
  end.

(** * Properties *)

(** ** Strings *)

Lemma strict_eq_refl (a : list N) : strict_eq a a = true.
Proof.
  induction a as [|x a IH]; simpl; [reflexivity|].
  rewrite N.eqb_refl. exact IH.
Qed.

Lemma strict_eq_true (a b : list N) : strict_eq a b = true -> a = b.
Proof.
  revert b. induction a as [|x a IH]; intros [|y b]; simpl; try discriminate.
  - reflexivity.
  - intros H. apply andb_prop in H as [Hx Hr].
    apply N.eqb_eq in Hx. apply IH in Hr. congruence.
Qed.

Lemma strict_eq_false (a b : list N) : a <> b -> strict_eq a b = false.
Proof.
  intros Hne. destruct (strict_eq a b) eqn:E; [|reflexivity].
  apply strict_eq_true in E. contradiction.
Qed.

Lemma same_value_some (s : option (list N)) (x : list N) :
  same_value s (Some x) = true <-> s = Some x.
Proof.
  destruct s as [y|]; simpl; split; intros H; try discriminate.
  - apply strict_eq_true in H. congruence.
  - injection H as ->. apply strict_eq_refl.
Qed.

Lemma truthy_some (v : option (list N)) :
  truthy v = true -> exists c s, v = Some (c :: s).
Proof. destruct v as [[|c s]|]; simpl; try discriminate. eauto. Qed.

(** A separator splits exactly where it occurs. *)
Lemma split_without (sep : N) (s : list N) :
  Forall (fun c => c <> sep) s -> split sep s = [s].
Proof.
  induction 1 as [|c s Hc _ IH]; simpl; [reflexivity|].
  apply N.eqb_neq in Hc. rewrite Hc, IH. reflexivity.
Qed.

Lemma split_at_first (sep : N) (a b : list N) :
  Forall (fun c => c <> sep) a -> split sep (a ++ sep :: b) = a :: split sep b.
Proof.
  induction 1 as [|c a Hc _ IH]; simpl.
  - rewrite N.eqb_refl. reflexivity.
  - apply N.eqb_neq in Hc. rewrite Hc, IH. reflexivity.
Qed.

Lemma split_nonempty (sep : N) (s : list N) : split sep s <> [].
Proof.
  destruct s as [|c r]; simpl; [discriminate|].
  destruct (c =? sep); [discriminate|]. destruct (split sep r); discriminate.
Qed.

Lemma trimStart_head (c : N) (s : list N) :
  is_whitespace c = false -> trimStart (c :: s) = c :: s.
Proof. intros H. simpl. rewrite H. reflexivity. Qed.

Lemma trim_without (s : list N) :
  Forall (fun c => is_whitespace c = false) s -> trim s = s.
Proof.
  intros H. unfold trim, trimEnd.
  assert (Hs : forall t, Forall (fun c => is_whitespace c = false) t -> trimStart t = t).
  { intros t Ht. destruct Ht as [|c t Hc _]; [reflexivity|]. apply trimStart_head, Hc. }
  rewrite (Hs s H), Hs.
  - apply rev_involutive.
  - apply Forall_rev, H.
Qed.

(** ** The hexadecimal codecs *)

Lemma hex_lower_digit (d : N) : d < 16 -> is_lower_hex (hex_lower d) = true.
Proof.
  intros H. unfold is_lower_hex, hex_lower.
  destruct (N.ltb_spec d 10).
  - apply orb_true_iff. left. apply andb_true_iff. split; apply N.leb_le; lia.
  - apply orb_true_iff. right. apply andb_true_iff. split; apply N.leb_le; lia.
Qed.

Lemma byte_below_256 (b : Byte.byte) : Byte.to_N b < 256.
Proof. destruct b; vm_compute; reflexivity. Qed.

Lemma toString_hex_length (buf : list Byte.byte) :
  List.length (toString_hex buf) = (2 * List.length buf)%nat.
Proof.
  unfold toString_hex. induction buf as [|b buf IH]; simpl; [reflexivity|].
  rewrite IH. lia.
Qed.

Lemma toString_hex_digits (buf : list Byte.byte) :
  Forall (fun c => is_lower_hex c = true) (toString_hex buf).
Proof.
  unfold toString_hex. induction buf as [|b buf IH]; simpl; [constructor|].
  pose proof (byte_below_256 b) as Hb.
  constructor; [|constructor; [|exact IH]]; apply hex_lower_digit.
  - apply N.Div0.div_lt_upper_bound. lia.
  - apply N.mod_lt. lia.
Qed.

Lemma lower_hex_not_colon (c : N) : is_lower_hex c = true -> c <> 58.
Proof.
  unfold is_lower_hex. intros H ->. vm_compute in H. discriminate.
Qed.

(** ** The state token (login) and its project component (callback) *)

Lemma project_ids_own (c : Config.config) (id : list N) :
  In id Config.project_ids <-> exists p, Config.projects_get c id = Config.Own p.
Proof.
  unfold Config.projects_get, Config.project_ids. split.
  - intros [<-|[<-|[]]]; simpl; eauto.
  - intros [p Hp].
    destruct (strict_eq id (js "create")) eqn:E1.
    { apply strict_eq_true in E1. left. congruence. }
    destruct (strict_eq id (js "prompts")) eqn:E2.
    { apply strict_eq_true in E2. right. left. congruence. }
    destruct (array_includes object_prototype_names id); discriminate.
Qed.

Lemma project_ids_no_colon (id : list N) :
  In id Config.project_ids -> Forall (fun c => c <> 58) id.
Proof.
  intros [<-|[<-|[]]]; repeat constructor; discriminate.
Qed.

Lemma project_of_state_token (h p : list N) :
  Forall (fun c => c <> 58) h -> Forall (fun c => c <> 58) p ->
  OauthCallback.project_of_state (h ++ js ":" ++ p) = p.
Proof.
  intros Hh Hp. unfold OauthCallback.project_of_state.
  change (js ":" ++ p) with (58 :: p).
  rewrite (split_at_first 58 h p Hh), (split_without 58 p Hp). reflexivity.
Qed.

(** ** Configuration *)

Lemma allowedOrigins_nonempty (env : Config.environment) :
  (List.length (Config.allowedOrigins (Config.getConfig env)) =? 0)%nat = false.
Proof.
  unfold Config.getConfig. simpl.
  destruct (Config.isProduction env); simpl; reflexivity.
Qed.

Lemma validateConfig_errors (env : Config.environment) :
  Config.errors (Config.validateConfig env)
  = (if truthy (Config.github_clientId (Config.getConfig env)) then []
     else [js "Missing GitHub Client ID"])
    ++ (if truthy (Config.github_clientSecret (Config.getConfig env)) then []
        else [js "Missing GitHub Client Secret"]).
Proof.
  unfold Config.validateConfig. cbv zeta. unfold Config.errors.
  rewrite allowedOrigins_nonempty, app_nil_r. reflexivity.
Qed.

Lemma validateConfig_valid (env : Config.environment) :
  Config.valid (Config.validateConfig env)
  = truthy (Config.github_clientId (Config.getConfig env))
    && truthy (Config.github_clientSecret (Config.getConfig env)).
Proof.
  unfold Config.validateConfig. cbv zeta. unfold Config.valid.
  rewrite allowedOrigins_nonempty, app_nil_r.
  destruct (truthy (Config.github_clientId (Config.getConfig env)));
    destruct (truthy (Config.github_clientSecret (Config.getConfig env)));
    reflexivity.
Qed.

(** C5, as the code has it: with neither the client id nor the client
    secret configured, the login handler answers 500 with a JSON body whose
    [details] list both missing items, whatever the request; the callback
    handler answers 500 with the HTML failure document whose message is
    "Server configuration error" and which names neither item, and sends
    nothing to the provider. *)
Theorem missing_credentials_stop_both_handlers (env : Config.environment)
    (randomBytes : nat -> list Byte.byte)
    (fetch : OauthCallback.fetch_request -> completion OauthCallback.token_data)
    (ev : event) :
  truthy (Config.github_clientId (Config.getConfig env)) = false ->
  truthy (Config.github_clientSecret (Config.getConfig env)) = false ->
  let login := OauthLogin.handler env randomBytes ev in
  let callback := OauthCallback.handler env fetch ev in
  login = {| statusCode := 500;
             res_headers := [(js "Content-Type", js "application/json")];
             cookies := None;
             body := stringify
                       (JObject
                          [(js "error", JString (js "Server configuration error"));
                           (js "details",
                            JArray [JString (js "Missing GitHub Client ID");
                                    JString (js "Missing GitHub Client Secret")])]) |}
  /\ includes (body login) (js "Missing GitHub Client ID") = true
  /\ includes (body login) (js "Missing GitHub Client Secret") = true
  /\ callback = ([], {| statusCode := 500;
                        res_headers := [(js "Content-Type", js "text/html")];
                        cookies := None;
                        body := OauthCallback.generateErrorHTML
                                  (js "Server configuration error") |})
  /\ includes (body (snd callback)) (js "Missing GitHub Client") = false.
Proof.
  intros Hid Hsecret login callback.
  assert (Hlogin : login = {| statusCode := 500;
             res_headers := [(js "Content-Type", js "application/json")];
             cookies := None;
             body := stringify
                       (JObject
                          [(js "error", JString (js "Server configuration error"));
                           (js "details",
                            JArray [JString (js "Missing GitHub Client ID");
                                    JString (js "Missing GitHub Client Secret")])]) |}).
  { unfold login, OauthLogin.handler.
    rewrite validateConfig_valid, validateConfig_errors, Hid, Hsecret. reflexivity. }
  assert (Hcallback : callback = ([], {| statusCode := 500;
                        res_headers := [(js "Content-Type", js "text/html")];
                        cookies := None;
                        body := OauthCallback.generateErrorHTML
                                  (js "Server configuration error") |})).
  { unfold callback, OauthCallback.handler.
    rewrite validateConfig_valid, Hid, Hsecret. reflexivity. }
  rewrite Hlogin, Hcallback.
  repeat split; vm_compute; reflexivity.
Qed.

Lemma missing_credentials_stop_both_handlers_witness :
  statusCode (OauthLogin.handler unconfigured fixed_bytes
                (login_request (Some (js "GET")) None)) = 500
  /\ fst (OauthCallback.handler unconfigured (provider_returns (Some (js "tok123")))
            (callback_request None (Some (js "abc")) (Some (js "X:create")) None)) = [].
Proof.
  destruct (missing_credentials_stop_both_handlers unconfigured fixed_bytes
              (provider_returns (Some (js "tok123")))
              (login_request (Some (js "GET")) None))
    as (Hlogin & _); [reflexivity | reflexivity |].
  destruct (missing_credentials_stop_both_handlers unconfigured fixed_bytes
              (provider_returns (Some (js "tok123")))
              (callback_request None (Some (js "abc")) (Some (js "X:create")) None))
    as (_ & _ & _ & Hcallback & _); [reflexivity | reflexivity |].
  split.
  - rewrite Hlogin. reflexivity.
  - rewrite Hcallback. reflexivity.
Defined.

(** C5 as stated fails for the callback handler: with both credentials
    missing, its 500 body names neither missing item. *)
Lemma callback_configuration_error_lists_nothing :
  let r := snd (OauthCallback.handler unconfigured (provider_returns (Some (js "tok123")))
                  (callback_request None (Some (js "abc")) (Some (js "X:create")) None)) in
  Config.errors (Config.validateConfig unconfigured)
  = [js "Missing GitHub Client ID"; js "Missing GitHub Client Secret"]
  /\ statusCode r = 500
  /\ includes (body r) (js "Missing GitHub Client ID") = false
  /\ includes (body r) (js "Missing GitHub Client Secret") = false.
Proof. vm_compute. repeat split; reflexivity. Qed.

(** ** The HTTP method *)

Lemma html_response_status (status : N) (cors : list (list N * list N)) (m : list N) :
  statusCode (OauthCallback.html_response status cors m) = status.
Proof. reflexivity. Qed.

Lemma callback_status (env : Config.environment)
    (fetch : OauthCallback.fetch_request -> completion OauthCallback.token_data)
    (ev : event) :
  let s := statusCode (snd (OauthCallback.handler env fetch ev)) in
  s = 200 \/ s = 400 \/ s = 500.
Proof.
  unfold OauthCallback.handler, OauthCallback.exchange.
  repeat case_match; simplify_eq; simpl; auto.
Qed.

(** C10, as the code has it: the callback handler does not read the HTTP
    method: two events that differ at most in [httpMethod] and
    [requestContext.http.method] get the same response and cause the same
    requests, and no response of it has status 405.  The login handler,
    once its configuration check has passed, answers OPTIONS with 200 and
    anything but GET and OPTIONS, a missing method included, with 405. *)
Theorem callback_ignores_method (env : Config.environment)
    (randomBytes : nat -> list Byte.byte)
    (fetch : OauthCallback.fetch_request -> completion OauthCallback.token_data)
    (ev1 ev2 : event) :
  path ev1 = path ev2 ->
  headers ev1 = headers ev2 ->
  queryStringParameters ev1 = queryStringParameters ev2 ->
  OauthCallback.handler env fetch ev1 = OauthCallback.handler env fetch ev2
  /\ statusCode (snd (OauthCallback.handler env fetch ev1)) <> 405
  /\ (Config.valid (Config.validateConfig env) = true ->
      let method := or_else (httpMethod ev1) (requestContext_http_method ev1) in
      (method = Some (js "OPTIONS") ->
       statusCode (OauthLogin.handler env randomBytes ev1) = 200)
      /\ (method <> Some (js "GET") -> method <> Some (js "OPTIONS") ->
          statusCode (OauthLogin.handler env randomBytes ev1) = 405)).
Proof.
  intros Hpath Hheaders Hquery. split; [|split].
  - destruct ev1 as [p1 h1 q1 m1 c1], ev2 as [p2 h2 q2 m2 c2]. simpl in *. subst.
    reflexivity.
  - pose proof (callback_status env fetch ev1) as Hs. cbv zeta in Hs.
    intros H405. rewrite H405 in Hs. destruct Hs as [Hs|[Hs|Hs]]; discriminate.
  - intros Hvalid method. unfold OauthLogin.handler. rewrite Hvalid. cbv zeta. simpl negb.
    fold method. split.
    + intros ->. reflexivity.
    + intros Hget Hoptions.
      assert (Hlit : forall lit, method <> Some lit -> OauthLogin.is_literal method lit = false).
      { intros lit Hne. destruct method as [m|]; simpl; [|reflexivity].
        apply strict_eq_false. congruence. }
      rewrite (Hlit _ Hoptions), (Hlit _ Hget). reflexivity.
Qed.

Lemma callback_ignores_method_witness :
  let get := callback_request (Some (js "oauth_state=X%3Acreate")) (Some (js "abc"))
               (Some (js "X:create")) None in
  let post := {| path := path get; headers := headers get;
                 queryStringParameters := queryStringParameters get;
                 httpMethod := Some (js "POST");
                 requestContext_http_method := Some (js "POST") |} in
  OauthCallback.handler development (provider_returns (Some (js "tok123"))) get
  = OauthCallback.handler development (provider_returns (Some (js "tok123"))) post
  /\ statusCode (OauthLogin.handler development fixed_bytes post) = 405.
Proof.
  intros get post.
  destruct (callback_ignores_method development fixed_bytes
              (provider_returns (Some (js "tok123"))) post get)
    as (Hsame & _ & Hlogin); [reflexivity | reflexivity | reflexivity |].
  split; [symmetry; exact Hsame|].
  apply Hlogin; [reflexivity | discriminate | discriminate].
Defined.

(** C10 as stated fails for the login handler where the configuration is
    invalid: the configuration is checked before the method, and OPTIONS or
    DELETE are then answered with 500. *)
Lemma login_checks_configuration_before_method :
  statusCode (OauthLogin.handler unconfigured fixed_bytes
                (login_request (Some (js "OPTIONS")) None)) = 500
  /\ statusCode (OauthLogin.handler unconfigured fixed_bytes
                   (login_request (Some (js "DELETE")) None)) = 500.
Proof. split; vm_compute; reflexivity. Qed.

(** ** The callback handler, check by check *)

Lemma header_with_header (r : response) (k v : list N) (h : list (list N * list N)) :
  res_headers r = with_header h k v -> header r k = Some v.
Proof.
  unfold header. intros ->. induction h as [|[k' v'] h IH]; simpl.
  - rewrite strict_eq_refl. reflexivity.
  - destruct (strict_eq k' k) eqn:E; simpl.
    + rewrite strict_eq_refl. reflexivity.
    + rewrite E. exact IH.
Qed.



Section Callback.

Variable env : Config.environment.
Variable fetch : OauthCallback.fetch_request -> completion OauthCallback.token_data.
Variable ev : event.

Lemma handler_valid :
  Config.valid (Config.validateConfig env) = true ->
  OauthCallback.handler env fetch ev
  = match OauthCallback.exchange env fetch ev (Cors.getCorsHeaders env ev) with
    | (sent, Normal r) => (sent, r)
    | (sent, Throw _) =>
        (sent, OauthCallback.html_response 500 (Cors.getCorsHeaders env ev)
                 (js "Internal server error"))
    end.
Proof. intros H. unfold OauthCallback.handler. rewrite H. reflexivity. Qed.

(** What the stored state and the [state] parameter decide, once the
    configuration, the provider error and the presence checks are passed. *)
Lemma exchange_after_presence (cors : list (list N * list N)) :
  truthy (queryStringParameters ev ≫= q_error) = false ->
  truthy (queryStringParameters ev ≫= q_code) = true ->
  truthy (queryStringParameters ev ≫= q_state) = true ->
  OauthCallback.exchange env fetch ev cors
  = match Cookies.extractStateFromCookies ev with
    | Throw e => ([], Throw e)
    | Normal storedState =>
        if negb (truthy storedState)
           || negb (same_value storedState (queryStringParameters ev ≫= q_state))
        then ([], Normal (OauthCallback.html_response 400 cors
                            (js "Invalid state parameter - possible CSRF attack")))
        else
          let request := OauthCallback.token_request env (queryStringParameters ev ≫= q_code) in
          match fetch request with
          | Throw e => ([request], Throw e)
          | Normal tokenData =>
              if truthy (OauthCallback.td_error tokenData) then
                ([request],
                 Normal (OauthCallback.html_response 400 cors
                           (js "Failed to obtain access token: "
                            ++ interpolate
                                 (or_else (OauthCallback.td_error_description tokenData)
                                    (OauthCallback.td_error tokenData)))))
              else if negb (truthy (OauthCallback.td_access_token tokenData)) then
                ([request],
                 Normal (OauthCallback.html_response 400 cors
                           (js "No access token received from GitHub")))
              else
                ([request],
                 Normal
                   {| statusCode := 200;
                      res_headers :=
                        with_header
                          (with_header cors (js "Content-Type") (js "text/html"))
                          (js "Cache-Control") (js "no-store, no-cache, must-revalidate");
                      cookies := None;
                      body := OauthCallback.generatePostMessageHTML
                                (OauthCallback.td_access_token tokenData)
                                (Cors.getFrontendOrigin env
                                   (OauthCallback.project_of_state
                                      (interpolate (queryStringParameters ev ≫= q_state)))) |})
          end
    end.
Proof.
  intros He Hc Hs. unfold OauthCallback.exchange. rewrite He, Hc, Hs. reflexivity.
Qed.

End Callback.

Lemma stored_state_rejected (stored state : option (list N)) :
  truthy state = true -> stored <> state ->
  negb (truthy stored) || negb (same_value stored state) = true.
Proof.
  intros Hs Hne. apply truthy_some in Hs as (c & s & ->).
  destruct (same_value stored (Some (c :: s))) eqn:E.
  - apply same_value_some in E. contradiction.
  - apply orb_true_r.
Qed.

Lemma stored_state_accepted (state : option (list N)) :
  truthy state = true ->
  negb (truthy state) || negb (same_value state state) = false.
Proof.
  intros Hs. rewrite Hs. apply truthy_some in Hs as (c & s & ->).
  simpl. rewrite N.eqb_refl, strict_eq_refl. reflexivity.
Qed.





(** ** Delivery of the token *)

Lemma frontend_origin_is_not_star (env : Config.environment) (project : list N) :
  interpolate (Cors.getFrontendOrigin env project) <> js "*".
Proof.
  unfold Cors.getFrontendOrigin, Config.projects_get, Config.getConfig. cbv zeta.
  destruct (strict_eq project (js "create")); [|destruct (strict_eq project (js "prompts"));
    [|destruct (array_includes object_prototype_names project)]];
    simpl; destruct (Config.isProduction env); discriminate.
Qed.

(** ** The script of the success page *)

Lemma string_characters_plain (t r : list N) :
  forallb Script.plain_in_script t = true ->
  Script.string_characters (t ++ 39 :: r) = Some (t, r).
Proof.
  induction t as [|c t IH]; simpl; [reflexivity|].
  intros H. apply andb_prop in H as [Hc Ht].
  unfold Script.plain_in_script in Hc. apply negb_true_iff in Hc.
  repeat (apply orb_false_elim in Hc as [Hc ?]).
  rewrite Hc. replace ((c =? 92) || (c =? 10) || (c =? 13)) with false
    by (symmetry; repeat (apply orb_false_intro; [|assumption]); assumption).
  rewrite (IH Ht). reflexivity.
Qed.

Lemma message_open_template (x : list N) :
  Script.message_open (OauthCallback.postMessage_open ++ x) = Some (js "oauth", 32 :: 39 :: x).
Proof. reflexivity. Qed.

Lemma message_close_template (x : list N) :
  Script.tokens [js "}"; js ","] (tail OauthCallback.postMessage_target ++ x)
  = Some (32 :: 39 :: x).
Proof. reflexivity. Qed.

Lemma call_close_template (x : list N) :
  Script.tokens [js ")"; js ";"] (tail OauthCallback.postMessage_close ++ x) = Some x.
Proof. reflexivity. Qed.

Lemma string_literal_plain (t r : list N) :
  forallb Script.plain_in_script t = true ->
  Script.string_literal (32 :: 39 :: t ++ 39 :: r) = Some (t, r).
Proof. intros H. exact (string_characters_plain t r H). Qed.

Lemma postMessage_statement_template (t target rest : list N) :
  forallb Script.plain_in_script t = true ->
  forallb Script.plain_in_script target = true ->
  Script.postMessage_statement
    ((OauthCallback.postMessage_open ++ t ++ OauthCallback.postMessage_target
      ++ target ++ OauthCallback.postMessage_close) ++ rest)
  = Some ({| Script.message_source := js "oauth";
             Script.message_access_token := t;
             Script.targetOrigin := target |}, rest).
Proof.
  intros Ht Htarget. unfold Script.postMessage_statement.
  rewrite <- !app_assoc. rewrite message_open_template.
  change (OauthCallback.postMessage_target ++ target ++ OauthCallback.postMessage_close ++ rest)
    with (39 :: tail OauthCallback.postMessage_target
                ++ target ++ 39 :: tail OauthCallback.postMessage_close ++ rest).
  rewrite (string_literal_plain t _ Ht).
  rewrite message_close_template. cbn [mbind option_bind].
  rewrite (string_literal_plain target _ Htarget).
  rewrite call_close_template. reflexivity.
Qed.

Lemma posted_by_template (t target : list N) :
  forallb Script.plain_in_script t = true ->
  forallb Script.plain_in_script target = true ->
  Script.posted_by
    (OauthCallback.success_page
     ++ (OauthCallback.postMessage_open ++ t ++ OauthCallback.postMessage_target
         ++ target ++ OauthCallback.postMessage_close)
     ++ OauthCallback.success_rest)
  = Some ({| Script.message_source := js "oauth";
             Script.message_access_token := t;
             Script.targetOrigin := target |}, OauthCallback.success_rest).
Proof.
  intros Ht Htarget. unfold Script.posted_by.
  rewrite drop_app_length. apply postMessage_statement_template; assumption.
Qed.

Lemma frontend_origin_plain (env : Config.environment) (project : list N) :
  forallb Script.plain_in_script (interpolate (Cors.getFrontendOrigin env project)) = true.
Proof.
  unfold Cors.getFrontendOrigin, Config.projects_get, Config.getConfig. cbv zeta.
  destruct (strict_eq project (js "create")); [|destruct (strict_eq project (js "prompts"));
    [|destruct (array_includes object_prototype_names project)]];
    simpl; destruct (Config.isProduction env); reflexivity.
Qed.

Lemma plain_no_angle (s : list N) :
  forallb Script.plain_in_script s = true -> Forall (fun c => c <> 60) s.
Proof.
  intros H. apply List.Forall_forall. intros c Hin.
  rewrite forallb_forall in H. specialize (H c Hin).
  unfold Script.plain_in_script in H. apply negb_true_iff in H.
  repeat (apply orb_false_elim in H as [H ?]).
  apply N.eqb_neq. assumption.
Qed.

Lemma no_angle (s : list N) :
  forallb (fun c => negb (c =? 60)) s = true -> Forall (fun c => c <> 60) s.
Proof.
  intros H. apply List.Forall_forall. intros c Hin.
  rewrite forallb_forall in H. specialize (H c Hin).
  apply negb_true_iff in H. apply N.eqb_neq. exact H.
Qed.

(** C2, as the code has it: when the request passes the CSRF check and the
    provider's answer has no (non-empty) [error] and a non-empty
    [access_token] [t] made of code units that stand for themselves in the
    script (no quote, backslash, line break or [<]), the handler answers 200
    with [Cache-Control: no-store, no-cache, must-revalidate], and the body
    is the success page whose script holds the statement
    [window.opener.postMessage({source: 'oauth', access_token: 't'}, 'target')]:
    read as JavaScript, its literals stand for ["oauth"], [t] and the
    target, and no [<] occurs in it.  The target is never ['*']; it is the
    frontend origin registered for the project component of [state] when
    that is a key of the project table, and the [create] project's when
    [config.projects] has nothing under that name.  (A project component
    that names a built-in inherited from [Object.prototype] is left to
    C8.) *)
Theorem token_delivery (env : Config.environment)
    (fetch : OauthCallback.fetch_request -> completion OauthCallback.token_data)
    (ev : event) (code state t : list N) (tokenData : OauthCallback.token_data) :
  Config.valid (Config.validateConfig env) = true ->
  truthy (queryStringParameters ev ≫= q_error) = false ->
  queryStringParameters ev ≫= q_code = Some code -> code <> [] ->
  queryStringParameters ev ≫= q_state = Some state -> state <> [] ->
  Cookies.extractStateFromCookies ev = Normal (Some state) ->
  fetch (OauthCallback.token_request env (Some code)) = Normal tokenData ->
  truthy (OauthCallback.td_error tokenData) = false ->
  OauthCallback.td_access_token tokenData = Some t -> t <> [] ->
  forallb Script.plain_in_script t = true ->
  let config := Config.getConfig env in
  let project := OauthCallback.project_of_state state in
  let target := interpolate (Cors.getFrontendOrigin env project) in
  let statement := OauthCallback.postMessage_open ++ t ++ OauthCallback.postMessage_target
                   ++ target ++ OauthCallback.postMessage_close in
  let run := OauthCallback.handler env fetch ev in
  fst run = [OauthCallback.token_request env (Some code)]
  /\ statusCode (snd run) = 200
  /\ header (snd run) (js "Cache-Control") = Some (js "no-store, no-cache, must-revalidate")
  /\ body (snd run)
     = OauthCallback.success_page ++ statement ++ OauthCallback.success_rest
  /\ Script.posted_by (body (snd run))
     = Some ({| Script.message_source := js "oauth";
                Script.message_access_token := t;
                Script.targetOrigin := target |}, OauthCallback.success_rest)
  /\ Forall (fun c => c <> 60) statement
  /\ target <> js "*"
  /\ (forall p, Config.projects_get config project = Config.Own p ->
                In project Config.project_ids /\ target = Config.frontendUrl p)
  /\ (Config.projects_get config project = Config.Undefined ->
      target = Config.frontendUrl (Config.projects_create config)).
Proof.
  intros Hvalid Herror Hcode Hcode' Hstate Hstate' Hcookie Hfetch Hnoerr Htoken Ht Hplain
         config project target statement run.
  assert (Htc : truthy (queryStringParameters ev ≫= q_code) = true).
  { rewrite Hcode. destruct code; [contradiction|reflexivity]. }
  assert (Hts : truthy (queryStringParameters ev ≫= q_state) = true).
  { rewrite Hstate. destruct state; [contradiction|reflexivity]. }
  assert (Hrun : run = ([OauthCallback.token_request env (Some code)],
                        {| statusCode := 200;
                           res_headers :=
                             with_header
                               (with_header (Cors.getCorsHeaders env ev)
                                  (js "Content-Type") (js "text/html"))
                               (js "Cache-Control")
                               (js "no-store, no-cache, must-revalidate");
                           cookies := None;
                           body := OauthCallback.generatePostMessageHTML (Some t)
                                     (Cors.getFrontendOrigin env project) |})).
  { unfold run. rewrite (handler_valid env fetch ev Hvalid).
    rewrite (exchange_after_presence env fetch ev _ Herror Htc Hts).
    rewrite Hstate in Hts. rewrite Hcookie, Hstate, Hcode.
    rewrite (stored_state_accepted _ Hts). cbv zeta.
    rewrite Hfetch, Hnoerr, Htoken.
    destruct t; [contradiction|]. reflexivity. }
  assert (Hbody : body (snd run)
                  = OauthCallback.success_page ++ statement ++ OauthCallback.success_rest).
  { rewrite Hrun. simpl snd. simpl body. unfold OauthCallback.generatePostMessageHTML.
    simpl interpolate at 1. fold target. unfold statement.
    rewrite <- !app_assoc. reflexivity. }
  assert (Htarget : forallb Script.plain_in_script target = true)
    by apply frontend_origin_plain.
  split; [rewrite Hrun; reflexivity|]. split; [rewrite Hrun; reflexivity|].
  split; [rewrite Hrun; eapply header_with_header; reflexivity|].
  split; [exact Hbody|].
  split; [rewrite Hbody; apply posted_by_template; assumption|].
  split.
  { unfold statement. repeat (apply Forall_app; split).
    - apply no_angle. reflexivity.
    - apply plain_no_angle, Hplain.
    - apply no_angle. reflexivity.
    - apply plain_no_angle, Htarget.
    - apply no_angle. reflexivity. }
  split; [apply frontend_origin_is_not_star|].
  split.
  - intros p Hp. split; [apply (project_ids_own config); eauto|].
    unfold target, Cors.getFrontendOrigin. fold config. rewrite Hp. reflexivity.
  - intros Hp. unfold target, Cors.getFrontendOrigin. fold config. rewrite Hp. reflexivity.
Qed.

(** Scenario 3 of the specification. *)
Lemma token_delivery_witness :
  let run := OauthCallback.handler development (provider_returns (Some (js "tok123")))
               (callback_request (Some (js "oauth_state=5a5a%3Acreate")) (Some (js "abc"))
                  (Some (js "5a5a:create")) None) in
  statusCode (snd run) = 200
  /\ body (snd run)
     = OauthCallback.success_page
       ++ (OauthCallback.postMessage_open ++ js "tok123" ++ OauthCallback.postMessage_target
           ++ js "http://localhost:5173" ++ OauthCallback.postMessage_close)
       ++ OauthCallback.success_rest
  /\ Script.posted_by (body (snd run))
     = Some ({| Script.message_source := js "oauth";
                Script.message_access_token := js "tok123";
                Script.targetOrigin := js "http://localhost:5173" |},
             OauthCallback.success_rest).
Proof.
  destruct (token_delivery development (provider_returns (Some (js "tok123")))
              (callback_request (Some (js "oauth_state=5a5a%3Acreate")) (Some (js "abc"))
                 (Some (js "5a5a:create")) None)
              (js "abc") (js "5a5a:create") (js "tok123")
              {| OauthCallback.td_error := None;
                 OauthCallback.td_error_description := None;
                 OauthCallback.td_access_token := Some (js "tok123") |})
    as (_ & Hstatus & _ & Hbody & Hposted & _);
    [reflexivity | reflexivity | reflexivity | discriminate | reflexivity | discriminate
     | vm_compute; reflexivity | reflexivity | reflexivity | reflexivity | discriminate
     | reflexivity |].
  split; [exact Hstatus|]. split; [exact Hbody | exact Hposted].
Defined.

(** C2 as stated fails in two places: an [access_token] that is the empty
    string is answered with the 400 "No access token" document, and a state
    whose project component names a built-in of [Object.prototype] makes the
    script post to the target ['undefined'], which is no registered origin. *)
Lemma delivery_needs_a_token_and_a_resolved_origin :
  let empty := OauthCallback.handler development (provider_returns (Some []))
                 (callback_request (Some (js "oauth_state=5a5a%3Acreate")) (Some (js "abc"))
                    (Some (js "5a5a:create")) None) in
  let inherited := OauthCallback.handler development (provider_returns (Some (js "tok123")))
                     (callback_request (Some (js "oauth_state=5a5a%3Aconstructor"))
                        (Some (js "abc")) (Some (js "5a5a:constructor")) None) in
  (statusCode (snd empty) = 400
   /\ body (snd empty)
      = OauthCallback.generateErrorHTML (js "No access token received from GitHub"))
  /\ (statusCode (snd inherited) = 200
      /\ Cors.getFrontendOrigin development (js "constructor") = None
      /\ body (snd inherited)
         = OauthCallback.success_page
           ++ (OauthCallback.postMessage_open ++ js "tok123"
               ++ OauthCallback.postMessage_target ++ js "undefined"
               ++ OauthCallback.postMessage_close)
           ++ OauthCallback.success_rest).
Proof. vm_compute. repeat split; reflexivity. Qed.

(** The token is pasted between the quotes as it is.  One that holds a quote
    ends the literal early and what follows it is read as script: with the
    token [x'}, '*'); console.log({a: 'y] the statement posts the message
    with [access_token] ["x"] to the target ['*'], whatever the registered
    origin is. *)
Lemma unescaped_token_rewrites_the_script :
  let t := js "x'}, '*'); console.log({a: 'y" in
  let run := OauthCallback.handler development (provider_returns (Some t))
               (callback_request (Some (js "oauth_state=5a5a%3Acreate")) (Some (js "abc"))
                  (Some (js "5a5a:create")) None) in
  statusCode (snd run) = 200
  /\ Cors.getFrontendOrigin development (js "create") = Some (js "http://localhost:5173")
  /\ fst <$> Script.posted_by (body (snd run))
     = Some {| Script.message_source := js "oauth";
               Script.message_access_token := js "x";
               Script.targetOrigin := js "*" |}.
Proof. vm_compute. repeat split; reflexivity. Qed.

(** ** Percent-encoding *)

Lemma hex_value_upper (d : N) : d < 16 -> hex_value (hex_upper d) = Some d.
Proof.
  intros H. unfold hex_upper, hex_value.
  destruct (N.ltb_spec d 10).
  - replace ((48 <=? 48 + d) && (48 + d <=? 57)) with true.
    + f_equal. lia.
    + symmetry. apply andb_true_iff. split; apply N.leb_le; lia.
  - replace ((48 <=? 55 + d) && (55 + d <=? 57)) with false.
    + replace ((65 <=? 55 + d) && (55 + d <=? 70)) with true.
      * f_equal. lia.
      * symmetry. apply andb_true_iff. split; apply N.leb_le; lia.
    + symmetry. apply andb_false_iff. right. apply N.leb_gt. lia.
Qed.

Lemma hex_octet_percent (b : N) :
  b < 256 -> hex_octet (hex_upper (b / 16)) (hex_upper (b mod 16)) = Some b.
Proof.
  intros H. unfold hex_octet.
  rewrite !hex_value_upper by euclid. f_equal. euclid.
Qed.

Lemma hex_upper_unescaped (d : N) : d < 16 -> uri_unescaped (hex_upper d) = true.
Proof.
  intros H. unfold hex_upper, uri_unescaped.
  destruct (N.ltb_spec d 10).
  - replace ((48 <=? 48 + d) && (48 + d <=? 57)) with true;
      [rewrite orb_true_r; reflexivity|].
    symmetry. apply andb_true_iff. split; apply N.leb_le; lia.
  - replace ((65 <=? 55 + d) && (55 + d <=? 90)) with true; [reflexivity|].
    symmetry. apply andb_true_iff. split; apply N.leb_le; lia.
Qed.

Lemma unescaped_not_percent (c : N) : uri_unescaped c = true -> (c =? 37) = false.
Proof.
  intros H. destruct (N.eqb_spec c 37) as [->|]; [|reflexivity].
  vm_compute in H. discriminate.
Qed.

(** What a URI character is not. *)
Lemma uri_char_plain (c : N) :
  is_uri_char c = true ->
  c <> 59 /\ c <> 61 /\ is_whitespace c = false.
Proof.
  unfold is_uri_char, uri_unescaped. intros H. to_prop H.
  split; [lia|]. split; [lia|].
  apply not_true_is_false. unfold is_whitespace. intros Hw. to_prop Hw. lia.
Qed.

Lemma utf8_octets (cp : N) : cp < 0x110000 -> Forall (fun b => b < 256) (utf8 cp).
Proof.
  intros H. unfold utf8.
  destruct (N.ltb_spec cp 0x80); [repeat constructor; lia|].
  destruct (N.ltb_spec cp 0x800); [repeat constructor; euclid|].
  destruct (N.ltb_spec cp 0x10000); repeat constructor; euclid.
Qed.

Lemma percent_octets_cons (b : N) (bs : list N) :
  percent_octets (b :: bs)
  = 37 :: hex_upper (b / 16) :: hex_upper (b mod 16) :: percent_octets bs.
Proof. reflexivity. Qed.

Lemma percent_octets_chars (bs : list N) :
  Forall (fun b => b < 256) bs ->
  Forall (fun c => is_uri_char c = true) (percent_octets bs).
Proof.
  induction 1 as [|b bs Hb _ IH]; [constructor|].
  rewrite percent_octets_cons. unfold is_uri_char.
  constructor; [reflexivity|].
  constructor; [rewrite hex_upper_unescaped by euclid; reflexivity|].
  constructor; [rewrite hex_upper_unescaped by euclid; reflexivity|].
  exact IH.
Qed.

Lemma uri_tokens_percent_octets (bs e : list N) :
  Forall (fun b => b < 256) bs ->
  uri_tokens (percent_octets bs ++ e) = app (List.map Esc bs) <$> uri_tokens e.
Proof.
  induction 1 as [|b bs Hb _ IH].
  - simpl. destruct (uri_tokens e); reflexivity.
  - rewrite percent_octets_cons. cbn [app uri_tokens]. rewrite N.eqb_refl.
    rewrite (hex_octet_percent b Hb), IH.
    destruct (uri_tokens e); reflexivity.
Qed.

(** A scalar value: a code point that is not a surrogate. *)
Lemma utf8_units_utf8 (cp : N) (ts : list uri_token) :
  cp < 0x110000 -> (cp < 0xD800 \/ 0xDFFF < cp) ->
  utf8_units (List.map Esc (utf8 cp) ++ ts) = app (utf16 cp) <$> utf8_units ts.
Proof.
  intros Hmax Hscalar. unfold utf8.
  destruct (N.ltb_spec cp 0x80) as [H1|H1].
  { cbn [List.map app utf8_units].
    replace (cp <? 0x80) with true by (symmetry; apply N.ltb_lt; lia).
    unfold utf16. replace (cp <? 0x10000) with true by (symmetry; apply N.ltb_lt; lia).
    reflexivity. }
  destruct (N.ltb_spec cp 0x800) as [H2|H2].
  { cbn [List.map app utf8_units].
    replace (0xC0 + cp / 0x40 <? 0x80) with false by (symmetry; apply N.ltb_ge; euclid).
    replace (0xC0 + cp / 0x40 <? 0xC0) with false by (symmetry; apply N.ltb_ge; euclid).
    replace (0xC0 + cp / 0x40 <? 0xE0) with true by (symmetry; apply N.ltb_lt; euclid).
    unfold utf8_cp2, is_continuation.
    replace ((0xC0 + cp / 0x40 - 0xC0) * 0x40 + (0x80 + cp mod 0x40 - 0x80)) with cp
      by euclid.
    replace (0x80 <=? 0x80 + cp mod 0x40) with true by (symmetry; apply N.leb_le; euclid).
    replace (0x80 + cp mod 0x40 <=? 0xBF) with true by (symmetry; apply N.leb_le; euclid).
    replace (0x80 <=? cp) with true by (symmetry; apply N.leb_le; euclid).
    reflexivity. }
  destruct (N.ltb_spec cp 0x10000) as [H3|H3].
  { cbn [List.map app utf8_units].
    replace (0xE0 + cp / 0x1000 <? 0x80) with false by (symmetry; apply N.ltb_ge; euclid).
    replace (0xE0 + cp / 0x1000 <? 0xC0) with false by (symmetry; apply N.ltb_ge; euclid).
    replace (0xE0 + cp / 0x1000 <? 0xE0) with false by (symmetry; apply N.ltb_ge; euclid).
    replace (0xE0 + cp / 0x1000 <? 0xF0) with true by (symmetry; apply N.ltb_lt; euclid).
    unfold utf8_cp3, is_continuation.
    replace ((0xE0 + cp / 0x1000 - 0xE0) * 0x1000
             + (0x80 + (cp / 0x40) mod 0x40 - 0x80) * 0x40
             + (0x80 + cp mod 0x40 - 0x80)) with cp by euclid.
    replace (0x80 <=? 0x80 + (cp / 0x40) mod 0x40) with true
      by (symmetry; apply N.leb_le; euclid).
    replace (0x80 + (cp / 0x40) mod 0x40 <=? 0xBF) with true
      by (symmetry; apply N.leb_le; euclid).
    replace (0x80 <=? 0x80 + cp mod 0x40) with true by (symmetry; apply N.leb_le; euclid).
    replace (0x80 + cp mod 0x40 <=? 0xBF) with true by (symmetry; apply N.leb_le; euclid).
    replace (0x800 <=? cp) with true by (symmetry; apply N.leb_le; euclid).
    replace ((0xD800 <=? cp) && (cp <=? 0xDFFF)) with false.
    - reflexivity.
    - symmetry. apply andb_false_iff.
      destruct Hscalar; [left; apply N.leb_gt | right; apply N.leb_gt]; lia. }
  cbn [List.map app utf8_units].
  replace (0xF0 + cp / 0x40000 <? 0x80) with false by (symmetry; apply N.ltb_ge; euclid).
  replace (0xF0 + cp / 0x40000 <? 0xC0) with false by (symmetry; apply N.ltb_ge; euclid).
  replace (0xF0 + cp / 0x40000 <? 0xE0) with false by (symmetry; apply N.ltb_ge; euclid).
  replace (0xF0 + cp / 0x40000 <? 0xF0) with false by (symmetry; apply N.ltb_ge; euclid).
  replace (0xF0 + cp / 0x40000 <? 0xF8) with true by (symmetry; apply N.ltb_lt; euclid).
  unfold utf8_cp4, is_continuation.
  replace ((0xF0 + cp / 0x40000 - 0xF0) * 0x40000
           + (0x80 + (cp / 0x1000) mod 0x40 - 0x80) * 0x1000
           + (0x80 + (cp / 0x40) mod 0x40 - 0x80) * 0x40
           + (0x80 + cp mod 0x40 - 0x80)) with cp by euclid.
  replace (0x80 <=? 0x80 + (cp / 0x1000) mod 0x40) with true
    by (symmetry; apply N.leb_le; euclid).
  replace (0x80 + (cp / 0x1000) mod 0x40 <=? 0xBF) with true
    by (symmetry; apply N.leb_le; euclid).
  replace (0x80 <=? 0x80 + (cp / 0x40) mod 0x40) with true
    by (symmetry; apply N.leb_le; euclid).
  replace (0x80 + (cp / 0x40) mod 0x40 <=? 0xBF) with true
    by (symmetry; apply N.leb_le; euclid).
  replace (0x80 <=? 0x80 + cp mod 0x40) with true by (symmetry; apply N.leb_le; euclid).
  replace (0x80 + cp mod 0x40 <=? 0xBF) with true by (symmetry; apply N.leb_le; euclid).
  replace (0x10000 <=? cp) with true by (symmetry; apply N.leb_le; euclid).
  replace (cp <=? 0x10FFFF) with true by (symmetry; apply N.leb_le; euclid).
  reflexivity.
Qed.

Lemma surrogate_pair_scalar (c d : N) :
  is_high_surrogate c = true -> is_low_surrogate d = true ->
  pair_code_point c d < 0x110000 /\ 0xDFFF < pair_code_point c d
  /\ utf16 (pair_code_point c d) = [c; d].
Proof.
  unfold is_high_surrogate, is_low_surrogate, pair_code_point, utf16.
  intros Hc Hd. to_prop Hc. to_prop Hd.
  split; [lia|]. split; [lia|].
  replace (0x10000 + (c - 0xD800) * 0x400 + (d - 0xDC00) <? 0x10000) with false
    by (symmetry; apply N.ltb_ge; lia).
  f_equal; [euclid|]. f_equal. euclid.
Qed.

(** Induction along the loop of [encodeURIComponent]. *)
Lemma encodeURIComponent_cases (P : list N -> list N -> Prop) :
  P [] [] ->
  (forall c r e,
     uri_unescaped c = true -> encodeURIComponent r = Normal e -> P r e ->
     P (c :: r) (c :: e)) ->
  (forall c d r e,
     uri_unescaped c = false -> is_high_surrogate c = true -> is_low_surrogate d = true ->
     encodeURIComponent r = Normal e -> P r e ->
     P (c :: d :: r) (percent_octets (utf8 (pair_code_point c d)) ++ e)) ->
  (forall c r e,
     uri_unescaped c = false -> is_high_surrogate c = false -> is_low_surrogate c = false ->
     encodeURIComponent r = Normal e -> P r e ->
     P (c :: r) (percent_octets (utf8 c) ++ e)) ->
  forall v e, encodeURIComponent v = Normal e -> P v e.
Proof.
  intros Hnil Hplain Hpair Hunit v.
  assert (Hall : forall n v, (List.length v <= n)%nat ->
                             forall e, encodeURIComponent v = Normal e -> P v e).
  { clear v. induction n as [|n IH]; intros v Hn e He.
    - destruct v; [|simpl in Hn; lia]. simpl in He. injection He as <-. exact Hnil.
    - destruct v as [|c r]; [simpl in He; injection He as <-; exact Hnil|].
      simpl in Hn. simpl in He.
      destruct (uri_unescaped c) eqn:Hu.
      { destruct (encodeURIComponent r) as [e'|] eqn:Hr; [|discriminate].
        injection He as <-. apply Hplain; auto. apply IH; [lia | exact Hr]. }
      destruct (is_high_surrogate c) eqn:Hh.
      { destruct r as [|d r']; [discriminate|].
        destruct (is_low_surrogate d) eqn:Hl; [|discriminate].
        destruct (encodeURIComponent r') as [e'|] eqn:Hr; [|discriminate].
        injection He as <-. apply Hpair; auto. apply IH; [simpl in Hn; lia | exact Hr]. }
      destruct (is_low_surrogate c) eqn:Hl; [discriminate|].
      destruct (encodeURIComponent r) as [e'|] eqn:Hr; [|discriminate].
      injection He as <-. apply Hunit; auto. apply IH; [lia | exact Hr]. }
  intros e. apply (Hall (List.length v)). lia.
Qed.

Lemma is_string_cons (c : N) (s : list N) :
  is_string (c :: s) = true <-> c < 0x10000 /\ is_string s = true.
Proof.
  unfold is_string. simpl. rewrite andb_true_iff, N.ltb_lt. reflexivity.
Qed.

Lemma not_surrogate (c : N) :
  is_high_surrogate c = false -> is_low_surrogate c = false ->
  c < 0xD800 \/ 0xDFFF < c.
Proof.
  unfold is_high_surrogate, is_low_surrogate. intros Hh Hl. to_prop Hh. to_prop Hl. lia.
Qed.

(** Every code unit [encodeURIComponent] writes is unescaped, or belongs to
    an escape. *)
Lemma encodeURIComponent_chars (v e : list N) :
  encodeURIComponent v = Normal e -> is_string v = true ->
  Forall (fun c => is_uri_char c = true) e.
Proof.
  intros He. revert v e He.
  apply (encodeURIComponent_cases
           (fun v e => is_string v = true -> Forall (fun c => is_uri_char c = true) e)).
  - constructor.
  - intros c r e Hu _ IH Hs. apply is_string_cons in Hs as [_ Hs].
    constructor; [unfold is_uri_char; rewrite Hu; reflexivity | auto].
  - intros c d r e _ Hh Hl _ IH Hs.
    apply is_string_cons in Hs as [_ Hs]. apply is_string_cons in Hs as [_ Hs].
    apply Forall_app. split; [|auto].
    apply percent_octets_chars, utf8_octets.
    apply (surrogate_pair_scalar c d Hh Hl).
  - intros c r e _ Hh Hl _ IH Hs. apply is_string_cons in Hs as [Hc Hs].
    apply Forall_app. split; [|auto].
    apply percent_octets_chars, utf8_octets. lia.
Qed.

Lemma encodeURIComponent_nonempty (v e : list N) :
  encodeURIComponent v = Normal e -> v <> [] -> e <> [].
Proof.
  intros He. revert v e He.
  apply (encodeURIComponent_cases (fun v e => v <> [] -> e <> [])).
  - contradiction.
  - discriminate.
  - intros c d r e _ _ _ _ _ _. unfold utf8.
    repeat case_match; discriminate.
  - intros c r e _ _ _ _ _ _. unfold utf8.
    repeat case_match; discriminate.
Qed.

(** Decoding undoes encoding. *)
Lemma decode_encode_tokens (v e : list N) :
  encodeURIComponent v = Normal e -> is_string v = true ->
  exists ts, uri_tokens e = Normal ts /\ utf8_units ts = Normal v.
Proof.
  intros He. revert v e He.
  apply (encodeURIComponent_cases
           (fun v e => is_string v = true ->
                       exists ts, uri_tokens e = Normal ts /\ utf8_units ts = Normal v)).
  - intros _. exists []. split; reflexivity.
  - intros c r e Hu _ IH Hs. apply is_string_cons in Hs as [_ Hs].
    destruct (IH Hs) as (ts & Ht & Hd). exists (Lit c :: ts). split.
    + simpl. rewrite (unescaped_not_percent c Hu), Ht. reflexivity.
    + simpl. rewrite Hd. reflexivity.
  - intros c d r e _ Hh Hl _ IH Hs.
    apply is_string_cons in Hs as [_ Hs]. apply is_string_cons in Hs as [_ Hs].
    destruct (IH Hs) as (ts & Ht & Hd).
    destruct (surrogate_pair_scalar c d Hh Hl) as (Hmax & Hmin & H16).
    exists (List.map Esc (utf8 (pair_code_point c d)) ++ ts). split.
    + rewrite uri_tokens_percent_octets by (apply utf8_octets, Hmax).
      rewrite Ht. reflexivity.
    + rewrite utf8_units_utf8 by (auto; lia). rewrite Hd, H16. reflexivity.
  - intros c r e _ Hh Hl _ IH Hs. apply is_string_cons in Hs as [Hc Hs].
    destruct (IH Hs) as (ts & Ht & Hd).
    exists (List.map Esc (utf8 c) ++ ts). split.
    + rewrite uri_tokens_percent_octets by (apply utf8_octets; lia).
      rewrite Ht. reflexivity.
    + rewrite utf8_units_utf8 by (try apply not_surrogate; auto; lia).
      rewrite Hd. unfold utf16.
      replace (c <? 0x10000) with true by (symmetry; apply N.ltb_lt; lia).
      reflexivity.
Qed.

Lemma decodeURIComponent_encodeURIComponent (v e : list N) :
  encodeURIComponent v = Normal e -> is_string v = true ->
  decodeURIComponent e = Normal v.
Proof.
  intros He Hs. destruct (decode_encode_tokens v e He Hs) as (ts & Ht & Hd).
  unfold decodeURIComponent. rewrite Ht. exact Hd.
Qed.

Lemma unescaped_not_surrogate (c : N) :
  uri_unescaped c = true -> is_high_surrogate c = false /\ is_low_surrogate c = false.
Proof.
  unfold uri_unescaped, is_high_surrogate, is_low_surrogate. intros H. to_prop H.
  split; apply andb_false_iff; left; apply N.leb_gt; lia.
Qed.

(** A well-formed string can be encoded. *)
Lemma encodeURIComponent_well_formed (v : list N) :
  isWellFormed v = true -> exists e, encodeURIComponent v = Normal e.
Proof.
  assert (Hall : forall n v, (List.length v <= n)%nat -> isWellFormed v = true ->
                             exists e, encodeURIComponent v = Normal e).
  { clear v. induction n as [|n IH]; intros v Hn Hw.
    - destruct v; [|simpl in Hn; lia]. exists []. reflexivity.
    - destruct v as [|c r]; [exists []; reflexivity|].
      simpl in Hn, Hw. simpl.
      destruct (uri_unescaped c) eqn:Hu.
      { destruct (unescaped_not_surrogate c Hu) as [Hh _]. rewrite Hh in Hw.
        apply andb_prop in Hw as [_ Hr].
        destruct (IH r) as [e He]; [lia | exact Hr |]. rewrite He. eauto. }
      destruct (is_high_surrogate c) eqn:Hh.
      + destruct r as [|d r']; [discriminate|].
        apply andb_prop in Hw as [Hl Hw]. rewrite Hl.
        destruct (IH r') as [e He]; [simpl in Hn; lia | exact Hw |].
        rewrite He. eauto.
      + apply andb_prop in Hw as [Hw Hr]. apply andb_prop in Hw as [_ Hl].
        apply negb_true_iff in Hl. rewrite Hl.
        destruct (IH r) as [e He]; [lia | exact Hr |]. rewrite He. eauto. }
  intros Hw. apply (Hall (List.length v)); [lia | exact Hw].
Qed.

Lemma encodeURIComponent_unescaped_prefix (a b : list N) :
  Forall (fun c => uri_unescaped c = true) a ->
  encodeURIComponent (a ++ b) = app a <$> encodeURIComponent b.
Proof.
  induction 1 as [|c a Hc _ IH]; simpl.
  - destruct (encodeURIComponent b); reflexivity.
  - rewrite Hc, IH. destruct (encodeURIComponent b); reflexivity.
Qed.

(** ** The cookie codec *)

Lemma createCookieHeader_pair (name v : list N) :
  Cookies.createCookieHeader name v Cookies.no_options
  = (fun encoded => name ++ js "=" ++ encoded) <$> encodeURIComponent v.
Proof.
  unfold Cookies.createCookieHeader. destruct (encodeURIComponent v); reflexivity.
Qed.

(** Reading back one pair [name=value] whose value is the encoding of [v]. *)
Lemma parseCookie_pair (cookies : gmap (list N) (list N)) (name v encoded : list N) :
  name <> [] ->
  Forall (fun c => c <> 61 /\ is_whitespace c = false) name ->
  v <> [] -> is_string v = true ->
  encodeURIComponent v = Normal encoded ->
  Cookies.parseCookie cookies (name ++ js "=" ++ encoded)
  = Normal (object_set cookies name v).
Proof.
  intros Hname Hplain Hv Hs He.
  pose proof (encodeURIComponent_chars v encoded He Hs) as Hchars.
  pose proof (encodeURIComponent_nonempty v encoded He Hv) as Hne.
  unfold Cookies.parseCookie.
  rewrite trim_without.
  2:{ apply Forall_app. split.
      - eapply Forall_impl; [exact Hplain|]. intros c [_ Hc]. exact Hc.
      - constructor; [reflexivity|].
        eapply Forall_impl; [exact Hchars|]. intros c Hc. apply (uri_char_plain c Hc). }
  change (js "=" ++ encoded) with (61 :: encoded).
  rewrite split_at_first.
  2:{ eapply Forall_impl; [exact Hplain|]. intros c [Hc _]. exact Hc. }
  rewrite split_without.
  2:{ eapply Forall_impl; [exact Hchars|]. intros c Hc. apply (uri_char_plain c Hc). }
  cbn [lookup list_lookup].
  destruct name as [|c n]; [contradiction|]. destruct encoded as [|d e]; [contradiction|].
  simpl. rewrite (decodeURIComponent_encodeURIComponent v (d :: e) He Hs). reflexivity.
Qed.

Lemma split_at_separator (sep : N) (a b : list N) :
  split sep (a ++ sep :: b) = split sep a ++ split sep b.
Proof.
  induction a as [|c a IH]; simpl.
  - rewrite N.eqb_refl. reflexivity.
  - destruct (c =? sep); [rewrite IH; reflexivity|].
    rewrite IH. destruct (split sep a) as [|p ps] eqn:E; [|reflexivity].
    destruct (split_nonempty sep a E).
Qed.

Lemma split_join (sep : N) (pieces : list (list N)) :
  pieces <> [] -> Forall (Forall (fun c => c <> sep)) pieces ->
  split sep (join [sep] pieces) = pieces.
Proof.
  intros Hne Hpieces. induction Hpieces as [|x rest Hx Hrest IH]; [contradiction|].
  destruct rest as [|y rest'].
  - simpl. apply split_without, Hx.
  - change (join [sep] (x :: y :: rest')) with (x ++ sep :: join [sep] (y :: rest')).
    rewrite (split_at_first sep x _ Hx), IH by discriminate. reflexivity.
Qed.

Lemma forEach_app (l1 l2 : list (list N)) (m : gmap (list N) (list N)) :
  Cookies.forEach (l1 ++ l2) m = Cookies.forEach l1 m ≫= Cookies.forEach l2.
Proof.
  revert m. induction l1 as [|piece l1 IH]; intros m; [reflexivity|].
  cbn [app Cookies.forEach].
  destruct (Cookies.parseCookie m piece) as [m'|e]; [apply IH | reflexivity].
Qed.

(** Whether a piece can be read does not depend on what was read before. *)
Lemma decodable_from (piece : list N) (m : gmap (list N) (list N)) :
  decodable piece -> exists m', Cookies.parseCookie m piece = Normal m'.
Proof.
  intros [m0 H]. unfold Cookies.parseCookie in *.
  destruct (split 61 (trim piece) !! 0%nat) as [[|c n]|];
    try (eexists; reflexivity).
  destruct (split 61 (trim piece) !! 1%nat) as [[|d v]|];
    try (eexists; reflexivity).
  destruct (decodeURIComponent (d :: v)); [eexists; reflexivity | discriminate].
Qed.

Lemma forEach_decodable (pieces : list (list N)) (m : gmap (list N) (list N)) :
  Forall decodable pieces -> exists m', Cookies.forEach pieces m = Normal m'.
Proof.
  intros H. revert m. induction H as [|piece rest Hp _ IH]; intros m; [eexists; reflexivity|].
  cbn [Cookies.forEach]. destruct (decodable_from piece m Hp) as [m' ->]. apply IH.
Qed.

(** A piece with another name leaves the entry of [k] as it is. *)
Lemma parseCookie_other (m m' : gmap (list N) (list N)) (piece k : list N) :
  Cookies.parseCookie m piece = Normal m' -> piece_name piece <> Some k ->
  m' !! k = m !! k.
Proof.
  unfold Cookies.parseCookie, piece_name. intros H Hk.
  assert (Hsame : Normal m = Normal m' -> m' !! k = m !! k) by congruence.
  destruct (split 61 (trim piece) !! 0%nat) as [[|c n]|]; try exact (Hsame H).
  destruct (split 61 (trim piece) !! 1%nat) as [[|d v]|]; try exact (Hsame H).
  destruct (decodeURIComponent (d :: v)) as [decoded|]; [|discriminate].
  assert (Hm : m' = object_set m (c :: n) decoded).
  { change (Normal (object_set m (c :: n) decoded) = Normal m') in H. congruence. }
  subst m'.
  unfold object_set. destruct (strict_eq (c :: n) (js "__proto__")); [reflexivity|].
  apply lookup_insert_ne. intros Heq. apply Hk. rewrite Heq. reflexivity.
Qed.

Lemma forEach_other (pieces : list (list N)) (m m' : gmap (list N) (list N)) (k : list N) :
  Forall (fun piece => piece_name piece <> Some k) pieces ->
  Cookies.forEach pieces m = Normal m' -> m' !! k = m !! k.
Proof.
  intros H. revert m. induction H as [|piece rest Hp _ IH]; intros m Hm.
  - change (Normal m = Normal m') in Hm. congruence.
  - cbn [Cookies.forEach] in Hm.
    destruct (Cookies.parseCookie m piece) as [m1|] eqn:E; [|discriminate].
    rewrite (IH m1 Hm). apply (parseCookie_other m m1 piece k E Hp).
Qed.

Lemma trimStart_padding (pad s : list N) :
  Forall (fun c => is_whitespace c = true) pad -> trimStart (pad ++ s) = trimStart s.
Proof.
  induction 1 as [|c pad Hc _ IH]; [reflexivity|]. simpl. rewrite Hc. exact IH.
Qed.

Lemma trim_padding (pad s : list N) :
  Forall (fun c => is_whitespace c = true) pad -> trim (pad ++ s) = trim s.
Proof. intros H. unfold trim. rewrite (trimStart_padding pad s H). reflexivity. Qed.

(** C9, as the code has it: for a cookie name that is not empty, is not
    [__proto__], and has no '=', ';' or white space, and a non-empty value
    [v], the encoder writes the pair [name=encodeURIComponent(v)], whose
    value decodes to [v], and the decoder reads the header made of that pair
    as the mapping of [name] to exactly [v], whatever [v] contains.  The
    same entry is found when the pair, possibly after white space, stands
    among other ';'-separated cookies, provided those can be decoded and
    none after the pair has the same name. *)
Theorem cookie_round_trip (name v pair pad : list N) (before after : list (list N)) :
  name <> [] -> name <> js "__proto__" ->
  Forall (fun c => c <> 61 /\ c <> 59 /\ is_whitespace c = false) name ->
  v <> [] -> is_string v = true ->
  Cookies.createCookieHeader name v Cookies.no_options = Normal pair ->
  Forall (fun c => is_whitespace c = true) pad ->
  Forall (fun piece => Forall (fun c => c <> 59) piece /\ decodable piece) (before ++ after) ->
  Forall (fun piece => piece_name piece <> Some name) after ->
  (exists encoded,
     encodeURIComponent v = Normal encoded
     /\ pair = name ++ js "=" ++ encoded
     /\ decodeURIComponent encoded = Normal v)
  /\ Cookies.parseCookieHeader pair = Normal {[ name := v ]}
  /\ exists cookies,
       Cookies.parseCookieHeader (join (js ";") (before ++ [pad ++ pair] ++ after))
       = Normal cookies
       /\ cookies !! name = Some v.
Proof.
  intros Hname Hproto Hplain Hv Hs Hpair Hpad Hothers Hafter.
  rewrite createCookieHeader_pair in Hpair.
  destruct (encodeURIComponent v) as [encoded|] eqn:He; [|discriminate].
  change (Normal (name ++ js "=" ++ encoded) = Normal pair) in Hpair.
  assert (Hh : pair = name ++ js "=" ++ encoded) by congruence.
  clear Hpair. subst pair.
  pose proof (encodeURIComponent_chars v encoded He Hs) as Hchars.
  assert (Hsemi : Forall (fun c => c <> 59) (name ++ js "=" ++ encoded)).
  { apply Forall_app. split.
    - eapply Forall_impl; [exact Hplain|]. intros c (_ & Hc & _). exact Hc.
    - constructor; [discriminate|].
      eapply Forall_impl; [exact Hchars|]. intros c Hc. apply (uri_char_plain c Hc). }
  assert (Hread : forall m, Cookies.parseCookie m (name ++ js "=" ++ encoded)
                            = Normal (<[name := v]> m)).
  { intros m. rewrite (parseCookie_pair m name v encoded); auto.
    - unfold object_set. rewrite strict_eq_false by exact Hproto. reflexivity.
    - eapply Forall_impl; [exact Hplain|]. intros c (H1 & _ & H3). auto. }
  split; [|split].
  - exists encoded. split; [reflexivity|]. split; [reflexivity|].
    apply (decodeURIComponent_encodeURIComponent v encoded He Hs).
  - unfold Cookies.parseCookieHeader. rewrite (split_without 59 _ Hsemi).
    cbn [Cookies.forEach]. rewrite Hread. reflexivity.
  - unfold Cookies.parseCookieHeader.
    change (js ";") with [59]. rewrite split_join.
    2:{ destruct before; discriminate. }
    2:{ apply Forall_app in Hothers as [Hb Ha]. apply Forall_app. split.
        - eapply Forall_impl; [exact Hb|]. intros piece [H _]. exact H.
        - constructor.
          + apply Forall_app. split; [|exact Hsemi].
            eapply Forall_impl; [exact Hpad|]. intros c Hc ->. discriminate.
          + eapply Forall_impl; [exact Ha|]. intros piece [H _]. exact H. }
    apply Forall_app in Hothers as [Hb Ha].
    destruct (forEach_decodable before ∅) as [m1 Hm1].
    { eapply Forall_impl; [exact Hb|]. intros piece [_ H]. exact H. }
    destruct (forEach_decodable after (<[name := v]> m1)) as [m2 Hm2].
    { eapply Forall_impl; [exact Ha|]. intros piece [_ H]. exact H. }
    exists m2. split.
    + rewrite forEach_app, Hm1. cbn [mbind completion_bind app Cookies.forEach].
      unfold Cookies.parseCookie at 1. rewrite (trim_padding pad _ Hpad).
      fold (Cookies.parseCookie m1 (name ++ js "=" ++ encoded)).
      rewrite Hread. exact Hm2.
    + rewrite (forEach_other after _ m2 name Hafter Hm2). apply lookup_insert_eq.
Qed.

Lemma cookie_round_trip_witness :
  Cookies.parseCookieHeader (js "oauth_state=5a5a%3Acreate%3B%20a%3Db")
  = Normal {[ js "oauth_state" := js "5a5a:create; a=b" ]}
  /\ exists cookies,
       Cookies.parseCookieHeader
         (js "theme=dark; oauth_state=5a5a%3Acreate%3B%20a%3Db; lang=en%2DGB")
       = Normal cookies
       /\ cookies !! js "oauth_state" = Some (js "5a5a:create; a=b").
Proof.
  destruct (cookie_round_trip (js "oauth_state") (js "5a5a:create; a=b")
              (js "oauth_state=5a5a%3Acreate%3B%20a%3Db") (js " ")
              [js "theme=dark"] [js " lang=en%2DGB"])
    as (_ & Hone & Hmany);
    [discriminate | discriminate
     | repeat constructor; discriminate | discriminate | reflexivity | reflexivity
     | repeat constructor | | repeat constructor; discriminate |].
  - repeat constructor; try discriminate; eexists; vm_compute; reflexivity.
  - split; [exact Hone | exact Hmany].
Defined.

(** C9 as stated fails for the empty name, which has none of the excluded
    characters: the decoder skips a pair without a name.  It fails also for
    the name [__proto__], under which the decoder's object stores nothing. *)
Lemma nameless_cookie_is_dropped :
  (Cookies.createCookieHeader [] (js "abc") Cookies.no_options = Normal (js "=abc")
   /\ Cookies.parseCookieHeader (js "=abc") = Normal ∅
   /\ (∅ : gmap (list N) (list N)) !! ([] : list N) <> Some (js "abc"))
  /\ (Cookies.createCookieHeader (js "__proto__") (js "abc") Cookies.no_options
      = Normal (js "__proto__=abc")
      /\ Cookies.parseCookieHeader (js "__proto__=abc") = Normal ∅
      /\ (∅ : gmap (list N) (list N)) !! js "__proto__" <> Some (js "abc")).
Proof.
  repeat split; try (vm_compute; reflexivity); rewrite lookup_empty; discriminate.
Qed.

(** ** The state cookie of the login response *)

Lemma is_string_app (a b : list N) :
  is_string (a ++ b) = is_string a && is_string b.
Proof. unfold is_string. apply forallb_app. Qed.

Lemma lower_hex_unescaped (c : N) : is_lower_hex c = true -> uri_unescaped c = true.
Proof.
  unfold is_lower_hex, uri_unescaped. intros H. to_prop H.
  destruct H as [[H1 H2]|[H1 H2]].
  - replace ((48 <=? c) && (c <=? 57)) with true; [rewrite orb_true_r; reflexivity|].
    symmetry. apply andb_true_iff. split; apply N.leb_le; lia.
  - replace ((97 <=? c) && (c <=? 122)) with true; [rewrite orb_true_r; reflexivity|].
    symmetry. apply andb_true_iff. split; apply N.leb_le; lia.
Qed.

Lemma toString_hex_is_string (buf : list Byte.byte) : is_string (toString_hex buf) = true.
Proof.
  unfold is_string. apply forallb_forall. intros c Hc.
  pose proof (toString_hex_digits buf) as H. rewrite List.Forall_forall in H.
  specialize (H c Hc). unfold is_lower_hex in H. to_prop H. apply N.ltb_lt. lia.
Qed.

(** The encoded state token: the hexadecimal part as it is, the colon as
    [%3A], then the encoded project. *)
Lemma encode_state_token (h p : list N) :
  Forall (fun c => is_lower_hex c = true) h ->
  encodeURIComponent (h ++ js ":" ++ p)
  = (fun e => h ++ js "%3A" ++ e) <$> encodeURIComponent p.
Proof.
  intros Hh. rewrite encodeURIComponent_unescaped_prefix.
  2:{ eapply Forall_impl; [exact Hh|]. apply lower_hex_unescaped. }
  change (js ":" ++ p) with (58 :: p). cbn [encodeURIComponent].
  change (uri_unescaped 58) with false. change (is_high_surrogate 58) with false.
  change (is_low_surrogate 58) with false. cbv iota.
  destruct (encodeURIComponent p); reflexivity.
Qed.

(** The login handler answers 302 only from the end of its [try] block. *)
Lemma login_redirect_inv (env : Config.environment)
    (randomBytes : nat -> list Byte.byte) (ev : event) :
  statusCode (OauthLogin.handler env randomBytes ev) = 302 ->
  Config.valid (Config.validateConfig env) = true
  /\ or_else (httpMethod ev) (requestContext_http_method ev) = Some (js "GET")
  /\ exists stateCookie,
       Cookies.createCookieHeader (js "oauth_state")
         (OauthLogin.stateWithProject env randomBytes ev)
         (Cookies.getCookieOptions (Config.NODE_ENV env)) = Normal stateCookie
       /\ cookies (OauthLogin.handler env randomBytes ev) = Some [stateCookie].
Proof.
  unfold OauthLogin.handler.
  destruct (Config.valid (Config.validateConfig env)); [|discriminate]. cbv zeta. simpl negb.
  cbv iota.
  destruct (OauthLogin.is_literal _ (js "OPTIONS")) eqn:Ho; [discriminate|].
  destruct (OauthLogin.is_literal _ (js "GET")) eqn:Hg; [|discriminate]. simpl negb. cbv iota.
  unfold OauthLogin.issue. cbv zeta.
  destruct (Cookies.createCookieHeader _ _ _) as [stateCookie|e] eqn:Hc; [|discriminate].
  intros _. split; [reflexivity|]. split.
  - destruct (or_else (httpMethod ev) (requestContext_http_method ev)) as [m|];
      [|discriminate]. simpl in Hg. apply strict_eq_true in Hg. congruence.
  - exists stateCookie. split; reflexivity.
Qed.

Lemma createCookieHeader_state (env : Config.environment) (value : list N) :
  Cookies.createCookieHeader (js "oauth_state") value
    (Cookies.getCookieOptions (Config.NODE_ENV env))
  = (fun encoded =>
       js "oauth_state=" ++ encoded ++ js "; HttpOnly"
       ++ (if Config.isProduction env then js "; Secure" else [])
       ++ js "; SameSite=Lax; Max-Age=600; Path=/") <$> encodeURIComponent value.
Proof.
  unfold Cookies.createCookieHeader, Cookies.getCookieOptions, Config.isProduction.
  destruct (encodeURIComponent value) as [encoded|]; [|reflexivity].
  cbn [mbind completion_bind fmap completion_fmap Cookies.httpOnly Cookies.secure
       Cookies.sameSite Cookies.maxAge Cookies.path Cookies.domain].
  change (truthy (Some (js "Lax"))) with true. change (truthy (Some (js "/"))) with true.
  change (truthy None) with false. cbv iota. cbn [interpolate].
  change (number_to_string 600) with (js "600").
  destruct (Config.NODE_ENV env) as [v|]; [destruct (strict_eq v (js "production"))|];
    rewrite <- ?app_assoc; reflexivity.
Qed.

(** C6: when the login handler answers 302, it sets exactly one cookie:
    [oauth_state=] followed by the percent-encoded state token (which
    decodes to the token), then [; HttpOnly], then [; Secure] exactly when
    [NODE_ENV] is [production], then [; SameSite=Lax; Max-Age=600; Path=/].
    Cut at the semicolons these are the pair and the attributes, no
    others. *)
Theorem state_cookie_attributes (env : Config.environment)
    (randomBytes : nat -> list Byte.byte) (ev : event) :
  statusCode (OauthLogin.handler env randomBytes ev) = 302 ->
  is_string (OauthLogin.requested_project ev) = true ->
  let token := OauthLogin.stateWithProject env randomBytes ev in
  exists value stateCookie,
    encodeURIComponent token = Normal value
    /\ decodeURIComponent value = Normal token
    /\ cookies (OauthLogin.handler env randomBytes ev) = Some [stateCookie]
    /\ stateCookie
       = js "oauth_state=" ++ value ++ js "; HttpOnly"
         ++ (if Config.isProduction env then js "; Secure" else [])
         ++ js "; SameSite=Lax; Max-Age=600; Path=/"
    /\ split 59 stateCookie
       = [js "oauth_state=" ++ value; js " HttpOnly"]
         ++ (if Config.isProduction env then [js " Secure"] else [])
         ++ [js " SameSite=Lax"; js " Max-Age=600"; js " Path=/"]
    /\ (In (js " Secure") (split 59 stateCookie) <-> Config.isProduction env = true).
Proof.
  intros Hstatus Hproject token.
  destruct (login_redirect_inv env randomBytes ev Hstatus)
    as (_ & _ & stateCookie & Hcreate & Hcookies).
  fold token in Hcreate. rewrite createCookieHeader_state in Hcreate.
  destruct (encodeURIComponent token) as [value|] eqn:He; [|discriminate].
  assert (Hc : stateCookie
               = js "oauth_state=" ++ value ++ js "; HttpOnly"
                 ++ (if Config.isProduction env then js "; Secure" else [])
                 ++ js "; SameSite=Lax; Max-Age=600; Path=/").
  { cbv [fmap completion_fmap] in Hcreate. congruence. }
  assert (Hs : is_string token = true).
  { unfold token, OauthLogin.stateWithProject. cbv zeta.
    rewrite !is_string_app, toString_hex_is_string, Hproject. reflexivity. }
  pose proof (encodeURIComponent_chars token value He Hs) as Hchars.
  assert (Hsplit : split 59 stateCookie
       = [js "oauth_state=" ++ value; js " HttpOnly"]
         ++ (if Config.isProduction env then [js " Secure"] else [])
         ++ [js " SameSite=Lax"; js " Max-Age=600"; js " Path=/"]).
  { rewrite Hc.
    change (js "oauth_state=" ++ value ++ js "; HttpOnly"
            ++ (if Config.isProduction env then js "; Secure" else [])
            ++ js "; SameSite=Lax; Max-Age=600; Path=/")
      with (js "oauth_state=" ++ value ++ 59 :: (js " HttpOnly"
            ++ (if Config.isProduction env then js "; Secure" else [])
            ++ js "; SameSite=Lax; Max-Age=600; Path=/")).
    rewrite app_assoc, split_at_first.
    - destruct (Config.isProduction env); reflexivity.
    - apply Forall_app. split; [repeat constructor; discriminate|].
      eapply Forall_impl; [exact Hchars|]. intros c Hu. apply (uri_char_plain c Hu). }
  exists value, stateCookie.
  split; [reflexivity|].
  split; [apply (decodeURIComponent_encodeURIComponent token value He Hs)|].
  split; [exact Hcookies|]. split; [exact Hc|]. split; [exact Hsplit|].
  rewrite Hsplit. destruct (Config.isProduction env); split; intros H; try reflexivity.
  - right. right. left. reflexivity.
  - exfalso. simpl in H.
    destruct H as [H|[H|[H|[H|[H|[]]]]]]; discriminate.
  - discriminate.
Qed.

Lemma state_cookie_attributes_witness :
  cookies (OauthLogin.handler production fixed_bytes
             (login_request (Some (js "GET")) (Some (js "prompts"))))
  = Some [js "oauth_state=5a5a5a5a5a5a5a5a5a5a5a5a5a5a5a5a%3Aprompts; HttpOnly; Secure; SameSite=Lax; Max-Age=600; Path=/"]
  /\ cookies (OauthLogin.handler development fixed_bytes
                (login_request (Some (js "GET")) (Some (js "prompts"))))
     = Some [js "oauth_state=5a5a5a5a5a5a5a5a5a5a5a5a5a5a5a5a%3Aprompts; HttpOnly; SameSite=Lax; Max-Age=600; Path=/"].
Proof.
  split.
  - destruct (state_cookie_attributes production fixed_bytes
                (login_request (Some (js "GET")) (Some (js "prompts"))))
      as (value & stateCookie & He & _ & Hcookies & Hc & _); [reflexivity | reflexivity |].
    rewrite Hcookies, Hc. vm_compute in He. injection He as <-. reflexivity.
  - destruct (state_cookie_attributes development fixed_bytes
                (login_request (Some (js "GET")) (Some (js "prompts"))))
      as (value & stateCookie & He & _ & Hcookies & Hc & _); [reflexivity | reflexivity |].
    rewrite Hcookies, Hc. vm_compute in He. injection He as <-. reflexivity.
Defined.

(** ** From login to callback *)

(** The cookie the login handler sets, sent back as the browser sends it,
    is read by the callback handler as the state token that was issued. *)
Lemma issued_cookie_is_accepted (env : Config.environment)
    (randomBytes : nat -> list Byte.byte) (login callback : event) (value : list N) :
  is_string (OauthLogin.requested_project login) = true ->
  encodeURIComponent (OauthLogin.stateWithProject env randomBytes login) = Normal value ->
  Cookies.cookieHeader callback = js "oauth_state=" ++ value ->
  Cookies.extractStateFromCookies callback
  = Normal (Some (OauthLogin.stateWithProject env randomBytes login)).
Proof.
  intros Hproject He Hheader.
  set (token := OauthLogin.stateWithProject env randomBytes login) in *.
  assert (Hs : is_string token = true).
  { unfold token, OauthLogin.stateWithProject. cbv zeta.
    rewrite !is_string_app, toString_hex_is_string, Hproject. reflexivity. }
  assert (Hne : token <> []).
  { unfold token, OauthLogin.stateWithProject. cbv zeta.
    intros H. apply app_eq_nil in H as [_ H]. discriminate. }
  pose proof (encodeURIComponent_chars token value He Hs) as Hchars.
  assert (Hname : js "oauth_state" <> []) by discriminate.
  assert (Hplain : Forall (fun c => c <> 61 /\ is_whitespace c = false) (js "oauth_state"))
    by (repeat constructor; discriminate).
  unfold Cookies.extractStateFromCookies, Cookies.parseCookies, Cookies.parseCookieHeader.
  rewrite Hheader, split_without.
  2:{ apply Forall_app. split; [repeat constructor; discriminate|].
      eapply Forall_impl; [exact Hchars|]. intros c Hc. apply (uri_char_plain c Hc). }
  cbn [Cookies.forEach].
  change (js "oauth_state=" ++ value) with (js "oauth_state" ++ js "=" ++ value).
  rewrite (parseCookie_pair ∅ (js "oauth_state") token value Hname Hplain Hne Hs He).
  cbn [mbind completion_bind mret completion_ret].
  change (object_set ∅ (js "oauth_state") token)
    with (<[js "oauth_state" := token]> (∅ : gmap (list N) (list N))).
  rewrite lookup_insert_eq. destruct token; [contradiction|reflexivity].
Qed.

(** ** Unknown project ids *)

(** At login an unknown project does not stop the redirect. *)
Lemma login_redirects_any_project (env : Config.environment)
    (randomBytes : nat -> list Byte.byte) (ev : event) :
  Config.valid (Config.validateConfig env) = true ->
  or_else (httpMethod ev) (requestContext_http_method ev) = Some (js "GET") ->
  isWellFormed (OauthLogin.requested_project ev) = true ->
  statusCode (OauthLogin.handler env randomBytes ev) = 302.
Proof.
  intros Hvalid Hget Hwf. unfold OauthLogin.handler. rewrite Hvalid, Hget. cbv zeta.
  change (negb true) with false. cbv iota.
  change (OauthLogin.is_literal (Some (js "GET")) (js "OPTIONS")) with false.
  change (OauthLogin.is_literal (Some (js "GET")) (js "GET")) with true.
  change (negb true) with false. cbv iota.
  unfold OauthLogin.issue. cbv zeta. rewrite createCookieHeader_state.
  unfold OauthLogin.stateWithProject. cbv zeta.
  rewrite encode_state_token by apply toString_hex_digits.
  destruct (encodeURIComponent_well_formed _ Hwf) as [e He]. rewrite He. reflexivity.
Qed.

(** The resolver falls back to the [create] project for an id under which
    [config.projects] has nothing, own or inherited. *)
Lemma getFrontendOrigin_unknown (env : Config.environment) (id : list N) :
  ~ In id Config.project_ids ->
  array_includes object_prototype_names id = false ->
  Cors.getFrontendOrigin env id
  = Some (Config.frontendUrl (Config.projects_create (Config.getConfig env))).
Proof.
  intros Hid Hproto. unfold Cors.getFrontendOrigin, Config.projects_get. cbv zeta.
  rewrite strict_eq_false by (intros ->; apply Hid; left; reflexivity).
  rewrite strict_eq_false by (intros ->; apply Hid; right; left; reflexivity).
  rewrite Hproto. reflexivity.
Qed.

(** Under a property name of [Object.prototype] the lookup is truthy, the
    fallback is skipped, and the [frontendUrl] read is [undefined]. *)
Lemma getFrontendOrigin_inherited (env : Config.environment) (id : list N) :
  In id object_prototype_names ->
  ~ In id Config.project_ids /\ Cors.getFrontendOrigin env id = None.
Proof.
  intros Hin. unfold object_prototype_names in Hin. simpl in Hin.
  repeat (destruct Hin as [<-|Hin];
          [split; [intros [H|[H|[]]]; discriminate | reflexivity]|]).
  contradiction.
Qed.

(** C8: a login request for a project that is not registered, here
    [constructor], is still redirected (302), and the resolver returns the
    [create] project's origin for an id such as [no-such-project]; but for
    [constructor], which is not a registered id either, the resolver
    returns [undefined], not the [create] project's origin. *)
Theorem inherited_project_name_has_no_origin :
  ~ In (js "constructor") Config.project_ids
  /\ statusCode (OauthLogin.handler development fixed_bytes
                   (login_request (Some (js "GET")) (Some (js "constructor")))) = 302
  /\ Cors.getFrontendOrigin development (js "constructor") = None
  /\ Cors.getFrontendOrigin development (js "no-such-project")
     = Some (Config.frontendUrl (Config.projects_create (Config.getConfig development))).
Proof.
  split; [intros [H|[H|[]]]; discriminate|].
  repeat split; vm_compute; reflexivity.
Qed.

(** ** The decoder against the specification's wording *)

Lemma split_first_none (sep : N) (s : list N) :
  CookieCodecSpec.split_first sep s = None -> split sep s = [s].
Proof.
  induction s as [|c r IH]; simpl; [reflexivity|].
  destruct (c =? sep); [discriminate|].
  destruct (CookieCodecSpec.split_first sep r) as [[a b]|]; [discriminate|].
  intros _. rewrite IH; reflexivity.
Qed.

Lemma split_first_some (sep : N) (s a b : list N) :
  CookieCodecSpec.split_first sep s = Some (a, b) -> split sep s = a :: split sep b.
Proof.
  revert a. induction s as [|c r IH]; intros a; simpl; [discriminate|].
  destruct (c =? sep).
  - intros H. injection H as <- <-. reflexivity.
  - destruct (CookieCodecSpec.split_first sep r) as [[a' b']|]; [|discriminate].
    intros H. injection H as <- <-. rewrite (IH a' eq_refl). reflexivity.
Qed.

Lemma split_single (sep : N) (s x : list N) : split sep s = [x] -> x = s.
Proof.
  revert x. induction s as [|c r IH]; intros x; simpl.
  - intros H. injection H as <-. reflexivity.
  - destruct (c =? sep).
    + intros H. injection H as _ H. destruct (split_nonempty sep r H).
    + destruct (split sep r) as [|p ps] eqn:E; [destruct (split_nonempty sep r E)|].
      intros H. injection H as <- ->. rewrite (IH p eq_refl). reflexivity.
Qed.

(** One piece with at most one [=]: the code and the specification's
    wording store the same thing, apart from the key [__proto__]. *)
Lemma parseCookie_decode_pair (m1 m2 : gmap (list N) (list N)) (piece k : list N) :
  (List.length (split 61 (trim piece)) <= 2)%nat ->
  k <> js "__proto__" ->
  m1 !! k = m2 !! k ->
  match Cookies.parseCookie m1 piece, CookieCodecSpec.decode_pair m2 piece with
  | Normal m1', Normal m2' => m1' !! k = m2' !! k
  | Throw e1, Throw e2 => e1 = e2
  | _, _ => False
  end.
Proof.
  intros Hlen Hk Hm. unfold Cookies.parseCookie, CookieCodecSpec.decode_pair.
  destruct (CookieCodecSpec.split_first 61 (trim piece)) as [[a b]|] eqn:Hf.
  - rewrite (split_first_some _ _ _ _ Hf) in Hlen |- *.
    destruct (split 61 b) as [|b' [|b'' rest]] eqn:Hb;
      [destruct (split_nonempty 61 b Hb) | | simpl in Hlen; lia].
    apply split_single in Hb. subst b'. cbn [lookup list_lookup].
    destruct a as [|c name]; [exact Hm|]. destruct b as [|d value]; [exact Hm|].
    destruct (decodeURIComponent (d :: value)) as [decoded|e]; [|reflexivity].
    cbn [mbind completion_bind mret completion_ret]. unfold object_set.
    destruct (strict_eq (c :: name) (js "__proto__")) eqn:Hp.
    + apply strict_eq_true in Hp. rewrite lookup_insert_ne by congruence. exact Hm.
    + destruct (decide (c :: name = k)) as [->|Hne].
      * rewrite !lookup_insert_eq. reflexivity.
      * rewrite !lookup_insert_ne by exact Hne. exact Hm.
  - rewrite (split_first_none _ _ Hf). cbn [lookup list_lookup].
    destruct (trim piece); exact Hm.
Qed.

Lemma forEach_decode_pairs (pieces : list (list N)) (m1 m2 : gmap (list N) (list N))
    (k : list N) :
  Forall (fun piece => (List.length (split 61 (trim piece)) <= 2)%nat) pieces ->
  k <> js "__proto__" ->
  m1 !! k = m2 !! k ->
  (fun cookies : gmap (list N) (list N) => cookies !! k) <$> Cookies.forEach pieces m1
  = (fun cookies : gmap (list N) (list N) => cookies !! k)
      <$> CookieCodecSpec.decode_pairs pieces m2.
Proof.
  intros Hpieces Hk. revert m1 m2.
  induction Hpieces as [|piece rest Hpiece _ IH]; intros m1 m2 Hm.
  - simpl. rewrite Hm. reflexivity.
  - cbn [Cookies.forEach CookieCodecSpec.decode_pairs].
    pose proof (parseCookie_decode_pair m1 m2 piece k Hpiece Hk Hm) as Hstep.
    destruct (Cookies.parseCookie m1 piece) as [m1'|e1],
             (CookieCodecSpec.decode_pair m2 piece) as [m2'|e2]; try contradiction.
    + apply IH, Hstep.
    + simpl. rewrite Hstep. reflexivity.
Qed.

(** C7, as the code has it: on a cookie header none of whose pieces has more
    than one [=], the decoder finds under every name (other than
    [__proto__]) what the specification's decoder finds, and throws a
    URIError where that one does, at a malformed percent escape.  An empty
    header gives the empty mapping; a piece without a value leaves the
    mapping as it is; when the header decodes without [oauth_state], the
    stored state is [null]. *)
Theorem parseCookies_refines_the_specification (cookieHeader k : list N) :
  Forall (fun piece => (List.length (split 61 (trim piece)) <= 2)%nat)
    (split 59 cookieHeader) ->
  k <> js "__proto__" ->
  ((fun cookies : gmap (list N) (list N) => cookies !! k)
     <$> Cookies.parseCookieHeader cookieHeader
   = (fun cookies : gmap (list N) (list N) => cookies !! k)
       <$> CookieCodecSpec.decode cookieHeader)
  /\ Cookies.parseCookieHeader [] = Normal ∅
  /\ (forall cookies piece,
        (split 61 (trim piece) !! 1%nat = None \/ split 61 (trim piece) !! 1%nat = Some []) ->
        Cookies.parseCookie cookies piece = Normal cookies)
  /\ (forall ev cookies,
        Cookies.parseCookies ev = Normal cookies ->
        cookies !! js "oauth_state" = None ->
        Cookies.extractStateFromCookies ev = Normal None).
Proof.
  intros Hpieces Hk. split; [|split; [|split]].
  - unfold Cookies.parseCookieHeader, CookieCodecSpec.decode.
    apply forEach_decode_pairs; auto.
  - reflexivity.
  - intros cookies piece Hvalue. unfold Cookies.parseCookie.
    destruct (split 61 (trim piece) !! 0%nat) as [[|c n]|]; try reflexivity.
    destruct Hvalue as [-> | ->]; reflexivity.
  - intros ev cookies Hparse Hnone. unfold Cookies.extractStateFromCookies.
    rewrite Hparse. cbn [mbind completion_bind]. rewrite Hnone. reflexivity.
Qed.

Lemma parseCookies_refines_the_specification_witness :
  (fun cookies : gmap (list N) (list N) => cookies !! js "oauth_state")
    <$> Cookies.parseCookieHeader (js "theme=dark; flag; oauth_state=5a5a%3Acreate; x=")
  = Normal (Some (js "5a5a:create")).
Proof.
  destruct (parseCookies_refines_the_specification
              (js "theme=dark; flag; oauth_state=5a5a%3Acreate; x=") (js "oauth_state"))
    as (H & _); [|discriminate|].
  - apply List.Forall_forall. intros piece Hin. vm_compute in Hin.
    repeat (destruct Hin as [<-|Hin]; [vm_compute; lia|]). contradiction.
  - rewrite H. vm_compute. reflexivity.
Defined.

(** C7 as stated fails in two ways.  A value is cut at its second [=]: the
    code keeps ["b"] of [a=b=c] where splitting on the first [=] gives
    ["b=c"].  And not every header gives a mapping: a malformed percent
    escape makes the decoder throw. *)
Lemma parseCookies_cuts_at_second_equals :
  (Cookies.parseCookieHeader (js "a=b=c") = Normal {[ js "a" := js "b" ]}
   /\ CookieCodecSpec.decode (js "a=b=c") = Normal {[ js "a" := js "b=c" ]})
  /\ Cookies.parseCookieHeader (js "a=%") = Throw URIError.
Proof. repeat split; vm_compute; reflexivity. Qed.

(** ** The CSRF check *)

(** On a header none of whose pieces has more than one [=], the stored
    state is what the cookie as sent decodes to under [oauth_state]. *)
Lemma extractStateFromCookies_decode (ev : event) :
  Forall (fun piece => (List.length (split 61 (trim piece)) <= 2)%nat)
    (split 59 (Cookies.cookieHeader ev)) ->
  Cookies.extractStateFromCookies ev
  = (fun cookies : gmap (list N) (list N) => or_else (cookies !! js "oauth_state") None)
      <$> CookieCodecSpec.decode (Cookies.cookieHeader ev).
Proof.
  intros Hpieces.
  pose proof (forEach_decode_pairs (split 59 (Cookies.cookieHeader ev)) ∅ ∅
                (js "oauth_state") Hpieces) as H.
  unfold Cookies.extractStateFromCookies, Cookies.parseCookies,
    Cookies.parseCookieHeader, CookieCodecSpec.decode.
  destruct (Cookies.forEach _ ∅) as [m1|e1],
           (CookieCodecSpec.decode_pairs _ ∅) as [m2|e2];
    specialize (H ltac:(discriminate) eq_refl); try discriminate H.
  - change (Normal (m1 !! js "oauth_state") = Normal (m2 !! js "oauth_state")) in H.
    assert (Heq : m1 !! js "oauth_state" = m2 !! js "oauth_state") by congruence.
    cbn [mbind completion_bind mret completion_ret fmap completion_fmap].
    rewrite Heq. reflexivity.
  - change (Throw (A:=option (list N)) e1 = Throw e2) in H.
    assert (e1 = e2) by congruence. subst. reflexivity.
Qed.

Lemma or_else_null (v : option (list N)) (state : list N) :
  state <> [] -> (or_else v None = Some state <-> v = Some state).
Proof.
  intros Hs. unfold or_else. destruct v as [[|c s]|]; simpl; split; intros H;
    try discriminate H; try exact H.
  injection H as <-. contradiction.
Qed.

(** C1, as the code has it: with a valid configuration, no provider error,
    a non-empty [code] and [state], and a cookie header none of whose pieces
    holds more than one [=]: (a) when the header decodes and the decoded
    [oauth_state] cookie is absent or differs from [state], the handler
    answers 400 with the CSRF document and sends nothing; (b) when the
    header holds a malformed percent escape, it answers 500 with the generic
    error document and sends nothing; (c) the token-exchange request is sent
    exactly when the decoded cookie equals [state], and it is then the only
    request.  The decoding is that of the cookie as sent: pairs cut at
    their first [=], values percent-decoded. *)
Theorem csrf_check (env : Config.environment)
    (fetch : OauthCallback.fetch_request -> completion OauthCallback.token_data)
    (ev : event) (code state : list N) :
  Config.valid (Config.validateConfig env) = true ->
  truthy (queryStringParameters ev ≫= q_error) = false ->
  queryStringParameters ev ≫= q_code = Some code -> code <> [] ->
  queryStringParameters ev ≫= q_state = Some state -> state <> [] ->
  Forall (fun piece => (List.length (split 61 (trim piece)) <= 2)%nat)
    (split 59 (Cookies.cookieHeader ev)) ->
  let cors := Cors.getCorsHeaders env ev in
  let run := OauthCallback.handler env fetch ev in
  let decoded := CookieCodecSpec.decode (Cookies.cookieHeader ev) in
  (forall cookies,
     decoded = Normal cookies -> cookies !! js "oauth_state" <> Some state ->
     run = ([], OauthCallback.html_response 400 cors
                  (js "Invalid state parameter - possible CSRF attack")))
  /\ (forall e,
        decoded = Throw e ->
        run = ([], OauthCallback.html_response 500 cors (js "Internal server error")))
  /\ ((exists cookies, decoded = Normal cookies /\ cookies !! js "oauth_state" = Some state)
      <-> fst run = [OauthCallback.token_request env (Some code)])
  /\ (fst run = [] \/ fst run = [OauthCallback.token_request env (Some code)]).
Proof.
  intros Hvalid Herror Hcode Hcode' Hstate Hstate' Hpieces cors run decoded.
  assert (Htc : truthy (queryStringParameters ev ≫= q_code) = true).
  { rewrite Hcode. destruct code; [contradiction|reflexivity]. }
  assert (Hts : truthy (queryStringParameters ev ≫= q_state) = true).
  { rewrite Hstate. destruct state; [contradiction|reflexivity]. }
  assert (Hrun : run = match OauthCallback.exchange env fetch ev cors with
                       | (sent, Normal r) => (sent, r)
                       | (sent, Throw _) =>
                           (sent, OauthCallback.html_response 500 cors
                                    (js "Internal server error"))
                       end).
  { apply handler_valid, Hvalid. }
  rewrite (exchange_after_presence env fetch ev cors Herror Htc Hts) in Hrun.
  rewrite Hstate in Hrun.
  rewrite (extractStateFromCookies_decode ev Hpieces) in Hrun. fold decoded in Hrun.
  assert (Hreject : forall cookies,
            decoded = Normal cookies -> cookies !! js "oauth_state" <> Some state ->
            run = ([], OauthCallback.html_response 400 cors
                         (js "Invalid state parameter - possible CSRF attack"))).
  { intros cookies Hd Hne. rewrite Hd in Hrun.
    cbn [fmap completion_fmap] in Hrun.
    rewrite stored_state_rejected in Hrun;
      [exact Hrun | rewrite <- Hstate; exact Hts |].
    intros Heq. apply Hne. apply (or_else_null _ state Hstate'). exact Heq. }
  assert (Hthrow : forall e,
            decoded = Throw e ->
            run = ([], OauthCallback.html_response 500 cors (js "Internal server error"))).
  { intros e Hd. rewrite Hd in Hrun. exact Hrun. }
  assert (Haccept : forall cookies,
            decoded = Normal cookies -> cookies !! js "oauth_state" = Some state ->
            fst run = [OauthCallback.token_request env (Some code)]).
  { intros cookies Hd Heq. rewrite Hd in Hrun. cbn [fmap completion_fmap] in Hrun.
    rewrite (proj2 (or_else_null _ state Hstate') Heq) in Hrun.
    rewrite stored_state_accepted in Hrun; [|rewrite <- Hstate; exact Hts].
    rewrite Hcode in Hrun. cbv zeta in Hrun. rewrite Hrun.
    destruct (fetch (OauthCallback.token_request env (Some code))) as [tokenData|e];
      [|reflexivity].
    destruct (truthy (OauthCallback.td_error tokenData)); [reflexivity|].
    destruct (negb (truthy (OauthCallback.td_access_token tokenData))); reflexivity. }
  split; [exact Hreject|]. split; [exact Hthrow|].
  destruct decoded as [cookies|e] eqn:Hd.
  - destruct (decide (cookies !! js "oauth_state" = Some state)) as [Heq|Hne].
    + split; [|right; exact (Haccept cookies eq_refl Heq)].
      split; [intros _; exact (Haccept cookies eq_refl Heq) | intros _; eauto].
    + rewrite (Hreject cookies eq_refl Hne). split; [|left; reflexivity].
      split; [|discriminate]. intros (cookies' & Hc & Heq). congruence.
  - rewrite (Hthrow e eq_refl). split; [|left; reflexivity].
    split; [|discriminate]. intros (cookies' & Hc & _). discriminate Hc.
Qed.

Lemma csrf_check_witness :
  (* one character of the stored state changed: fails closed *)
  OauthCallback.handler development (provider_returns (Some (js "tok123")))
    (callback_request (Some (js "oauth_state=5a5b%3Acreate")) (Some (js "abc"))
       (Some (js "5a5a:create")) None)
  = ([], OauthCallback.html_response 400
           (Cors.getCorsHeaders development
              (callback_request (Some (js "oauth_state=5a5b%3Acreate")) (Some (js "abc"))
                 (Some (js "5a5a:create")) None))
           (js "Invalid state parameter - possible CSRF attack"))
  (* equal: the exchange runs *)
  /\ fst (OauthCallback.handler development (provider_returns (Some (js "tok123")))
            (callback_request (Some (js "oauth_state=5a5a%3Acreate")) (Some (js "abc"))
               (Some (js "5a5a:create")) None))
     = [OauthCallback.token_request development (Some (js "abc"))].
Proof.
  assert (Hone : forall header,
            In header [js "oauth_state=5a5b%3Acreate"; js "oauth_state=5a5a%3Acreate"] ->
            Forall (fun piece => (List.length (split 61 (trim piece)) <= 2)%nat)
              (split 59 header)).
  { intros header [<-|[<-|[]]]; apply List.Forall_forall; intros piece Hin;
      vm_compute in Hin; (destruct Hin as [<-|[]]); vm_compute; lia. }
  split.
  - destruct (csrf_check development (provider_returns (Some (js "tok123")))
                (callback_request (Some (js "oauth_state=5a5b%3Acreate")) (Some (js "abc"))
                   (Some (js "5a5a:create")) None) (js "abc") (js "5a5a:create"))
      as (H & _); [reflexivity | reflexivity | reflexivity | discriminate
                   | reflexivity | discriminate | apply Hone; left; reflexivity |].
    apply (H {[ js "oauth_state" := js "5a5b:create" ]}); [vm_compute; reflexivity|].
    rewrite lookup_singleton_eq. discriminate.
  - destruct (csrf_check development (provider_returns (Some (js "tok123")))
                (callback_request (Some (js "oauth_state=5a5a%3Acreate")) (Some (js "abc"))
                   (Some (js "5a5a:create")) None) (js "abc") (js "5a5a:create"))
      as (_ & _ & H & _); [reflexivity | reflexivity | reflexivity | discriminate
                           | reflexivity | discriminate
                           | apply Hone; right; left; reflexivity |].
    apply H. exists {[ js "oauth_state" := js "5a5a:create" ]}.
    split; [vm_compute; reflexivity | apply lookup_singleton_eq].
Defined.

(** C1 as stated fails when some cookie of the header holds a malformed
    percent escape: here the [oauth_state] cookie by itself decodes to
    ["Y:create"], which differs from the [state] parameter ["X:create"], yet
    the response is not the 400 CSRF document but the generic 500 one. *)
Lemma malformed_cookie_gets_500_not_400 :
  let ev := callback_request (Some (js "oauth_state=Y%3Acreate; theme=%ZZ"))
              (Some (js "abc")) (Some (js "X:create")) None in
  let run := OauthCallback.handler development (provider_returns (Some (js "tok123"))) ev in
  Config.valid (Config.validateConfig development) = true
  /\ Cookies.parseCookieHeader (js "oauth_state=Y%3Acreate")
     = Normal {[ js "oauth_state" := js "Y:create" ]}
  /\ Cookies.extractStateFromCookies ev = Throw URIError
  /\ statusCode (snd run) = 500
  /\ body (snd run) = OauthCallback.generateErrorHTML (js "Internal server error")
  /\ fst run = [].
Proof.
  vm_compute. repeat split; reflexivity.
Qed.

(** Where a piece of the header holds a second [=], the code compares
    [state] with the value cut there, not with the cookie as sent: the
    cookie [oauth_state=5a5a%3Acreate=] decodes to ["5a5a:create="], which
    differs from the state ["5a5a:create"] in its last character, and the
    exchange runs all the same. *)
Lemma state_cookie_is_cut_at_second_equals :
  let ev := callback_request (Some (js "oauth_state=5a5a%3Acreate="))
              (Some (js "abc")) (Some (js "5a5a:create")) None in
  let run := OauthCallback.handler development (provider_returns (Some (js "tok123"))) ev in
  CookieCodecSpec.decode (Cookies.cookieHeader ev)
  = Normal {[ js "oauth_state" := js "5a5a:create=" ]}
  /\ Cookies.extractStateFromCookies ev = Normal (Some (js "5a5a:create"))
  /\ fst run = [OauthCallback.token_request development (Some (js "abc"))]
  /\ statusCode (snd run) = 200.
Proof.
  vm_compute. repeat split; reflexivity.
Qed.

(** * Further properties *)

(** ** The allow-list and the CORS headers *)

Lemma array_includes_In (l : list (list N)) (x : list N) :
  array_includes l x = true <-> In x l.
Proof.
  unfold array_includes. rewrite existsb_exists. split.
  - intros (y & Hy & Heq). apply strict_eq_true in Heq. congruence.
  - intros H. exists x. split; [exact H | apply strict_eq_refl].
Qed.

Lemma truthy_or_else (a b : option (list N)) :
  truthy (or_else a b) = truthy a || truthy b.
Proof. unfold or_else. destruct (truthy a) eqn:E; [rewrite E|]; reflexivity. Qed.

Lemma allowedOrigins_eq (env : Config.environment) :
  Config.allowedOrigins (Config.getConfig env)
  = [Config.frontendUrl (Config.projects_create (Config.getConfig env));
     Config.frontendUrl (Config.projects_prompts (Config.getConfig env))]
    ++ List.filter (fun o => truthy (Some o))
         (match Config.ADDITIONAL_ORIGINS env with
          | Some extra => split 44 extra
          | None => []
          end)
    ++ (if Config.isProduction env then [] else localhost_origins).
Proof.
  unfold Config.getConfig.
  cbn [Config.allowedOrigins Config.frontendUrl Config.projects_create
       Config.projects_prompts List.map app].
  destruct (Config.isProduction env); cbn [List.filter app].
  - change (truthy (Some (js "https://create.rbios.net"))) with true.
    change (truthy (Some (js "https://prompts.rbios.net"))) with true.
    cbv iota. rewrite app_nil_r. reflexivity.
  - change (truthy (Some (js "http://localhost:5173"))) with true.
    change (truthy (Some (js "http://localhost:5174"))) with true.
    cbv iota. reflexivity.
Qed.

(** X1: an origin is on the allow-list exactly when it is the frontend URL
    of [create] or of [prompts], or a non-empty entry of the comma-separated
    [ADDITIONAL_ORIGINS] (taken as written, without trimming), or, outside
    production, one of the four localhost origins.  The empty origin is never
    allowed. *)
Theorem isValidOrigin_iff (env : Config.environment) (origin : list N) :
  (Cors.isValidOrigin env origin = true
   <-> origin = Config.frontendUrl (Config.projects_create (Config.getConfig env))
       \/ origin = Config.frontendUrl (Config.projects_prompts (Config.getConfig env))
       \/ (origin <> []
           /\ exists extra, Config.ADDITIONAL_ORIGINS env = Some extra
                            /\ In origin (split 44 extra))
       \/ (Config.isProduction env = false /\ In origin localhost_origins))
  /\ Cors.isValidOrigin env [] = false.
Proof.
  assert (Hiff : forall o,
    Cors.isValidOrigin env o = true
    <-> o = Config.frontendUrl (Config.projects_create (Config.getConfig env))
        \/ o = Config.frontendUrl (Config.projects_prompts (Config.getConfig env))
        \/ (o <> []
            /\ exists extra, Config.ADDITIONAL_ORIGINS env = Some extra
                             /\ In o (split 44 extra))
        \/ (Config.isProduction env = false /\ In o localhost_origins)).
  { intros o. unfold Cors.isValidOrigin.
    rewrite array_includes_In, allowedOrigins_eq.
    cbn [app In]. rewrite in_app_iff, filter_In. split.
    - intros [H|[H|[[Hin Ht]|H]]].
      + left. symmetry. exact H.
      + right. left. symmetry. exact H.
      + right. right. left. split; [destruct o; discriminate|].
        destruct (Config.ADDITIONAL_ORIGINS env) as [extra|]; [eauto|contradiction].
      + right. right. right.
        destruct (Config.isProduction env); [contradiction|auto].
    - intros [H|[H|[[Hne (extra & He & Hin)]|[Hp Hin]]]].
      + left. symmetry. exact H.
      + right. left. symmetry. exact H.
      + right. right. left. rewrite He. split; [exact Hin|].
        destruct o; [contradiction|reflexivity].
      + right. right. right. rewrite Hp. exact Hin. }
  split; [apply Hiff|].
  destruct (Cors.isValidOrigin env []) eqn:E; [|reflexivity].
  apply Hiff in E. exfalso.
  destruct E as [H|[H|[[H _]|[_ H]]]].
  - unfold Config.getConfig in H. cbn [Config.frontendUrl Config.projects_create] in H.
    destruct (Config.isProduction env); discriminate.
  - unfold Config.getConfig in H. cbn [Config.frontendUrl Config.projects_prompts] in H.
    destruct (Config.isProduction env); discriminate.
  - contradiction.
  - cbn in H. destruct H as [H|[H|[H|[H|[]]]]]; discriminate.
Qed.

(** The headers [getCorsHeaders] builds: the allowed origin first. *)
Lemma getCorsHeaders_form (env : Config.environment) (ev : event) :
  Cors.getCorsHeaders env ev
  = (js "Access-Control-Allow-Origin",
     if Cors.isValidOrigin env (requestOrigin ev) then requestOrigin ev
     else Config.frontendUrl (Config.projects_create (Config.getConfig env)))
    :: cors_fixed_headers.
Proof.
  unfold Cors.getCorsHeaders, Cors.isValidOrigin. cbv zeta. fold (requestOrigin ev).
  destruct (array_includes (Config.allowedOrigins (Config.getConfig env)) (requestOrigin ev));
    [reflexivity|].
  rewrite allowedOrigins_eq. reflexivity.
Qed.

Lemma frontendUrl_valid (env : Config.environment) :
  Cors.isValidOrigin env (Config.frontendUrl (Config.projects_create (Config.getConfig env)))
  = true
  /\ Cors.isValidOrigin env (Config.frontendUrl (Config.projects_prompts (Config.getConfig env)))
     = true.
Proof.
  unfold Cors.isValidOrigin. rewrite !array_includes_In, allowedOrigins_eq.
  split; cbn [app In]; auto.
Qed.

Lemma corsOrigin_valid (env : Config.environment) (ev : event) :
  Cors.isValidOrigin env
    (if Cors.isValidOrigin env (requestOrigin ev) then requestOrigin ev
     else Config.frontendUrl (Config.projects_create (Config.getConfig env))) = true.
Proof.
  destruct (Cors.isValidOrigin env (requestOrigin ev)) eqn:E; [exact E|].
  apply frontendUrl_valid.
Qed.

(** X2: [getCorsHeaders] returns four headers, [Access-Control-Allow-Origin]
    first.  Its value is the request's origin when that is on the
    allow-list and the [create] project's frontend URL otherwise (also when
    the request has no origin): it is always on the allow-list, never an
    origin that is not. *)
Theorem getCorsHeaders_allowed_origin (env : Config.environment) (ev : event) :
  exists corsOrigin,
    Cors.getCorsHeaders env ev
    = (js "Access-Control-Allow-Origin", corsOrigin) :: cors_fixed_headers
    /\ Cors.isValidOrigin env corsOrigin = true
    /\ (Cors.isValidOrigin env (requestOrigin ev) = true -> corsOrigin = requestOrigin ev)
    /\ (Cors.isValidOrigin env (requestOrigin ev) = false ->
        corsOrigin = Config.frontendUrl (Config.projects_create (Config.getConfig env))).
Proof.
  eexists. split; [apply getCorsHeaders_form|].
  split; [apply corsOrigin_valid|].
  split; intros ->; reflexivity.
Qed.

Lemma getCorsHeaders_allowed_origin_witness :
  Cors.getCorsHeaders production
    {| path := None;
       headers := Some {| h_cookie := None; h_Cookie := None;
                          h_origin := None;
                          h_Origin := Some (js "https://prompts.rbios.net") |};
       queryStringParameters := None; httpMethod := None;
       requestContext_http_method := None |}
  = (js "Access-Control-Allow-Origin", js "https://prompts.rbios.net") :: cors_fixed_headers
  /\ Cors.getCorsHeaders production
       {| path := None;
          headers := Some {| h_cookie := None; h_Cookie := None;
                             h_origin := Some (js "https://evil.example");
                             h_Origin := None |};
          queryStringParameters := None; httpMethod := None;
          requestContext_http_method := None |}
     = (js "Access-Control-Allow-Origin", js "https://create.rbios.net") :: cors_fixed_headers.
Proof.
  split.
  - destruct (getCorsHeaders_allowed_origin production
                {| path := None;
                   headers := Some {| h_cookie := None; h_Cookie := None;
                                      h_origin := None;
                                      h_Origin := Some (js "https://prompts.rbios.net") |};
                   queryStringParameters := None; httpMethod := None;
                   requestContext_http_method := None |})
      as (o & Hh & _ & Hecho & _).
    rewrite Hh, (Hecho eq_refl). reflexivity.
  - destruct (getCorsHeaders_allowed_origin production
                {| path := None;
                   headers := Some {| h_cookie := None; h_Cookie := None;
                                      h_origin := Some (js "https://evil.example");
                                      h_Origin := None |};
                   queryStringParameters := None; httpMethod := None;
                   requestContext_http_method := None |})
      as (o & Hh & _ & _ & Hfallback).
    rewrite Hh, (Hfallback eq_refl). reflexivity.
Defined.

(** ** The resolver and the allow-list *)

Lemma getFrontendOrigin_cases (env : Config.environment) (project origin : list N) :
  Cors.getFrontendOrigin env project = Some origin ->
  origin = Config.frontendUrl (Config.projects_create (Config.getConfig env))
  \/ origin = Config.frontendUrl (Config.projects_prompts (Config.getConfig env)).
Proof.
  unfold Cors.getFrontendOrigin, Config.projects_get. cbv zeta.
  destruct (strict_eq project (js "create")); [intros H; left; congruence|].
  destruct (strict_eq project (js "prompts")); [intros H; right; congruence|].
  destruct (array_includes object_prototype_names project); [discriminate|].
  intros H; left; congruence.
Qed.

(** X3: whatever origin the resolver returns is a registered frontend URL
    ([create]'s or [prompts]') and is on the CORS allow-list; the token is
    never addressed to an origin the service would not allow. *)
Theorem getFrontendOrigin_is_allowed (env : Config.environment) (project origin : list N) :
  Cors.getFrontendOrigin env project = Some origin ->
  Cors.isValidOrigin env origin = true
  /\ (origin = Config.frontendUrl (Config.projects_create (Config.getConfig env))
      \/ origin = Config.frontendUrl (Config.projects_prompts (Config.getConfig env))).
Proof.
  intros H. pose proof (getFrontendOrigin_cases env project origin H) as Hc.
  split; [|exact Hc].
  destruct Hc as [-> | ->]; apply frontendUrl_valid.
Qed.

Lemma getFrontendOrigin_is_allowed_witness :
  Cors.isValidOrigin production (js "https://prompts.rbios.net") = true.
Proof.
  apply (getFrontendOrigin_is_allowed production (js "prompts") (js "https://prompts.rbios.net")).
  reflexivity.
Defined.

(** ** Validation of the configuration *)

(** X4: the configuration is valid exactly when a non-empty client id is
    set under [GITHUB_CLIENT_ID] or [GH_CLIENT_ID] and a non-empty client
    secret under [GITHUB_CLIENT_SECRET] or [GH_CLIENT_SECRET]; each missing
    credential is reported by its own message, and "No allowed origins
    configured" is never reported, the two project URLs being always on the
    list. *)
Theorem validateConfig_credentials (env : Config.environment) :
  let v := Config.validateConfig env in
  Config.valid v
  = (truthy (Config.GITHUB_CLIENT_ID env) || truthy (Config.GH_CLIENT_ID env))
    && (truthy (Config.GITHUB_CLIENT_SECRET env) || truthy (Config.GH_CLIENT_SECRET env))
  /\ (In (js "Missing GitHub Client ID") (Config.errors v)
      <-> truthy (Config.GITHUB_CLIENT_ID env) = false
          /\ truthy (Config.GH_CLIENT_ID env) = false)
  /\ (In (js "Missing GitHub Client Secret") (Config.errors v)
      <-> truthy (Config.GITHUB_CLIENT_SECRET env) = false
          /\ truthy (Config.GH_CLIENT_SECRET env) = false)
  /\ ~ In (js "No allowed origins configured") (Config.errors v)
  /\ (Config.valid v = true <-> Config.errors v = []).
Proof.
  intros v. unfold v.
  rewrite validateConfig_valid, validateConfig_errors.
  change (Config.github_clientId (Config.getConfig env))
    with (or_else (Config.GITHUB_CLIENT_ID env) (Config.GH_CLIENT_ID env)).
  change (Config.github_clientSecret (Config.getConfig env))
    with (or_else (Config.GITHUB_CLIENT_SECRET env) (Config.GH_CLIENT_SECRET env)).
  rewrite !truthy_or_else.
  destruct (truthy (Config.GITHUB_CLIENT_ID env)), (truthy (Config.GH_CLIENT_ID env)),
           (truthy (Config.GITHUB_CLIENT_SECRET env)), (truthy (Config.GH_CLIENT_SECRET env));
    cbn [orb andb app In];
    repeat match goal with
           | |- _ /\ _ => split
           | |- _ <-> _ => split
           | |- ~ _ => intros ?
           | |- _ -> _ => intros ?
           end;
    repeat match goal with
           | H : _ /\ _ |- _ => destruct H
           | H : _ \/ _ |- _ => destruct H
           | H : False |- _ => destruct H
           end;
    try reflexivity; try discriminate; auto.
Qed.

(** ** Headers of the responses *)

Lemma header_response (r : response) (k : list N) :
  header r k = snd <$> List.find (fun kv => strict_eq (fst kv) k) (res_headers r).
Proof. reflexivity. Qed.

Lemma find_with_header_other (h : list (list N * list N)) (k v k' : list N) :
  k <> k' ->
  List.find (fun kv => strict_eq (fst kv) k') (with_header h k v)
  = List.find (fun kv => strict_eq (fst kv) k') h.
Proof.
  intros Hne. induction h as [|[k0 v0] h IH]; simpl.
  - rewrite (strict_eq_false k k' Hne). reflexivity.
  - destruct (strict_eq k0 k) eqn:E; simpl.
    + apply strict_eq_true in E. subst k0. rewrite (strict_eq_false k k' Hne). reflexivity.
    + destruct (strict_eq k0 k'); [reflexivity | exact IH].
Qed.

(** Where the CORS headers are spread into a response with one or two more
    headers, the allowed origin is still found. *)
Lemma cors_origin_kept (env : Config.environment) (ev : event) (r : response) :
  (res_headers r = Cors.getCorsHeaders env ev
   \/ (exists k v, k <> js "Access-Control-Allow-Origin"
                   /\ res_headers r = with_header (Cors.getCorsHeaders env ev) k v)
   \/ (exists k v k' v', k <> js "Access-Control-Allow-Origin"
                         /\ k' <> js "Access-Control-Allow-Origin"
                         /\ res_headers r
                            = with_header (with_header (Cors.getCorsHeaders env ev) k v) k' v')) ->
  header r (js "Access-Control-Allow-Origin")
  = Some (if Cors.isValidOrigin env (requestOrigin ev) then requestOrigin ev
          else Config.frontendUrl (Config.projects_create (Config.getConfig env))).
Proof.
  rewrite header_response.
  intros [-> | [(k & v & Hk & ->) | (k & v & k' & v' & Hk & Hk' & ->)]];
    rewrite ?find_with_header_other by assumption;
    rewrite getCorsHeaders_form; reflexivity.
Qed.

(** ** The login handler, branch by branch *)

Lemma login_invalid (env : Config.environment) (randomBytes : nat -> list Byte.byte)
    (ev : event) :
  Config.valid (Config.validateConfig env) = false ->
  OauthLogin.handler env randomBytes ev
  = {| statusCode := 500;
       res_headers := [(js "Content-Type", js "application/json")];
       cookies := None;
       body := stringify
                 (JObject [(js "error", JString (js "Server configuration error"));
                           (js "details",
                            JArray (List.map JString
                                      (Config.errors (Config.validateConfig env))))]) |}.
Proof. intros H. unfold OauthLogin.handler. rewrite H. reflexivity. Qed.

Lemma login_valid (env : Config.environment) (randomBytes : nat -> list Byte.byte)
    (ev : event) :
  Config.valid (Config.validateConfig env) = true ->
  let corsHeaders := Cors.getCorsHeaders env ev in
  let httpMethod := or_else (httpMethod ev) (requestContext_http_method ev) in
  OauthLogin.handler env randomBytes ev
  = if OauthLogin.is_literal httpMethod (js "OPTIONS") then Cors.handlePreflight corsHeaders
    else if negb (OauthLogin.is_literal httpMethod (js "GET")) then
      {| statusCode := 405;
         res_headers := with_header corsHeaders (js "Content-Type") (js "application/json");
         cookies := None;
         body := stringify (JObject [(js "error", JString (js "Method not allowed"))]) |}
    else
      match Cookies.createCookieHeader (js "oauth_state")
              (OauthLogin.stateWithProject env randomBytes ev)
              (Cookies.getCookieOptions (Config.NODE_ENV env)) with
      | Normal stateCookie =>
          {| statusCode := 302;
             res_headers :=
               with_header corsHeaders (js "Location")
                 (js "https://github.com/login/oauth/authorize" ++ js "?"
                  ++ urlencoded
                       [(js "client_id",
                         interpolate (Config.github_clientId (Config.getConfig env)));
                        (js "redirect_uri", Config.getOAuthCallbackUrl env None);
                        (js "scope", Config.github_scope (Config.getConfig env));
                        (js "state", OauthLogin.stateWithProject env randomBytes ev)]);
             cookies := Some [stateCookie];
             body := [] |}
      | Throw error =>
          {| statusCode := 500;
             res_headers := with_header corsHeaders (js "Content-Type") (js "application/json");
             cookies := None;
             body := stringify
                       (JObject [(js "error", JString (js "Internal server error"));
                                 (js "message", JString (error_message error))]) |}
      end.
Proof.
  intros H corsHeaders method. unfold OauthLogin.handler. rewrite H. cbv zeta.
  change (negb true) with false. cbv iota. fold corsHeaders. fold method.
  destruct (OauthLogin.is_literal method (js "OPTIONS")); [reflexivity|].
  destruct (OauthLogin.is_literal method (js "GET")); [|reflexivity].
  change (negb true) with false. cbv iota.
  unfold OauthLogin.issue. cbv zeta.
  destruct (Cookies.createCookieHeader _ _ _); reflexivity.
Qed.

(** X7: the login handler answers with status 200, 302, 405 or 500 and
    nothing else; it sets a cookie exactly when it redirects (302), and the
    redirect has an empty body. *)
Theorem login_sets_cookie_only_on_redirect (env : Config.environment)
    (randomBytes : nat -> list Byte.byte) (ev : event) :
  let r := OauthLogin.handler env randomBytes ev in
  (statusCode r = 200 \/ statusCode r = 302 \/ statusCode r = 405 \/ statusCode r = 500)
  /\ (cookies r <> None <-> statusCode r = 302)
  /\ (statusCode r = 302 -> body r = []).
Proof.
  intros r. unfold r.
  destruct (Config.valid (Config.validateConfig env)) eqn:Hv.
  - rewrite (login_valid env randomBytes ev Hv). cbv zeta.
    destruct (OauthLogin.is_literal _ (js "OPTIONS"));
      [|destruct (OauthLogin.is_literal _ (js "GET"));
        [destruct (Cookies.createCookieHeader _ _ _)|]];
      cbn [negb statusCode cookies body Cors.handlePreflight];
      (split; [auto|]); (split; [split; intros H; congruence|]);
      intros H; try discriminate H; reflexivity.
  - rewrite (login_invalid env randomBytes ev Hv). cbn [statusCode cookies body].
    split; [auto|]. split; [split; intros H; congruence|]. discriminate.
Qed.

(** X8: every response the login handler gives once the
    configuration is valid, whatever its status, carries
    [Access-Control-Allow-Origin] with an origin of the allow-list: the
    request's origin when that is allowed, the [create] frontend otherwise.
    The configuration-error response carries no such header. *)
Theorem login_responses_carry_cors (env : Config.environment)
    (randomBytes : nat -> list Byte.byte) (ev : event) :
  let r := OauthLogin.handler env randomBytes ev in
  (Config.valid (Config.validateConfig env) = true ->
   exists corsOrigin,
     header r (js "Access-Control-Allow-Origin") = Some corsOrigin
     /\ Cors.isValidOrigin env corsOrigin = true
     /\ (Cors.isValidOrigin env (requestOrigin ev) = true -> corsOrigin = requestOrigin ev))
  /\ (Config.valid (Config.validateConfig env) = false ->
      header r (js "Access-Control-Allow-Origin") = None).
Proof.
  intros r. unfold r. split; intros Hv.
  - eexists. split; [|split; [apply corsOrigin_valid | intros ->; reflexivity]].
    apply cors_origin_kept.
    rewrite (login_valid env randomBytes ev Hv). cbv zeta.
    destruct (OauthLogin.is_literal _ (js "OPTIONS"));
      [left; reflexivity|].
    right. left.
    destruct (OauthLogin.is_literal _ (js "GET"));
      [destruct (Cookies.createCookieHeader _ _ _)|];
      cbn [negb res_headers]; eexists; eexists; (split; [|reflexivity]); discriminate.
  - rewrite (login_invalid env randomBytes ev Hv). reflexivity.
Qed.

Lemma login_responses_carry_cors_witness :
  header (OauthLogin.handler development fixed_bytes (login_request (Some (js "PUT")) None))
    (js "Access-Control-Allow-Origin") = Some (js "http://localhost:5173")
  /\ header (OauthLogin.handler unconfigured fixed_bytes
               (login_request (Some (js "GET")) None))
       (js "Access-Control-Allow-Origin") = None.
Proof.
  split.
  - destruct (login_responses_carry_cors development fixed_bytes
                (login_request (Some (js "PUT")) None)) as (H & _).
    destruct (H eq_refl) as (o & Ho & _). rewrite Ho. vm_compute in Ho.
    injection Ho as <-. reflexivity.
  - destruct (login_responses_carry_cors unconfigured fixed_bytes
                (login_request (Some (js "GET")) None)) as (_ & H).
    exact (H eq_refl).
Defined.

Lemma login_sets_cookie_only_on_redirect_witness :
  body (OauthLogin.handler development fixed_bytes
          (login_request (Some (js "GET")) (Some (js "prompts")))) = [].
Proof.
  destruct (login_sets_cookie_only_on_redirect development fixed_bytes
              (login_request (Some (js "GET")) (Some (js "prompts")))) as (_ & _ & H).
  apply H. reflexivity.
Defined.

(** ** The callback handler, branch by branch *)

Lemma same_value_true (a b : option (list N)) : same_value a b = true -> a = b.
Proof.
  destruct a as [x|], b as [y|]; simpl; try discriminate; [|reflexivity].
  intros H. apply strict_eq_true in H. congruence.
Qed.

Lemma callback_outcomes (env : Config.environment)
    (fetch : OauthCallback.fetch_request -> completion OauthCallback.token_data)
    (ev : event) :
  Config.valid (Config.validateConfig env) = true ->
  callback_outcome env fetch ev (OauthCallback.handler env fetch ev).
Proof.
  intros Hv. rewrite (handler_valid env fetch ev Hv).
  destruct (truthy (queryStringParameters ev ≫= q_error)) eqn:He.
  { unfold OauthCallback.exchange. rewrite He. apply Refused. auto. }
  destruct (truthy (queryStringParameters ev ≫= q_code)) eqn:Hc.
  2:{ unfold OauthCallback.exchange. rewrite He, Hc. apply Refused. auto. }
  destruct (truthy (queryStringParameters ev ≫= q_state)) eqn:Hs.
  2:{ unfold OauthCallback.exchange. rewrite He, Hc, Hs. apply Refused. auto. }
  rewrite (exchange_after_presence env fetch ev _ He Hc Hs).
  destruct (Cookies.extractStateFromCookies ev) as [stored|e] eqn:Hx;
    [|apply Refused; auto].
  destruct (truthy stored) eqn:Hst; [|apply Refused; auto].
  destruct (same_value stored (queryStringParameters ev ≫= q_state)) eqn:Hsame;
    [|apply Refused; auto].
  apply same_value_true in Hsame. subst stored.
  cbn [negb orb]. cbv zeta.
  destruct (fetch _) as [tokenData|e] eqn:Hf; [|apply Upstream; auto].
  destruct (truthy (OauthCallback.td_error tokenData)) eqn:Hte; [apply Upstream; auto|].
  destruct (truthy (OauthCallback.td_access_token tokenData)) eqn:Hta;
    [|apply Upstream; auto].
  cbn [negb]. apply (Delivered env fetch ev tokenData); auto.
Qed.

(** X9: the callback handler never sets a cookie (the state cookie is left
    to expire); and each of its responses, once the configuration is valid,
    carries [Access-Control-Allow-Origin] with an origin of the allow-list,
    while its configuration-error response carries none. *)
Theorem callback_responses_carry_cors (env : Config.environment)
    (fetch : OauthCallback.fetch_request -> completion OauthCallback.token_data)
    (ev : event) :
  let r := snd (OauthCallback.handler env fetch ev) in
  cookies r = None
  /\ (Config.valid (Config.validateConfig env) = true ->
      exists corsOrigin,
        header r (js "Access-Control-Allow-Origin") = Some corsOrigin
        /\ Cors.isValidOrigin env corsOrigin = true
        /\ (Cors.isValidOrigin env (requestOrigin ev) = true -> corsOrigin = requestOrigin ev))
  /\ (Config.valid (Config.validateConfig env) = false ->
      header r (js "Access-Control-Allow-Origin") = None).
Proof.
  intros r. unfold r.
  destruct (Config.valid (Config.validateConfig env)) eqn:Hv.
  - pose proof (callback_outcomes env fetch ev Hv) as Hout.
    split; [destruct Hout; reflexivity|]. split; [|discriminate].
    intros _. eexists. split; [|split; [apply corsOrigin_valid | intros ->; reflexivity]].
    apply cors_origin_kept.
    destruct Hout; cbn [snd res_headers OauthCallback.html_response].
    + right. left. eexists. eexists. split; [|reflexivity]. discriminate.
    + right. left. eexists. eexists. split; [|reflexivity]. discriminate.
    + right. right. do 4 eexists. split; [|split; [|reflexivity]]; discriminate.
  - unfold OauthCallback.handler. rewrite Hv.
    split; [reflexivity|]. split; [discriminate|]. reflexivity.
Qed.

Lemma callback_responses_carry_cors_witness :
  header (snd (OauthCallback.handler development (provider_returns (Some (js "tok123")))
                 (callback_request (Some (js "oauth_state=5a5a%3Acreate")) (Some (js "abc"))
                    (Some (js "5a5a:create")) None)))
    (js "Access-Control-Allow-Origin") = Some (js "http://localhost:5173").
Proof.
  destruct (callback_responses_carry_cors development (provider_returns (Some (js "tok123")))
              (callback_request (Some (js "oauth_state=5a5a%3Acreate")) (Some (js "abc"))
                 (Some (js "5a5a:create")) None)) as (_ & H & _).
  destruct (H eq_refl) as (o & Ho & _). rewrite Ho. vm_compute in Ho.
  injection Ho as <-. reflexivity.
Defined.



(** X11: once the state check has passed, what the provider answers decides
    the response, and exactly one request has been sent in each case: a
    rejected call or an unreadable answer gives the generic 500 document; an
    answer with an [error] gives 400 with "Failed to obtain access token: "
    followed by [error_description] when that is non-empty and by [error]
    otherwise; an answer with neither error nor access token gives 400 "No
    access token received from GitHub". *)
Theorem callback_upstream_failures (env : Config.environment)
    (fetch : OauthCallback.fetch_request -> completion OauthCallback.token_data)
    (ev : event) :
  Config.valid (Config.validateConfig env) = true ->
  truthy (queryStringParameters ev ≫= q_error) = false ->
  truthy (queryStringParameters ev ≫= q_code) = true ->
  truthy (queryStringParameters ev ≫= q_state) = true ->
  Cookies.extractStateFromCookies ev = Normal (queryStringParameters ev ≫= q_state) ->
  let cors := Cors.getCorsHeaders env ev in
  let request := OauthCallback.token_request env (queryStringParameters ev ≫= q_code) in
  let run := OauthCallback.handler env fetch ev in
  (forall e, fetch request = Throw e ->
     run = ([request], OauthCallback.html_response 500 cors (js "Internal server error")))
  /\ (forall tokenData, fetch request = Normal tokenData ->
        truthy (OauthCallback.td_error tokenData) = true ->
        run = ([request],
               OauthCallback.html_response 400 cors
                 (js "Failed to obtain access token: "
                  ++ interpolate (if truthy (OauthCallback.td_error_description tokenData)
                                  then OauthCallback.td_error_description tokenData
                                  else OauthCallback.td_error tokenData))))
  /\ (forall tokenData, fetch request = Normal tokenData ->
        truthy (OauthCallback.td_error tokenData) = false ->
        truthy (OauthCallback.td_access_token tokenData) = false ->
        run = ([request],
               OauthCallback.html_response 400 cors
                 (js "No access token received from GitHub"))).
Proof.
  intros Hv He Hc Hs Hx cors request run.
  assert (Hrun : run = match OauthCallback.exchange env fetch ev cors with
                       | (sent, Normal r) => (sent, r)
                       | (sent, Throw _) =>
                           (sent, OauthCallback.html_response 500 cors
                                    (js "Internal server error"))
                       end) by apply (handler_valid env fetch ev Hv).
  rewrite (exchange_after_presence env fetch ev cors He Hc Hs), Hx in Hrun.
  rewrite (stored_state_accepted _ Hs) in Hrun. cbv zeta in Hrun. fold request in Hrun.
  split; [|split].
  - intros e Hf. rewrite Hf in Hrun. exact Hrun.
  - intros tokenData Hf Hte. rewrite Hf, Hte in Hrun. exact Hrun.
  - intros tokenData Hf Hte Hta. rewrite Hf, Hte, Hta in Hrun. exact Hrun.
Qed.

Lemma callback_upstream_failures_witness :
  OauthCallback.handler development
    (fun _ => Normal {| OauthCallback.td_error := Some (js "bad_verification_code");
                        OauthCallback.td_error_description :=
                          Some (js "The code passed is incorrect or expired.");
                        OauthCallback.td_access_token := None |})
    (callback_request (Some (js "oauth_state=5a5a%3Acreate")) (Some (js "abc"))
       (Some (js "5a5a:create")) None)
  = ([OauthCallback.token_request development (Some (js "abc"))],
     OauthCallback.html_response 400
       (Cors.getCorsHeaders development
          (callback_request (Some (js "oauth_state=5a5a%3Acreate")) (Some (js "abc"))
             (Some (js "5a5a:create")) None))
       (js "Failed to obtain access token: The code passed is incorrect or expired.")).
Proof.
  destruct (callback_upstream_failures development
              (fun _ => Normal {| OauthCallback.td_error := Some (js "bad_verification_code");
                                  OauthCallback.td_error_description :=
                                    Some (js "The code passed is incorrect or expired.");
                                  OauthCallback.td_access_token := None |})
              (callback_request (Some (js "oauth_state=5a5a%3Acreate")) (Some (js "abc"))
                 (Some (js "5a5a:create")) None))
    as (_ & H & _);
    [reflexivity | reflexivity | reflexivity | reflexivity | vm_compute; reflexivity |].
  apply (H _ eq_refl eq_refl).
Defined.

(** ** The redirect of the login handler *)

Lemma lower_hex_plain (c : N) :
  is_lower_hex c = true ->
  is_high_surrogate c = false /\ is_low_surrogate c = false
  /\ (c <? 0x80) = true /\ (c =? 0x20) = false /\ form_unescaped c = true.
Proof.
  intros H. destruct (unescaped_not_surrogate c (lower_hex_unescaped c H)) as [Hh Hl].
  unfold is_lower_hex in H. to_prop H.
  split; [exact Hh|]. split; [exact Hl|].
  split; [apply N.ltb_lt; lia|]. split; [apply N.eqb_neq; lia|].
  unfold form_unescaped. destruct H as [[H1 H2]|[H1 H2]].
  - replace ((48 <=? c) && (c <=? 57)) with true; [rewrite ?orb_true_r; reflexivity|].
    symmetry. apply andb_true_iff. split; apply N.leb_le; lia.
  - replace ((97 <=? c) && (c <=? 122)) with true; [rewrite ?orb_true_r; reflexivity|].
    symmetry. apply andb_true_iff. split; apply N.leb_le; lia.
Qed.

Lemma form_encode_hex (c : N) (s : list N) :
  is_lower_hex c = true -> form_encode (c :: s) = c :: form_encode s.
Proof.
  intros H. destruct (lower_hex_plain c H) as (Hh & Hl & H7 & Hsp & Hu).
  unfold form_encode. cbn [code_points]. rewrite Hh, Hl.
  cbn [List.map concat]. unfold utf8 at 1. rewrite H7.
  cbn [app List.map concat]. unfold form_octet at 1. rewrite Hsp, Hu. reflexivity.
Qed.

(** In the query string the state token reads: the hexadecimal part, [%3A],
    the form-encoded project. *)
Lemma form_encode_state_token (h p : list N) :
  Forall (fun c => is_lower_hex c = true) h ->
  form_encode (h ++ js ":" ++ p) = h ++ js "%3A" ++ form_encode p.
Proof.
  induction 1 as [|c h Hc _ IH].
  - reflexivity.
  - cbn [app]. rewrite (form_encode_hex c _ Hc), IH. reflexivity.
Qed.

(** X5: the redirect of the login handler goes to GitHub's authorize
    endpoint with the parameters [client_id], [redirect_uri], [scope] and
    [state], in this order and form-encoded; [state] is the issued token
    (hexadecimal part, [%3A], project), and [redirect_uri] is
    [getOAuthCallbackUrl()], the very string the callback handler sends as
    [redirect_uri] in the token exchange. *)
Theorem login_redirect_location (env : Config.environment)
    (randomBytes : nat -> list Byte.byte) (ev : event) :
  statusCode (OauthLogin.handler env randomBytes ev) = 302 ->
  (exists clientId,
     Config.github_clientId (Config.getConfig env) = Some clientId
     /\ header (OauthLogin.handler env randomBytes ev) (js "Location")
        = Some (js "https://github.com/login/oauth/authorize?client_id="
                ++ form_encode clientId
                ++ js "&redirect_uri=" ++ form_encode (Config.getOAuthCallbackUrl env None)
                ++ js "&scope=repo%2Cuser&state="
                ++ toString_hex (randomBytes 16%nat) ++ js "%3A"
                ++ form_encode (OauthLogin.requested_project ev)))
  /\ (forall code,
        OauthCallback.fetch_body (OauthCallback.token_request env code)
        = stringify
            (JObject
               (property (js "client_id") (Config.github_clientId (Config.getConfig env))
                ++ property (js "client_secret")
                     (Config.github_clientSecret (Config.getConfig env))
                ++ property (js "code") code
                ++ [(js "redirect_uri", JString (Config.getOAuthCallbackUrl env None))]))).
Proof.
  intros Hstatus.
  destruct (login_redirect_inv env randomBytes ev Hstatus) as (Hv & _ & c & Hc & _).
  split; [|intros code; reflexivity].
  assert (Hid : truthy (Config.github_clientId (Config.getConfig env)) = true).
  { rewrite validateConfig_valid in Hv. apply andb_prop in Hv as [H _]. exact H. }
  apply truthy_some in Hid as (c0 & s0 & Hid). exists (c0 :: s0). split; [exact Hid|].
  eapply header_with_header.
  rewrite (login_valid env randomBytes ev Hv) in *. cbv zeta in *.
  destruct (OauthLogin.is_literal _ (js "OPTIONS")); [discriminate Hstatus|].
  destruct (OauthLogin.is_literal _ (js "GET")); [|discriminate Hstatus].
  rewrite Hc. cbn [negb res_headers]. f_equal.
  rewrite Hid. cbn [interpolate]. unfold urlencoded.
  cbn [List.map fst snd join Config.github_scope Config.getConfig].
  unfold OauthLogin.stateWithProject. cbv zeta.
  rewrite (form_encode_state_token _ _ (toString_hex_digits _)).
  change (form_encode (js "client_id")) with (js "client_id").
  change (form_encode (js "redirect_uri")) with (js "redirect_uri").
  change (form_encode (js "scope")) with (js "scope").
  change (form_encode (js "state")) with (js "state").
  change (form_encode (js "repo,user")) with (js "repo%2Cuser").
  rewrite <- !app_assoc. reflexivity.
Qed.

Lemma login_redirect_location_witness :
  header (OauthLogin.handler development fixed_bytes
            (login_request (Some (js "GET")) (Some (js "prompts")))) (js "Location")
  = Some (js "https://github.com/login/oauth/authorize?client_id=Iv1.client&redirect_uri=http%3A%2F%2Flocalhost%3A3000%2Foauth%2Fcallback&scope=repo%2Cuser&state=5a5a5a5a5a5a5a5a5a5a5a5a5a5a5a5a%3Aprompts").
Proof.
  destruct (login_redirect_location development fixed_bytes
              (login_request (Some (js "GET")) (Some (js "prompts"))))
    as ((clientId & Hid & Hloc) & _); [reflexivity|].
  rewrite Hloc. vm_compute in Hid. injection Hid as <-. vm_compute. reflexivity.
Defined.

(** ** What makes the login handler fail *)

Lemma encodeURIComponent_throws_URIError (s : list N) (e : js_error) :
  encodeURIComponent s = Throw e -> e = URIError.
Proof.
  assert (Hall : forall n s, (List.length s <= n)%nat ->
                             encodeURIComponent s = Throw e -> e = URIError).
  { clear s. induction n as [|n IH]; intros s Hn He.
    - destruct s; [discriminate He | simpl in Hn; lia].
    - destruct s as [|c r]; [discriminate He|]. simpl in Hn, He.
      destruct (uri_unescaped c).
      { destruct (encodeURIComponent r) eqn:Hr; [discriminate He|].
        apply (IH r); [lia|]. rewrite Hr. cbn in He. congruence. }
      destruct (is_high_surrogate c).
      { destruct r as [|d r']; [congruence|].
        destruct (is_low_surrogate d); [|congruence].
        destruct (encodeURIComponent r') eqn:Hr; [discriminate He|].
        apply (IH r'); [simpl in Hn; lia|]. rewrite Hr. cbn in He. congruence. }
      destruct (is_low_surrogate c); [congruence|].
      destruct (encodeURIComponent r) eqn:Hr; [discriminate He|].
      apply (IH r); [lia|]. rewrite Hr. cbn in He. congruence. }
  apply (Hall (List.length s)). lia.
Qed.

(** Only a well-formed string can be encoded. *)
Lemma encodeURIComponent_only_well_formed (s e : list N) :
  encodeURIComponent s = Normal e -> is_string s = true -> isWellFormed s = true.
Proof.
  intros He. revert s e He.
  apply (encodeURIComponent_cases (fun v e => is_string v = true -> isWellFormed v = true)).
  - reflexivity.
  - intros c r e Hu _ IH Hs. apply is_string_cons in Hs as [Hc Hs].
    destruct (unescaped_not_surrogate c Hu) as [Hh Hl].
    simpl. rewrite Hh, Hl, (IH Hs).
    replace (c <? 0x10000) with true by (symmetry; apply N.ltb_lt; exact Hc). reflexivity.
  - intros c d r e _ Hh Hl _ IH Hs.
    apply is_string_cons in Hs as [_ Hs]. apply is_string_cons in Hs as [_ Hs].
    simpl. rewrite Hh, Hl, (IH Hs). reflexivity.
  - intros c r e _ Hh Hl _ IH Hs. apply is_string_cons in Hs as [Hc Hs].
    simpl. rewrite Hh, Hl, (IH Hs).
    replace (c <? 0x10000) with true by (symmetry; apply N.ltb_lt; exact Hc). reflexivity.
Qed.

(** X6: for a GET request under a valid configuration the login handler
    redirects (302) exactly when the requested project is a well-formed
    string; a project with an unpaired surrogate makes the cookie encoder
    throw, and the handler's [catch] answers 500 with the JSON body
    [{"error":"Internal server error","message":"URI malformed"}], the CORS
    headers and no cookie. *)
Theorem login_fails_on_lone_surrogate (env : Config.environment)
    (randomBytes : nat -> list Byte.byte) (ev : event) :
  Config.valid (Config.validateConfig env) = true ->
  or_else (httpMethod ev) (requestContext_http_method ev) = Some (js "GET") ->
  is_string (OauthLogin.requested_project ev) = true ->
  let r := OauthLogin.handler env randomBytes ev in
  (statusCode r = 302 <-> isWellFormed (OauthLogin.requested_project ev) = true)
  /\ (isWellFormed (OauthLogin.requested_project ev) = false ->
      r = {| statusCode := 500;
             res_headers := with_header (Cors.getCorsHeaders env ev)
                              (js "Content-Type") (js "application/json");
             cookies := None;
             body := stringify
                       (JObject [(js "error", JString (js "Internal server error"));
                                 (js "message", JString (js "URI malformed"))]) |}).
Proof.
  intros Hv Hget Hs r.
  assert (Hr : r = match encodeURIComponent (OauthLogin.requested_project ev) with
                   | Normal _ => r
                   | Throw _ =>
                       {| statusCode := 500;
                          res_headers := with_header (Cors.getCorsHeaders env ev)
                                           (js "Content-Type") (js "application/json");
                          cookies := None;
                          body := stringify
                                    (JObject [(js "error", JString (js "Internal server error"));
                                              (js "message", JString (js "URI malformed"))]) |}
                   end).
  { destruct (encodeURIComponent (OauthLogin.requested_project ev)) as [e|e] eqn:He;
      [reflexivity|].
    pose proof (encodeURIComponent_throws_URIError _ _ He) as ->.
    unfold r. rewrite (login_valid env randomBytes ev Hv). cbv zeta. rewrite Hget.
    change (OauthLogin.is_literal (Some (js "GET")) (js "OPTIONS")) with false.
    change (OauthLogin.is_literal (Some (js "GET")) (js "GET")) with true.
    cbn [negb]. rewrite createCookieHeader_state.
    unfold OauthLogin.stateWithProject. cbv zeta.
    rewrite (encode_state_token _ _ (toString_hex_digits _)), He. reflexivity. }
  split; [split|].
  - intros H302. destruct (encodeURIComponent (OauthLogin.requested_project ev)) as [e|e] eqn:He.
    + apply (encodeURIComponent_only_well_formed _ e He Hs).
    + rewrite Hr in H302. discriminate H302.
  - intros Hwf. apply (login_redirects_any_project env randomBytes ev Hv Hget Hwf).
  - intros Hwf.
    destruct (encodeURIComponent (OauthLogin.requested_project ev)) as [e|e] eqn:He;
      [|exact Hr].
    rewrite (encodeURIComponent_only_well_formed _ e He Hs) in Hwf. discriminate.
Qed.

Lemma login_fails_on_lone_surrogate_witness :
  statusCode (OauthLogin.handler development fixed_bytes
                (login_request (Some (js "GET")) (Some [0xD83D]))) = 500.
Proof.
  destruct (login_fails_on_lone_surrogate development fixed_bytes
              (login_request (Some (js "GET")) (Some [0xD83D])))
    as (_ & H); [reflexivity | reflexivity | reflexivity |].
  rewrite (H eq_refl). reflexivity.
Defined.

(** ** Pieces of a split string *)

Lemma split_pieces_without (sep : N) (s : list N) :
  Forall (Forall (fun c => c <> sep)) (split sep s).
Proof.
  induction s as [|c r IH]; simpl; [repeat constructor|].
  destruct (N.eqb_spec c sep) as [->|Hne]; [constructor; [constructor | exact IH]|].
  destruct (split sep r) as [|p ps]; [repeat constructor; exact Hne|].
  inversion IH as [|? ? Hp Hps]; subst.
  constructor; [constructor; [exact Hne | exact Hp] | exact Hps].
Qed.

Lemma split_pieces_keep (P : N -> Prop) (sep : N) (s : list N) :
  Forall P s -> Forall (Forall P) (split sep s).
Proof.
  induction 1 as [|c r Hc _ IH]; simpl; [repeat constructor|].
  destruct (c =? sep); [constructor; [constructor | exact IH]|].
  destruct (split sep r) as [|p ps]; [repeat constructor; exact Hc|].
  inversion IH as [|? ? Hp Hps]; subst.
  constructor; [constructor; [exact Hc | exact Hp] | exact Hps].
Qed.

(** ** The project component of a state *)

Lemma project_of_issued_state (env : Config.environment)
    (randomBytes : nat -> list Byte.byte) (ev : event) :
  Some (OauthCallback.project_of_state (OauthLogin.stateWithProject env randomBytes ev))
  = split 58 (OauthLogin.requested_project ev) !! 0%nat.
Proof.
  unfold OauthLogin.stateWithProject, OauthCallback.project_of_state. cbv zeta.
  change (js ":" ++ OauthLogin.requested_project ev)
    with (58 :: OauthLogin.requested_project ev).
  rewrite split_at_first.
  2:{ eapply Forall_impl; [apply toString_hex_digits|]. apply lower_hex_not_colon. }
  cbn [lookup list_lookup].
  destruct (split 58 (OauthLogin.requested_project ev)) as [|p ps] eqn:E;
    [destruct (split_nonempty _ _ E) | reflexivity].
Qed.

(** X12: the callback handler takes as project the text between the first
    and the second colon of the state, and [create] when the state has no
    colon.  So the project a login request asks for comes back from the
    issued token exactly when it has no colon itself; otherwise only its
    part before the first colon comes back. *)
Theorem project_of_state_component (env : Config.environment)
    (randomBytes : nat -> list Byte.byte) (ev : event) :
  let token := OauthLogin.stateWithProject env randomBytes ev in
  Some (OauthCallback.project_of_state token)
  = split 58 (OauthLogin.requested_project ev) !! 0%nat
  /\ (OauthCallback.project_of_state token = OauthLogin.requested_project ev
      <-> Forall (fun c => c <> 58) (OauthLogin.requested_project ev))
  /\ (forall state, Forall (fun c => c <> 58) state ->
                    OauthCallback.project_of_state state = js "create").
Proof.
  intros token.
  pose proof (project_of_issued_state env randomBytes ev) as Hfirst.
  fold token in Hfirst.
  split; [exact Hfirst|]. split; [split|].
  - intros Heq. rewrite Heq in Hfirst.
    pose proof (split_pieces_without 58 (OauthLogin.requested_project ev)) as Hp.
    destruct (split 58 (OauthLogin.requested_project ev)) as [|p ps]; [discriminate Hfirst|].
    cbn [lookup list_lookup] in Hfirst. injection Hfirst as <-.
    inversion Hp; assumption.
  - intros Hno. rewrite (split_without 58 _ Hno) in Hfirst.
    cbn [lookup list_lookup] in Hfirst. congruence.
  - intros state Hno. unfold OauthCallback.project_of_state.
    rewrite (split_without 58 _ Hno). reflexivity.
Qed.

Lemma project_of_state_component_witness :
  OauthCallback.project_of_state (js "5a5a5a5a") = js "create"
  /\ OauthCallback.project_of_state
       (OauthLogin.stateWithProject development fixed_bytes
          (login_request (Some (js "GET")) (Some (js "team:blue"))))
     = js "team".
Proof.
  destruct (project_of_state_component development fixed_bytes
              (login_request (Some (js "GET")) (Some (js "team:blue"))))
    as (Hfirst & _ & Hnone).
  split.
  - apply Hnone. repeat constructor; discriminate.
  - exact (f_equal (default []) Hfirst).
Defined.

(** ** The cookies read from a header *)

Lemma trimStart_keeps (P : N -> Prop) (s : list N) : Forall P s -> Forall P (trimStart s).
Proof.
  induction 1 as [|c r Hc Hr IH]; simpl; [constructor|].
  destruct (is_whitespace c); [exact IH | constructor; assumption].
Qed.

Lemma trim_keeps (P : N -> Prop) (s : list N) : Forall P s -> Forall P (trim s).
Proof.
  intros H. unfold trim, trimEnd.
  apply Forall_rev, trimStart_keeps, Forall_rev, trimStart_keeps, H.
Qed.

Lemma uri_tokens_nonempty (s : list N) (ts : list uri_token) :
  s <> [] -> uri_tokens s = Normal ts -> ts <> [].
Proof.
  destruct s as [|c r]; [contradiction|]. intros _. simpl.
  destruct (c =? 37).
  - destruct r as [|h [|l r']]; try discriminate.
    destruct (hex_octet h l); [|discriminate].
    destruct (uri_tokens r'); [|discriminate]. intros H. injection H as <-. discriminate.
  - destruct (uri_tokens r); [|discriminate]. intros H. injection H as <-. discriminate.
Qed.

Lemma utf16_nonempty (cp : N) : utf16 cp <> [].
Proof. unfold utf16. destruct (cp <? 0x10000); discriminate. Qed.

Lemma utf8_units_nonempty (ts : list uri_token) (s : list N) :
  ts <> [] -> utf8_units ts = Normal s -> s <> [].
Proof.
  assert (Happ : forall cp (c : completion (list N)),
            app (utf16 cp) <$> c = Normal s -> s <> []).
  { intros cp [x|e] H; [|discriminate]. cbn in H. injection H as <-.
    pose proof (utf16_nonempty cp). destruct (utf16 cp); [contradiction|discriminate]. }
  assert (Hcons : forall b (c : completion (list N)), cons b <$> c = Normal s -> s <> []).
  { intros b [x|e] H; [|discriminate]. cbn in H. injection H as <-. discriminate. }
  destruct ts as [|[c|b] r]; [contradiction| |]; intros _; simpl.
  - apply Hcons.
  - destruct (b <? 0x80); [apply Hcons|].
    destruct (b <? 0xC0); [discriminate|].
    destruct (b <? 0xE0).
    { destruct r as [|[?|b2] r']; try discriminate.
      destruct (utf8_cp2 b b2); [apply Happ | discriminate]. }
    destruct (b <? 0xF0).
    { destruct r as [|[?|b2] [|[?|b3] r']]; try discriminate.
      destruct (utf8_cp3 b b2 b3); [apply Happ | discriminate]. }
    destruct (b <? 0xF8); [|discriminate].
    destruct r as [|[?|b2] [|[?|b3] [|[?|b4] r']]]; try discriminate.
    destruct (utf8_cp4 b b2 b3 b4); [apply Happ | discriminate].
Qed.

Lemma decodeURIComponent_nonempty (s d : list N) :
  s <> [] -> decodeURIComponent s = Normal d -> d <> [].
Proof.
  intros Hs. unfold decodeURIComponent.
  destruct (uri_tokens s) as [ts|] eqn:Ht; [|discriminate].
  apply utf8_units_nonempty, (uri_tokens_nonempty s ts Hs Ht).
Qed.

Lemma parseCookie_entries (m m' : gmap (list N) (list N)) (piece : list N) :
  (forall k v, m !! k = Some v -> cookie_entry_ok k v) ->
  Forall (fun c => c <> 59) piece ->
  Cookies.parseCookie m piece = Normal m' ->
  forall k v, m' !! k = Some v -> cookie_entry_ok k v.
Proof.
  intros Hm Hpiece. unfold Cookies.parseCookie.
  pose proof (split_pieces_without 61 (trim piece)) as Heq.
  pose proof (split_pieces_keep (fun c => c <> 59) 61 (trim piece)
                (trim_keeps _ piece Hpiece)) as Hsemi.
  destruct (split 61 (trim piece)) as [|name rest]; cbn [lookup list_lookup].
  { intros H. assert (m' = m) by (change (Normal m = Normal m') in H; congruence).
    subst. exact Hm. }
  assert (Hsame : Normal m = Normal m' -> forall k v, m' !! k = Some v -> cookie_entry_ok k v).
  { intros H. assert (m' = m) by congruence. subst. exact Hm. }
  destruct name as [|c n]; [exact Hsame|].
  destruct rest as [|value rest']; cbn [lookup list_lookup]; [exact Hsame|].
  destruct value as [|d v0]; [exact Hsame|].
  destruct (decodeURIComponent (d :: v0)) as [decoded|] eqn:Hd; [|discriminate].
  intros H.
  assert (Hm' : m' = object_set m (c :: n) decoded).
  { change (Normal (object_set m (c :: n) decoded) = Normal m') in H. congruence. }
  subst m'. unfold object_set.
  destruct (strict_eq (c :: n) (js "__proto__")) eqn:Hp; [exact Hm|].
  intros k v. destruct (decide (c :: n = k)) as [<-|Hne].
  - rewrite lookup_insert_eq. intros Hv. injection Hv as <-.
    split; [discriminate|]. split.
    + apply (decodeURIComponent_nonempty (d :: v0)); [discriminate | exact Hd].
    + split.
      * intros Heqp. rewrite Heqp, strict_eq_refl in Hp. discriminate.
      * inversion Heq as [|? ? Hn _]; subst. inversion Hsemi as [|? ? Hn' _]; subst.
        rewrite List.Forall_forall in *. intros x Hx. split; [apply Hn' | apply Hn]; exact Hx.
  - rewrite lookup_insert_ne by exact Hne. apply Hm.
Qed.

Lemma forEach_entries (pieces : list (list N)) (m m' : gmap (list N) (list N)) :
  (forall k v, m !! k = Some v -> cookie_entry_ok k v) ->
  Forall (Forall (fun c => c <> 59)) pieces ->
  Cookies.forEach pieces m = Normal m' ->
  forall k v, m' !! k = Some v -> cookie_entry_ok k v.
Proof.
  intros Hm Hpieces. revert m Hm.
  induction Hpieces as [|piece rest Hp _ IH]; intros m Hm H.
  - assert (m' = m) by (change (Normal m = Normal m') in H; congruence). subst. exact Hm.
  - cbn [Cookies.forEach] in H.
    destruct (Cookies.parseCookie m piece) as [m1|] eqn:E; [|discriminate].
    apply (IH m1); [|exact H]. apply (parseCookie_entries m m1 piece Hm Hp E).
Qed.

(** X16: every entry [parseCookies] returns has a non-empty name without ';'
    or '=', different from [__proto__], and a non-empty value; so
    [extractStateFromCookies] gives either [null] or a non-empty string. *)
Theorem parseCookies_entries (ev : event) (cookies : gmap (list N) (list N)) :
  Cookies.parseCookies ev = Normal cookies ->
  (forall k v, cookies !! k = Some v ->
     k <> [] /\ v <> [] /\ k <> js "__proto__"
     /\ Forall (fun c => c <> 59 /\ c <> 61) k)
  /\ (Cookies.extractStateFromCookies ev = Normal None
      \/ exists c s, Cookies.extractStateFromCookies ev = Normal (Some (c :: s))).
Proof.
  intros Hparse.
  assert (Hall : forall k v, cookies !! k = Some v -> cookie_entry_ok k v).
  { unfold Cookies.parseCookies, Cookies.parseCookieHeader in Hparse.
    refine (forEach_entries _ ∅ cookies _ (split_pieces_without 59 _) Hparse).
    intros k v H. rewrite lookup_empty in H. discriminate. }
  split; [exact Hall|].
  unfold Cookies.extractStateFromCookies. rewrite Hparse. cbn [mbind completion_bind].
  destruct (cookies !! js "oauth_state") as [[|c s]|]; [left | right | left]; try reflexivity.
  eauto.
Qed.

Lemma parseCookies_entries_witness :
  Cookies.extractStateFromCookies
    (callback_request (Some (js "=x; oauth_state=; a")) None None None)
  = Normal None.
Proof.
  destruct (parseCookies_entries
              (callback_request (Some (js "=x; oauth_state=; a")) None None None) ∅)
    as (_ & [H | (c & s & H)]); [vm_compute; reflexivity | exact H |].
  vm_compute in H. discriminate H.
Defined.

(** ** A login followed by its callback *)

Lemma issued_state_is_string (env : Config.environment)
    (randomBytes : nat -> list Byte.byte) (ev : event) :
  is_string (OauthLogin.requested_project ev) = true ->
  is_string (OauthLogin.stateWithProject env randomBytes ev) = true.
Proof.
  intros Hp. unfold OauthLogin.stateWithProject. cbv zeta.
  rewrite !is_string_app, toString_hex_is_string, Hp. reflexivity.
Qed.

Lemma issued_state_truthy (env : Config.environment)
    (randomBytes : nat -> list Byte.byte) (ev : event) :
  truthy (Some (OauthLogin.stateWithProject env randomBytes ev)) = true.
Proof.
  unfold OauthLogin.stateWithProject. cbv zeta.
  destruct (toString_hex _); reflexivity.
Qed.

Lemma state_cookie_first_piece (env : Config.environment) (value stateCookie : list N) :
  is_string value = true ->
  Cookies.createCookieHeader (js "oauth_state") value
    (Cookies.getCookieOptions (Config.NODE_ENV env)) = Normal stateCookie ->
  exists encoded,
    encodeURIComponent value = Normal encoded
    /\ split 59 stateCookie !! 0%nat = Some (js "oauth_state=" ++ encoded).
Proof.
  intros Hs. rewrite createCookieHeader_state.
  destruct (encodeURIComponent value) as [encoded|] eqn:He; [|discriminate].
  intros H. exists encoded. split; [reflexivity|].
  assert (Hc : stateCookie
               = (js "oauth_state=" ++ encoded)
                 ++ 59 :: (js " HttpOnly"
                           ++ (if Config.isProduction env then js "; Secure" else [])
                           ++ js "; SameSite=Lax; Max-Age=600; Path=/")).
  { change (Normal (js "oauth_state=" ++ encoded ++ js "; HttpOnly"
                    ++ (if Config.isProduction env then js "; Secure" else [])
                    ++ js "; SameSite=Lax; Max-Age=600; Path=/") = Normal stateCookie) in H.
    injection H as <-. rewrite <- app_assoc. reflexivity. }
  rewrite Hc, split_at_first; [reflexivity|].
  apply Forall_app. split.
  - apply List.Forall_forall. intros c Hin. vm_compute in Hin.
    repeat (destruct Hin as [<-|Hin]; [discriminate|]). contradiction.
  - eapply Forall_impl; [exact (encodeURIComponent_chars _ _ He Hs)|].
    intros c Hc'. apply uri_char_plain in Hc'. tauto.
Qed.

(** X13: a callback that brings back the cookie of a login redirect (its
    part before the first ';'), carries the issued state and a code, and
    whose token exchange yields an access token, is answered with the
    success document; one token request is sent, and the token is posted to
    the origin resolved from the part of the requested project before its
    first colon. *)
Theorem login_then_callback (env : Config.environment)
    (randomBytes : nat -> list Byte.byte)
    (fetch : OauthCallback.fetch_request -> completion OauthCallback.token_data)
    (login callback : event) (stateCookie project token : list N)
    (tokenData : OauthCallback.token_data) :
  is_string (OauthLogin.requested_project login) = true ->
  statusCode (OauthLogin.handler env randomBytes login) = 302 ->
  cookies (OauthLogin.handler env randomBytes login) = Some [stateCookie] ->
  split 59 stateCookie !! 0%nat = Some (Cookies.cookieHeader callback) ->
  truthy (queryStringParameters callback ≫= q_error) = false ->
  truthy (queryStringParameters callback ≫= q_code) = true ->
  queryStringParameters callback ≫= q_state
  = Some (OauthLogin.stateWithProject env randomBytes login) ->
  fetch (OauthCallback.token_request env (queryStringParameters callback ≫= q_code))
  = Normal tokenData ->
  truthy (OauthCallback.td_error tokenData) = false ->
  OauthCallback.td_access_token tokenData = Some token -> token <> [] ->
  split 58 (OauthLogin.requested_project login) !! 0%nat = Some project ->
  let '(sent, r) := OauthCallback.handler env fetch callback in
  sent = [OauthCallback.token_request env (queryStringParameters callback ≫= q_code)]
  /\ statusCode r = 200
  /\ cookies r = None
  /\ body r = OauthCallback.generatePostMessageHTML (Some token)
                (Cors.getFrontendOrigin env project).
Proof.
  intros Hstr H302 Hcookies Hback Herr Hcode Hstate Hfetch Hte Hta Htok Hproj.
  destruct (login_redirect_inv env randomBytes login H302) as (Hvalid & _ & c & Hc & Hc').
  rewrite Hcookies in Hc'. injection Hc' as <-.
  destruct (state_cookie_first_piece env _ _
              (issued_state_is_string env randomBytes login Hstr) Hc)
    as (encoded & Henc & Hfirst).
  rewrite Hfirst in Hback. injection Hback as Hback.
  pose proof (issued_cookie_is_accepted env randomBytes login callback encoded
                Hstr Henc (eq_sym Hback)) as Hstored.
  rewrite (handler_valid env fetch callback Hvalid).
  rewrite (exchange_after_presence env fetch callback _ Herr Hcode);
    [|rewrite Hstate; apply issued_state_truthy].
  rewrite Hstored, Hstate.
  rewrite (stored_state_accepted _ (issued_state_truthy env randomBytes login)).
  cbv zeta. rewrite Hfetch, Hte, Hta.
  assert (Ht : truthy (Some token) = true) by (destruct token; [contradiction | reflexivity]).
  rewrite Ht. cbn [negb statusCode cookies body interpolate].
  pose proof (project_of_issued_state env randomBytes login) as Hp.
  rewrite Hproj in Hp. injection Hp as ->.
  repeat split; reflexivity.
Qed.

Lemma login_then_callback_witness :
  let '(sent, r) :=
    OauthCallback.handler development (provider_returns (Some (js "gho_16C7e42F")))
      (callback_request
         (Some (js "oauth_state=5a5a5a5a5a5a5a5a5a5a5a5a5a5a5a5a%3Aprompts"))
         (Some (js "4f1c")) (Some (js "5a5a5a5a5a5a5a5a5a5a5a5a5a5a5a5a:prompts")) None) in
  sent = [OauthCallback.token_request development (Some (js "4f1c"))]
  /\ statusCode r = 200
  /\ cookies r = None
  /\ body r = OauthCallback.generatePostMessageHTML (Some (js "gho_16C7e42F"))
                (Cors.getFrontendOrigin development (js "prompts")).
Proof.
  refine (login_then_callback development fixed_bytes
            (provider_returns (Some (js "gho_16C7e42F")))
            (login_request (Some (js "GET")) (Some (js "prompts")))
            (callback_request
               (Some (js "oauth_state=5a5a5a5a5a5a5a5a5a5a5a5a5a5a5a5a%3Aprompts"))
               (Some (js "4f1c")) (Some (js "5a5a5a5a5a5a5a5a5a5a5a5a5a5a5a5a:prompts")) None)
            _ (js "prompts") (js "gho_16C7e42F") _ _ _ _ _ _ _ _ _ _ _ _ _);
    try (vm_compute; reflexivity); try discriminate.
Defined.

(** ** The client secret *)

Section Secret.

Variables env env' : Config.environment.
Hypothesis Hsame : differ_only_in_secret env env'.
Hypothesis Hset :
  truthy (Config.github_clientSecret (Config.getConfig env))
  = truthy (Config.github_clientSecret (Config.getConfig env')).

Lemma secret_validateConfig : Config.validateConfig env = Config.validateConfig env'.
Proof.
  destruct Hsame as (H1 & H2 & H3 & H4 & H5).
  unfold Config.validateConfig. cbv zeta. rewrite Hset.
  destruct env, env'; cbn in H1, H2, H3, H4, H5; subst. reflexivity.
Qed.

Lemma secret_getCorsHeaders (ev : event) :
  Cors.getCorsHeaders env ev = Cors.getCorsHeaders env' ev.
Proof.
  destruct Hsame as (H1 & H2 & H3 & H4 & H5).
  destruct env, env'; cbn in H1, H2, H3, H4, H5; subst. reflexivity.
Qed.

Lemma secret_getFrontendOrigin (project : list N) :
  Cors.getFrontendOrigin env project = Cors.getFrontendOrigin env' project.
Proof.
  destruct Hsame as (H1 & H2 & H3 & H4 & H5).
  destruct env, env'; cbn in H1, H2, H3, H4, H5; subst. reflexivity.
Qed.

Lemma secret_issue (randomBytes : nat -> list Byte.byte) (ev : event)
    (cors : list (list N * list N)) :
  OauthLogin.issue env randomBytes ev cors = OauthLogin.issue env' randomBytes ev cors.
Proof.
  destruct Hsame as (H1 & H2 & H3 & H4 & H5).
  destruct env, env'; cbn in H1, H2, H3, H4, H5; subst. reflexivity.
Qed.

Lemma secret_login (randomBytes : nat -> list Byte.byte) (ev : event) :
  OauthLogin.handler env randomBytes ev = OauthLogin.handler env' randomBytes ev.
Proof.
  unfold OauthLogin.handler. cbv zeta.
  rewrite secret_validateConfig, secret_getCorsHeaders, secret_issue. reflexivity.
Qed.

Lemma secret_callback
    (fetch fetch' : OauthCallback.fetch_request -> completion OauthCallback.token_data)
    (ev : event) :
  fetch' (OauthCallback.token_request env' (queryStringParameters ev ≫= q_code))
  = fetch (OauthCallback.token_request env (queryStringParameters ev ≫= q_code)) ->
  (OauthCallback.handler env fetch ev).2 = (OauthCallback.handler env' fetch' ev).2.
Proof.
  intros Hf. unfold OauthCallback.handler. cbv zeta.
  rewrite secret_validateConfig, secret_getCorsHeaders.
  destruct (negb _); [reflexivity|].
  unfold OauthCallback.exchange. cbv zeta. rewrite Hf.
  destruct (truthy (queryStringParameters ev ≫= q_error)); [reflexivity|].
  destruct (negb _ || negb _); [reflexivity|].
  destruct (Cookies.extractStateFromCookies ev) as [stored|]; [|reflexivity].
  destruct (negb _ || negb _); [reflexivity|].
  destruct (fetch _) as [tokenData|]; [|reflexivity].
  destruct (truthy (OauthCallback.td_error tokenData)); [reflexivity|].
  destruct (negb _); [reflexivity|].
  cbn [snd]. rewrite secret_getFrontendOrigin. reflexivity.
Qed.

End Secret.

(** X14: the client secret reaches the responses only through whether one is
    set and through the provider's answer: two environments that differ only
    in the secret, both with one set or both without, give the same login
    response, and the same callback response whenever the provider answers
    their token requests alike. *)
Theorem client_secret_stays_server_side (env env' : Config.environment)
    (randomBytes : nat -> list Byte.byte)
    (fetch fetch' : OauthCallback.fetch_request -> completion OauthCallback.token_data)
    (ev : event) :
  differ_only_in_secret env env' ->
  truthy (Config.github_clientSecret (Config.getConfig env))
  = truthy (Config.github_clientSecret (Config.getConfig env')) ->
  OauthLogin.handler env randomBytes ev = OauthLogin.handler env' randomBytes ev
  /\ (fetch' (OauthCallback.token_request env' (queryStringParameters ev ≫= q_code))
      = fetch (OauthCallback.token_request env (queryStringParameters ev ≫= q_code)) ->
      (OauthCallback.handler env fetch ev).2 = (OauthCallback.handler env' fetch' ev).2).
Proof.
  intros Hsame Hset. split.
  - apply secret_login; assumption.
  - apply secret_callback; assumption.
Qed.

Lemma client_secret_stays_server_side_witness :
  OauthLogin.handler development fixed_bytes
    (login_request (Some (js "GET")) (Some (js "prompts")))
  = OauthLogin.handler development_rotated fixed_bytes
      (login_request (Some (js "GET")) (Some (js "prompts")))
  /\ OauthCallback.token_request development (Some (js "4f1c"))
     <> OauthCallback.token_request development_rotated (Some (js "4f1c")).
Proof.
  split.
  - refine (proj1 (client_secret_stays_server_side development development_rotated
                     fixed_bytes (provider_returns None) (provider_returns None)
                     (login_request (Some (js "GET")) (Some (js "prompts"))) _ _)).
    + repeat split.
    + reflexivity.
  - vm_compute. discriminate.
Defined.

(** ** The attributes of a cookie header *)

Lemma createCookieHeader_suffix (name : list N) (options : Cookies.cookie_options) :
  exists suffix,
    (suffix = [] \/ exists r, suffix = 59 :: r)
    /\ forall v, Cookies.createCookieHeader name v options
                 = (fun encoded => (name ++ js "=" ++ encoded) ++ suffix)
                     <$> encodeURIComponent v.
Proof.
  exists ((if Cookies.httpOnly options then js "; HttpOnly" else [])
          ++ (if Cookies.secure options then js "; Secure" else [])
          ++ (if truthy (Cookies.sameSite options)
              then js "; SameSite=" ++ interpolate (Cookies.sameSite options) else [])
          ++ match Cookies.maxAge options with
             | Some (Npos n) => js "; Max-Age=" ++ number_to_string (Npos n)
             | _ => []
             end
          ++ (if truthy (Cookies.path options)
              then js "; Path=" ++ interpolate (Cookies.path options) else [])
          ++ (if truthy (Cookies.domain options)
              then js "; Domain=" ++ interpolate (Cookies.domain options) else [])).
  split.
  - destruct (Cookies.httpOnly options); [right; eexists; reflexivity|].
    destruct (Cookies.secure options); [right; eexists; reflexivity|].
    destruct (truthy (Cookies.sameSite options)); [right; eexists; reflexivity|].
    destruct (Cookies.maxAge options) as [[|n]|]; [|right; eexists; reflexivity|];
      (destruct (truthy (Cookies.path options)); [right; eexists; reflexivity|];
       destruct (truthy (Cookies.domain options)); [right; eexists; reflexivity|];
       left; reflexivity).
  - intros v. unfold Cookies.createCookieHeader.
    destruct (encodeURIComponent v) as [encoded|]; [|reflexivity].
    cbn [mbind completion_bind fmap completion_fmap mret completion_ret]. cbv zeta.
    f_equal.
    destruct (Cookies.httpOnly options), (Cookies.secure options),
      (truthy (Cookies.sameSite options)), (Cookies.maxAge options) as [[|n]|],
      (truthy (Cookies.path options)), (truthy (Cookies.domain options));
      cbn [app]; rewrite <- ?app_assoc, ?app_nil_r; reflexivity.
Qed.

(** X15: for options whose [maxAge] is absent or a non-negative integer
    below 2^53, the value, whatever it is, stays inside the first ';'-piece
    of the header [createCookieHeader] builds: that piece is the name, '='
    and the encoded value, and the pieces after it (the attributes) are the
    same for every value. *)
Theorem createCookieHeader_confines_value (name v header : list N)
    (options : Cookies.cookie_options) :
  maxAge_in_range options = true ->
  is_string v = true ->
  Forall (fun c => c <> 59) name ->
  Cookies.createCookieHeader name v options = Normal header ->
  (exists encoded,
     encodeURIComponent v = Normal encoded
     /\ split 59 header !! 0%nat = Some (name ++ js "=" ++ encoded))
  /\ forall v' header',
       is_string v' = true ->
       Cookies.createCookieHeader name v' options = Normal header' ->
       tail (split 59 header') = tail (split 59 header).
Proof.
  intros _ Hs Hname.
  destruct (createCookieHeader_suffix name options) as (suffix & Hsuffix & Hform).
  assert (Hpiece : forall w e, is_string w = true -> encodeURIComponent w = Normal e ->
                     Forall (fun c => c <> 59) (name ++ js "=" ++ e)).
  { intros w e Hw He. apply Forall_app. split; [exact Hname|].
    apply Forall_app. split; [repeat constructor; discriminate|].
    eapply Forall_impl; [exact (encodeURIComponent_chars _ _ He Hw)|].
    intros c Hc. apply uri_char_plain in Hc. tauto. }
  assert (Hsplit : forall w h, is_string w = true ->
            Cookies.createCookieHeader name w options = Normal h ->
            exists e, encodeURIComponent w = Normal e
                      /\ split 59 h = (name ++ js "=" ++ e)
                                      :: match suffix with
                                         | [] => []
                                         | _ :: r => split 59 r
                                         end).
  { intros w h Hw. rewrite Hform.
    destruct (encodeURIComponent w) as [e|] eqn:He; [|discriminate].
    intros H. exists e. split; [reflexivity|].
    assert (h = (name ++ js "=" ++ e) ++ suffix).
    { change (Normal ((name ++ js "=" ++ e) ++ suffix) = Normal h) in H. congruence. }
    subst h. destruct Hsuffix as [->|(r & ->)].
    - rewrite app_nil_r. apply split_without. exact (Hpiece w e Hw He).
    - apply split_at_first. exact (Hpiece w e Hw He). }
  intros Hh. destruct (Hsplit v header Hs Hh) as (e & He & Hv). split.
  - exists e. split; [exact He|]. rewrite Hv. reflexivity.
  - intros v' header' Hs' Hh'. destruct (Hsplit v' header' Hs' Hh') as (e' & _ & Hv').
    rewrite Hv, Hv'. reflexivity.
Qed.

Lemma createCookieHeader_confines_value_witness :
  split 59 (js "sid=a%3B%20Secure; HttpOnly; SameSite=Lax; Max-Age=600; Path=/")
  !! 0%nat = Some (js "sid=a%3B%20Secure").
Proof.
  destruct (createCookieHeader_confines_value (js "sid") (js "a; Secure")
              (js "sid=a%3B%20Secure; HttpOnly; SameSite=Lax; Max-Age=600; Path=/")
              (Cookies.getCookieOptions None))
    as ((encoded & Henc & Hfirst) & _).
  - reflexivity.
  - reflexivity.
  - repeat constructor; discriminate.
  - vm_compute. reflexivity.
  - rewrite Hfirst. vm_compute in Henc. injection Henc as <-. reflexivity.
Defined.

(** ** The state token, from the random bytes to the callback *)

Lemma hex_octet_of_byte (b : Byte.byte) :
  hex_octet (hex_lower (Byte.to_N b / 16)) (hex_lower (Byte.to_N b mod 16))
  = Some (Byte.to_N b).
Proof. destruct b; reflexivity. Qed.

Lemma hex_decode_toString_hex (buf : list Byte.byte) :
  hex_decode (toString_hex buf) = Some (List.map Byte.to_N buf).
Proof.
  induction buf as [|b buf IH]; [reflexivity|].
  change (toString_hex (b :: buf))
    with (hex_lower (Byte.to_N b / 16) :: hex_lower (Byte.to_N b mod 16)
          :: toString_hex buf).
  cbn [hex_decode List.map]. rewrite hex_octet_of_byte, IH. reflexivity.
Qed.

Lemma project_ids_encode (p : list N) :
  In p Config.project_ids ->
  encodeURIComponent p = Normal p /\ form_encode p = p /\ isWellFormed p = true.
Proof.
  intros [<-|[<-|[]]]; repeat split; vm_compute; reflexivity.
Qed.

(** C3: for a registered project id [p], the state token the login handler
    issues is [h ++ ":" ++ p], where [h] is the lower-case hexadecimal form
    of the 16 random bytes: 32 digits which, read two by two, give these
    bytes back; the callback's extraction of the project from that token
    gives [p] back.  The token is the one of the response: for a GET request
    under a valid configuration the handler redirects, the [state] parameter
    of the [Location] URL and the value of the [oauth_state] cookie are both
    [h ++ "%3A" ++ p], and that value decodes to the token. *)
Theorem state_token_round_trip (env : Config.environment)
    (randomBytes : nat -> list Byte.byte) (ev : event) (p : list N) :
  (forall n, List.length (randomBytes n) = n) ->
  In p Config.project_ids ->
  OauthLogin.requested_project ev = p ->
  let h := toString_hex (randomBytes 16%nat) in
  let token := h ++ js ":" ++ p in
  let r := OauthLogin.handler env randomBytes ev in
  OauthLogin.stateWithProject env randomBytes ev = token
  /\ List.length h = 32%nat
  /\ Forall (fun c => is_lower_hex c = true) h
  /\ hex_decode h = Some (List.map Byte.to_N (randomBytes 16%nat))
  /\ OauthCallback.project_of_state token = p
  /\ (Config.valid (Config.validateConfig env) = true ->
      or_else (httpMethod ev) (requestContext_http_method ev) = Some (js "GET") ->
      statusCode r = 302
      /\ cookies r
         = Some [js "oauth_state=" ++ (h ++ js "%3A" ++ p) ++ js "; HttpOnly"
                 ++ (if Config.isProduction env then js "; Secure" else [])
                 ++ js "; SameSite=Lax; Max-Age=600; Path=/"]
      /\ decodeURIComponent (h ++ js "%3A" ++ p) = Normal token
      /\ exists clientId,
           Config.github_clientId (Config.getConfig env) = Some clientId
           /\ header r (js "Location")
              = Some (js "https://github.com/login/oauth/authorize?client_id="
                      ++ form_encode clientId
                      ++ js "&redirect_uri="
                      ++ form_encode (Config.getOAuthCallbackUrl env None)
                      ++ js "&scope=repo%2Cuser&state=" ++ (h ++ js "%3A" ++ p))).
Proof.
  intros Hlen Hp Hreq h token r.
  assert (Htok : OauthLogin.stateWithProject env randomBytes ev = token).
  { unfold OauthLogin.stateWithProject. rewrite Hreq. reflexivity. }
  destruct (project_ids_encode p Hp) as (Henc & Hform & Hwf).
  assert (Hvalue : encodeURIComponent token = Normal (h ++ js "%3A" ++ p)).
  { unfold token, h. rewrite (encode_state_token _ _ (toString_hex_digits _)), Henc.
    reflexivity. }
  split; [exact Htok|].
  split; [unfold h; rewrite toString_hex_length, Hlen; reflexivity|].
  split; [apply toString_hex_digits|].
  split; [apply hex_decode_toString_hex|].
  split.
  { apply project_of_state_token.
    - eapply Forall_impl; [apply toString_hex_digits|]. apply lower_hex_not_colon.
    - apply project_ids_no_colon, Hp. }
  intros Hvalid Hget.
  assert (Hstr : is_string token = true).
  { rewrite <- Htok. apply issued_state_is_string. rewrite Hreq.
    destruct Hp as [<-|[<-|[]]]; reflexivity. }
  assert (Hcookie : Cookies.createCookieHeader (js "oauth_state") token
                      (Cookies.getCookieOptions (Config.NODE_ENV env))
                    = Normal (js "oauth_state=" ++ (h ++ js "%3A" ++ p) ++ js "; HttpOnly"
                              ++ (if Config.isProduction env then js "; Secure" else [])
                              ++ js "; SameSite=Lax; Max-Age=600; Path=/")).
  { rewrite createCookieHeader_state, Hvalue. reflexivity. }
  assert (Hr : r = {| statusCode := 302;
                      res_headers :=
                        with_header (Cors.getCorsHeaders env ev) (js "Location")
                          (js "https://github.com/login/oauth/authorize" ++ js "?"
                           ++ urlencoded
                                [(js "client_id",
                                  interpolate (Config.github_clientId (Config.getConfig env)));
                                 (js "redirect_uri", Config.getOAuthCallbackUrl env None);
                                 (js "scope", Config.github_scope (Config.getConfig env));
                                 (js "state", token)]);
                      cookies := Some [js "oauth_state=" ++ (h ++ js "%3A" ++ p)
                                       ++ js "; HttpOnly"
                                       ++ (if Config.isProduction env then js "; Secure"
                                           else [])
                                       ++ js "; SameSite=Lax; Max-Age=600; Path=/"];
                      body := [] |}).
  { unfold r. rewrite (login_valid env randomBytes ev Hvalid). cbv zeta.
    rewrite Hget, Htok, Hcookie. reflexivity. }
  split; [rewrite Hr; reflexivity|].
  split; [rewrite Hr; reflexivity|].
  split; [exact (decodeURIComponent_encodeURIComponent _ _ Hvalue Hstr)|].
  assert (Hid : truthy (Config.github_clientId (Config.getConfig env)) = true).
  { rewrite validateConfig_valid in Hvalid. apply andb_prop in Hvalid as [H _]. exact H. }
  apply truthy_some in Hid as (c0 & s0 & Hid). exists (c0 :: s0). split; [exact Hid|].
  eapply header_with_header. rewrite Hr. cbn [res_headers]. f_equal.
  rewrite Hid. cbn [interpolate]. unfold urlencoded.
  cbn [List.map fst snd join Config.github_scope Config.getConfig].
  unfold token, h.
  rewrite (form_encode_state_token _ _ (toString_hex_digits _)), Hform.
  change (form_encode (js "client_id")) with (js "client_id").
  change (form_encode (js "redirect_uri")) with (js "redirect_uri").
  change (form_encode (js "scope")) with (js "scope").
  change (form_encode (js "state")) with (js "state").
  change (form_encode (js "repo,user")) with (js "repo%2Cuser").
  rewrite <- !app_assoc. reflexivity.
Qed.

Lemma state_token_round_trip_witness :
  OauthCallback.project_of_state
    (toString_hex (fixed_bytes 16) ++ js ":" ++ js "prompts")
  = js "prompts"
  /\ hex_decode (toString_hex (fixed_bytes 16))
     = Some (List.map Byte.to_N (fixed_bytes 16))
  /\ statusCode (OauthLogin.handler development fixed_bytes
                   (login_request (Some (js "GET")) (Some (js "prompts")))) = 302.
Proof.
  destruct (state_token_round_trip development fixed_bytes
              (login_request (Some (js "GET")) (Some (js "prompts"))) (js "prompts"))
    as (_ & _ & _ & Hhex & Hproject & Hresponse).
  - intros n. unfold fixed_bytes. apply length_replicate.
  - right. left. reflexivity.
  - reflexivity.
  - split; [exact Hproject|]. split; [exact Hhex|].
    apply Hresponse; reflexivity.
Defined.
